(** * Browser bridge: correlator, state reconstructor and tab proxies

    A shallow embedding of [browser_use/bridge_controller.py] and the
    properties its specification states about it.

    Part I embeds the Python code: the values that [json.loads] produces,
    the handful of Python primitives the code applies to them, then the
    classes [BridgeController], [BridgeSession], [BridgePageProxy] and
    [CurrentPageProxy], each in a module of its name.  Part II states and
    proves the properties. *)

From Stdlib Require Import ZArith DecimalString.
From stdpp Require Import gmap strings list.

Local Open Scope Z_scope.
Local Open Scope string_scope.

(* ===================================================================== *)
(** * Part I.  The embedding *)
(* ===================================================================== *)

(** ** Python values

    The values that travel over the bridge are the ones [json.loads]
    builds: [None], booleans, integers, strings, lists and dictionaries
    with string keys.  JSON numbers with a fractional part are outside the
    model.  A dictionary is the list of its items in insertion order; a
    lookup takes the first item with the key. *)

#[warnings="-register-all"] Inductive value : Type :=
| VNone
| VBool (b : bool)
| VInt (n : Z)
| VStr (s : string)
| VList (l : list value)
| VDict (d : list (string * value)).

(** The exceptions the code raises or meets.  [Exception msg] is
    [raise Exception(msg)]; the next three are raised by the interpreter
    ([x.get] on a non-dictionary, a subscript or [len] or an iteration the
    type does not support, an unhashable key, a missing key);
    [TimeoutError] is [asyncio.TimeoutError], the one exception the code
    catches by name (line 130); [OtherError] stands for what else the
    transport can raise (a closed connection, ...).  All of them are
    caught by [except Exception]; the cancellation of a task is outside
    the model. *)

Inductive exn : Type :=
| Exception (msg : string)
| AttributeError
| TypeError
| KeyError
| TimeoutError
| OtherError (name : string).

(** What evaluating a call gives: a value or a raised exception. *)

Inductive outcome (A : Type) : Type :=
| Returns (a : A)
| Raises (e : exn).

Arguments Returns {A} a.
Arguments Raises {A} e.

Definition outcome_bind {A B} (o : outcome A) (f : A -> outcome B) : outcome B :=
  match o with
  | Returns a => f a
  | Raises e => Raises e
  end.

(** [repr] is Python's [__repr__].  For lists and dictionaries it is the
    interpreter's, for [DOMElementNode] the library's; neither is in this
    repository, so both are taken as given. *)

Class Repr (A : Type) := repr : A -> string.

(** ** Python primitives *)

(** [bool(v)]: what [if v], [v or w], [v and w] test. *)
Definition truthy (v : value) : bool :=
  match v with
  | VNone => false
  | VBool b => b
  | VInt n => negb (n =? 0)%Z
  | VStr s => negb (String.eqb s "")
  | VList l => match l with [] => false | _ => true end
  | VDict d => match d with [] => false | _ => true end
  end.

(** [v or w] and [v and w] return one of their operands. *)
Definition py_or (v w : value) : value := if truthy v then v else w.
Definition py_and (v w : value) : value := if truthy v then w else v.

(** First item of a dictionary with key [k]. *)
Fixpoint dict_get {V} (k : string) (d : list (string * V)) : option V :=
  match d with
  | [] => None
  | (k', v) :: d' => if String.eqb k' k then Some v else dict_get k d'
  end.

(** [v.get(k, dflt)]; only dictionaries have the method. *)
Definition py_get (v : value) (k : string) (dflt : value) : outcome value :=
  match v with
  | VDict d => Returns (default dflt (dict_get k d))
  | _ => Raises AttributeError
  end.

(** [v[k]] with a string [k]: a dictionary raises [KeyError] when the key
    is missing, every other JSON value raises [TypeError]. *)
Definition py_getitem (v : value) (k : string) : outcome value :=
  match v with
  | VDict d => match dict_get k d with
               | Some x => Returns x
               | None => Raises KeyError
               end
  | _ => Raises TypeError
  end.

(** [len(v)]. *)
Definition py_len (v : value) : outcome Z :=
  match v with
  | VStr s => Returns (Z.of_nat (String.length s))
  | VList l => Returns (Z.of_nat (length l))
  | VDict d => Returns (Z.of_nat (length d))
  | _ => Raises TypeError
  end.

(** Characters of a string, one string each. *)
Fixpoint chars (s : string) : list value :=
  match s with
  | EmptyString => []
  | String c s' => VStr (String c EmptyString) :: chars s'
  end.

(** What [for x in v] runs through: the items of a list, the keys of a
    dictionary, the characters of a string. *)
Definition py_iter (v : value) : outcome (list value) :=
  match v with
  | VList l => Returns l
  | VDict d => Returns (map (fun kv => VStr (fst kv)) d)
  | VStr s => Returns (chars s)
  | _ => Raises TypeError
  end.

(** [v == w].  Booleans are integers ([True == 1]); lists compare item by
    item; dictionaries compare as mappings, whatever the order. *)
Fixpoint py_eq (v w : value) : bool :=
  match v, w with
  | VNone, VNone => true
  | VBool a, VBool b => Bool.eqb a b
  | VBool a, VInt n => (Z.b2z a =? n)%Z
  | VInt n, VBool b => (n =? Z.b2z b)%Z
  | VInt n, VInt m => (n =? m)%Z
  | VStr s, VStr t => String.eqb s t
  | VList l, VList l' =>
      (fix go (l l' : list value) : bool :=
         match l, l' with
         | [], [] => true
         | x :: r, y :: r' => py_eq x y && go r r'
         | _, _ => false
         end) l l'
  | VDict d, VDict d' =>
      (length d =? length d')%nat &&
      (fix go (d : list (string * value)) : bool :=
         match d with
         | [] => true
         | (k, x) :: r =>
             match dict_get k d' with
             | Some y => py_eq x y && go r
             | None => false
             end
         end) d
  | _, _ => false
  end.

(** [str(v)], what an f-string puts in place of [{v}]. *)
Definition py_str `{Repr value} (v : value) : string :=
  match v with
  | VNone => "None"
  | VBool true => "True"
  | VBool false => "False"
  | VInt n => NilZero.string_of_int (Z.to_int n)
  | VStr s => s
  | VList _ | VDict _ => repr v
  end.

(** Values that can be dictionary keys. *)
Definition hashable (v : value) : bool :=
  match v with
  | VList _ | VDict _ => false
  | _ => true
  end.

(** ** Python dictionaries keyed by values

    [SelectorMap] is a [dict] keyed by whatever the extension reported as
    index.  The items are kept in insertion order; assigning to a key that
    is already there (up to [==]) replaces the value in place. *)

Definition pydict (V : Type) : Type := list (value * V).

Fixpoint dict_lookup {V} (k : value) (d : pydict V) : option V :=
  match d with
  | [] => None
  | (k', v) :: d' => if py_eq k' k then Some v else dict_lookup k d'
  end.

Fixpoint dict_store {V} (k : value) (v : V) (d : pydict V) : pydict V :=
  match d with
  | [] => [(k, v)]
  | (k', v') :: d' =>
      if py_eq k' k then (k', v) :: d' else (k', v') :: dict_store k v d'
  end.

(** [d[k] = v]. *)
Definition dict_setitem {V} (k : value) (v : V) (d : pydict V) : outcome (pydict V) :=
  if hashable k then Returns (dict_store k v d) else Raises TypeError.

(** [list(d.values())]. *)
Definition dict_values {V} (d : pydict V) : list V := map snd d.

(** Every key of a dictionary went through [dict_setitem], so is
    hashable. *)
Definition keys_hashable {V} (d : pydict V) : Prop :=
  Forall (fun kv => hashable (fst kv) = true) d.

(* ===================================================================== *)
(** ** class BridgeController: transport server and correlator *)
(* ===================================================================== *)

Module BridgeController.

(** An entry of [pending_commands]: [{'event': asyncio.Event(), 'result':
    None}].  [event] tells whether the event is set. *)
Record waiter : Type := Waiter {
  event : bool;
  result : value
}.

(** The fields of the controller the protocol uses.  [ws] is the
    connection of the extension ([None] when there is none), named by a
    number. *)
Record state : Type := State {
  ws : option nat;
  connected : bool;
  pending_commands : gmap string waiter
}.

(** [__init__]. *)
Definition init : state :=
  {| ws := None; connected := false; pending_commands := ∅ |}.

(** [is_connected]: [self.connected and self.ws is not None]. *)
Definition is_connected (st : state) : bool :=
  connected st && bool_decide (is_Some (ws st)).

Definition with_pending (st : state) (p : gmap string waiter) : state :=
  {| ws := ws st; connected := connected st; pending_commands := p |}.

(** [cmd_id in self.pending_commands].  The keys are the strings
    [send_command] made, so only a string can be found; a list or a
    dictionary cannot be hashed. *)
Definition is_pending (cmd_id : value) (st : state) : outcome bool :=
  match cmd_id with
  | VStr s => Returns (bool_decide (is_Some (pending_commands st !! s)))
  | VList _ | VDict _ => Raises TypeError
  | _ => Returns false
  end.

(** [_handle_message] (lines 82-95).  For a response whose id is pending,
    the result slot is written and the event set; the entry stays in the
    map. *)
Definition _handle_message (data : value) (st : state) : outcome unit * state :=
  match py_get data "type" VNone with
  | Raises e => (Raises e, st)
  | Returns msg_type =>
      if py_eq msg_type (VStr "ready") then (Returns tt, st)
      else if py_eq msg_type (VStr "response") then
        match py_get data "id" VNone with
        | Raises e => (Raises e, st)
        | Returns cmd_id =>
            match is_pending cmd_id st with
            | Raises e => (Raises e, st)
            | Returns false => (Returns tt, st)
            | Returns true =>
                match cmd_id, py_get data "result" VNone with
                | VStr s, Returns r =>
                    (Returns tt,
                     with_pending st
                       (<[s := {| event := true; result := r |}]> (pending_commands st)))
                | _, Raises e => (Raises e, st)
                | _, Returns _ => (Returns tt, st)
                end
            end
        end
      else if py_eq msg_type (VStr "error") then (Returns tt, st)
      else (Returns tt, st)
  end.

(** The body of the receive loop of [start_server] (lines 47-55) for one
    frame.  [message] is what [json.loads] made of the frame, [None] when
    it is not JSON.  Whatever is raised is logged and the loop goes on. *)
Definition on_message (message : option value) (st : state) : state :=
  match message with
  | None => st
  | Some data =>
      match py_get data "type" (VStr "unknown") with
      | Raises _ => st
      | Returns _ => snd (_handle_message data st)
      end
  end.

(** The handler of [start_server] when the extension connects (lines
    38-39) and when the connection ends (lines 62-63). *)
Definition on_connect (c : nat) (st : state) : state :=
  {| ws := Some c; connected := true; pending_commands := pending_commands st |}.

Definition on_disconnect (st : state) : state :=
  {| ws := None; connected := false; pending_commands := pending_commands st |}.

(** The envelope [send_command] writes. *)
Definition command_frame (cmd_id method : string) (params : value) : value :=
  VDict [("type", VStr "command");
         ("id", VStr cmd_id);
         ("command", VDict [("method", VStr method); ("params", params)])].

(** [send_command] is a coroutine: it runs up to [await
    asyncio.wait_for(event.wait(), timeout=30.0)], is suspended there
    while the loop handles frames, and is resumed either because the wait
    completed or because the 30 seconds passed first.  The two halves are
    embedded one by one.

    [send_command_begin] is lines 99-119, with the handlers of lines
    130-138 for a send that fails.  [cmd_id] is the string [uuid.uuid4()]
    gave; [sent] is what [self.ws.send] did: [None] when it returned,
    [Some e] when it raised [e].  The send is inside the [try], so an
    [asyncio.TimeoutError] from it is caught by line 130 and surfaces as
    [Exception("Command timeout")]; anything else is re-raised by line
    138.  Either handler deletes the entry.  On success the frame written
    is returned. *)
Definition send_command_begin (cmd_id method : string) (params : value)
    (sent : option exn) (st : state) : outcome value * state :=
  if negb (connected st) || negb (bool_decide (is_Some (ws st))) then
    (Raises (Exception "Bridge extension not connected"), st)
  else
    let st1 :=
      with_pending st (<[cmd_id := {| event := false; result := VNone |}]> (pending_commands st)) in
    match sent with
    | None => (Returns (command_frame cmd_id method params), st1)
    | Some TimeoutError =>
        (Raises (Exception "Command timeout"),
         with_pending st1 (delete cmd_id (pending_commands st1)))
    | Some e =>
        (Raises e, with_pending st1 (delete cmd_id (pending_commands st1)))
    end.

(** How the wait of line 122 ended.  [Signalled]: [event.wait()] returned
    and [wait_for] handed its result on.  [TimedOut]: the 30 seconds
    passed first and [wait_for] raised [asyncio.TimeoutError]; the loop
    may well have handled a response between the firing of the timer and
    the moment the sender runs, so the event can be set and the result
    written when the sender finds itself timed out. *)
Inductive wakeup : Type :=
| Signalled
| TimedOut.

(** Whether the wait of the sender of [cmd_id] can end that way in [st]:
    [event.wait()] returns only once the event is set; the timer asks for
    nothing. *)
Definition may_wake (how : wakeup) (cmd_id : string) (st : state) : bool :=
  match how with
  | Signalled =>
      match pending_commands st !! cmd_id with
      | Some w => event w
      | None => false
      end
  | TimedOut => true
  end.

(** [send_command_resume] is lines 124-138, run when the coroutine is
    resumed.  After a wait that completed, lines 125-128 read the result
    and delete the entry, without looking at the event.  After a timeout,
    lines 130-133 delete the entry and raise
    [Exception("Command timeout")], without looking at the event or the
    result either.  An entry that is gone (only possible if two commands
    drew the same id) gives [KeyError] on either path. *)
Definition send_command_resume (how : wakeup) (cmd_id : string) (st : state) :
    outcome value * state :=
  match how, pending_commands st !! cmd_id with
  | Signalled, Some w =>
      (Returns (result w), with_pending st (delete cmd_id (pending_commands st)))
  | TimedOut, Some w =>
      (Raises (Exception "Command timeout"),
       with_pending st (delete cmd_id (pending_commands st)))
  | _, None => (Raises KeyError, st)
  end.

(** What can happen on the event loop, as far as the controller's state
    goes: the extension connects or disconnects, a frame arrives, a sender
    starts a command, a suspended sender is resumed.  A sender whose wait
    cannot end the way the action says stays suspended. *)
Inductive action : Type :=
| Connect (c : nat)
| Disconnect
| Message (message : option value)
| Begin (cmd_id method : string) (params : value) (sent : option exn)
| Resume (cmd_id : string) (how : wakeup).

Definition step (st : state) (a : action) : state :=
  match a with
  | Connect c => on_connect c st
  | Disconnect => on_disconnect st
  | Message m => on_message m st
  | Begin cmd_id method params sent => snd (send_command_begin cmd_id method params sent st)
  | Resume cmd_id how =>
      if may_wake how cmd_id st then snd (send_command_resume how cmd_id st) else st
  end.

Definition run (st : state) (l : list action) : state := fold_left step l st.

(** A response frame for [cmd_id]. *)
Definition response (cmd_id : string) (r : value) : value :=
  VDict [("type", VStr "response"); ("id", VStr cmd_id); ("result", r)].

(** Whether a parsed frame is a response that carries [cmd_id]. *)
Definition is_response_for (cmd_id : string) (data : value) : bool :=
  match py_get data "type" VNone, py_get data "id" VNone with
  | Returns t, Returns i => py_eq t (VStr "response") && py_eq i (VStr cmd_id)
  | _, _ => false
  end.

(** Whether an action concerns the command [cmd_id]: a response with the
    id, or the sender of a command with the same id. *)
Definition concerns (cmd_id : string) (a : action) : bool :=
  match a with
  | Message (Some data) => is_response_for cmd_id data
  | Begin c _ _ _ | Resume c _ => String.eqb c cmd_id
  | _ => false
  end.

(** Whether an action starts a command with the id [cmd_id] (again). *)
Definition restarts (cmd_id : string) (a : action) : bool :=
  match a with
  | Begin c _ _ _ => String.eqb c cmd_id
  | _ => false
  end.

End BridgeController.

(* ===================================================================== *)
(** ** Programs that talk to the bridge *)
(* ===================================================================== *)

(** The session and the tab proxies reach the extension only through
    [self.bridge.is_connected()] and [await self.bridge.send_command(method,
    params)].  A program is the tree of these calls: at each one it waits
    for the answer and goes on from it. *)

Inductive prog (A : Type) : Type :=
| Done (a : A)
| IsConnected (k : bool -> prog A)
| SendCommand (method : string) (params : value) (k : outcome value -> prog A).

Arguments Done {A} a.
Arguments IsConnected {A} k.
Arguments SendCommand {A} method params k.

Fixpoint prog_bind {A B} (p : prog A) (f : A -> prog B) : prog B :=
  match p with
  | Done a => f a
  | IsConnected k => IsConnected (fun b => prog_bind (k b) f)
  | SendCommand method params k => SendCommand method params (fun o => prog_bind (k o) f)
  end.

(** A method of an object with fields [St]: it reads and writes the
    fields, may call the bridge, and returns or raises.  What was written
    before an exception stays written. *)
Definition M (St A : Type) : Type := St -> prog (outcome A * St).

Definition ret {St A} (a : A) : M St A := fun s => Done (Returns a, s).

Definition raise {St A} (e : exn) : M St A := fun s => Done (Raises e, s).

Definition bind {St A B} (m : M St A) (f : A -> M St B) : M St B :=
  fun s => prog_bind (m s) (fun r =>
    match r with
    | (Returns a, s') => f a s'
    | (Raises e, s') => Done (Raises e, s')
    end).

(** [try: m except Exception as e: h e]. *)
Definition try_except {St A} (m : M St A) (h : exn -> M St A) : M St A :=
  fun s => prog_bind (m s) (fun r =>
    match r with
    | (Returns a, s') => Done (Returns a, s')
    | (Raises e, s') => h e s'
    end).

(** An expression that may raise. *)
Definition eval {St A} (o : outcome A) : M St A := fun s => Done (o, s).

Definition get_self {St} : M St St := fun s => Done (Returns s, s).

Definition set_self {St} (s' : St) : M St unit := fun _ => Done (Returns tt, s').

Definition is_connected {St} : M St bool :=
  fun s => IsConnected (fun b => Done (Returns b, s)).

Definition send_command {St} (method : string) (params : value) : M St value :=
  fun s => SendCommand method params (fun o => Done (o, s)).

(** Both [outcome] and [M St] are monads; stdpp's notation [x ← m; k]
    sequences them. *)
#[global] Instance outcome_ret : MRet outcome := @Returns.
#[global] Instance outcome_mbind : MBind outcome := fun A B f o => outcome_bind o f.
#[global] Instance M_ret {St} : MRet (M St) := @ret St.
#[global] Instance M_mbind {St} : MBind (M St) := fun A B f m => bind m f.

(** The methods of [BridgeController] the session uses (lines 140-165). *)
Definition bridge_navigate {St} (url : value) : M St value :=
  send_command "navigate" (VDict [("url", url)]).

Definition bridge_click {St} (x y index : value) : M St value :=
  match index with
  | VNone => send_command "click" (VDict [("x", x); ("y", y)])
  | _ => send_command "click" (VDict [("index", index)])
  end.

Definition bridge_type_text {St} (text : value) : M St value :=
  send_command "type" (VDict [("text", text)]).

Definition bridge_evaluate {St} (expression : value) : M St value :=
  send_command "evaluate" (VDict [("expression", expression)]).

Definition bridge_get_dom {St} : M St value :=
  send_command "get_dom" (VDict []).

(** The other end: whether the controller is connected and, for each
    command, what [send_command] gives back, the result of the response or
    the exception (not connected, timeout, failed send).  No method below
    sends the same command twice in one call, so one answer per command
    says all there is. *)
Record bridge : Type := Bridge {
  connected : bool;
  reply : string -> value -> outcome value
}.

Fixpoint exec {A} (b : bridge) (p : prog A) : A :=
  match p with
  | Done a => a
  | IsConnected k => exec b (k (connected b))
  | SendCommand method params k => exec b (k (reply b method params))
  end.

(** The commands a program sends when the bridge answers as [b]. *)
Fixpoint sent {A} (b : bridge) (p : prog A) : list (string * value) :=
  match p with
  | Done _ => []
  | IsConnected k => sent b (k (connected b))
  | SendCommand method params k => (method, params) :: sent b (k (reply b method params))
  end.

(* ===================================================================== *)
(** ** The classes of the page model *)
(* ===================================================================== *)

(** Modelled from the spec: the classes [Coordinates], [CoordinateSet],
    [ViewportInfo], [DOMElementNode], [PageInfo], [TabInfo] and
    [BrowserStateSummary] are imported from modules that are not among
    the sources.  Section 3 of the specification gives them as plain
    records (quad, ElementSnapshot, PageMetrics, TabDescriptor,
    PageModel); the fields below are the keyword arguments of the
    constructor calls in [bridge_controller.py], and a constructor stores
    its arguments as they are. *)

Module Coordinates.
Record t : Type := Make {
  x : value;
  y : value
}.
End Coordinates.

Module CoordinateSet.
Record t : Type := Make {
  top_left : Coordinates.t;
  top_right : Coordinates.t;
  bottom_left : Coordinates.t;
  bottom_right : Coordinates.t;
  center : Coordinates.t;
  width : value;
  height : value
}.
End CoordinateSet.

Module ViewportInfo.
Record t : Type := Make {
  scrollX : value;
  scrollY : value;
  width : value;
  height : value
}.
End ViewportInfo.

(** The parent of a node is a reference to the root the reconstructor
    builds; the root itself has none. *)
Inductive node_ref : Type := RootElement.

#[warnings="-register-all"] Inductive DOMElementNode : Type := MakeNode {
  tag_name : value;
  xpath : value;
  attributes : value;
  children : list DOMElementNode;
  is_visible : value;
  is_interactive : value;
  is_top_element : value;
  is_in_viewport : value;
  shadow_root : value;
  highlight_index : value;
  viewport_coordinates : option CoordinateSet.t;
  page_coordinates : option CoordinateSet.t;
  viewport_info : ViewportInfo.t;
  parent : option node_ref
}.

(** [node.parent = p]. *)
Definition set_parent (p : option node_ref) (n : DOMElementNode) : DOMElementNode :=
  {| tag_name := tag_name n; xpath := xpath n; attributes := attributes n;
     children := children n; is_visible := is_visible n;
     is_interactive := is_interactive n; is_top_element := is_top_element n;
     is_in_viewport := is_in_viewport n; shadow_root := shadow_root n;
     highlight_index := highlight_index n;
     viewport_coordinates := viewport_coordinates n;
     page_coordinates := page_coordinates n;
     viewport_info := viewport_info n; parent := p |}.

Definition SelectorMap : Type := pydict DOMElementNode.

Module PageInfo.
Record t : Type := Make {
  viewport_width : value;
  viewport_height : value;
  page_width : value;
  page_height : value;
  scroll_x : value;
  scroll_y : value;
  pixels_above : value;
  pixels_below : value;
  pixels_left : value;
  pixels_right : value
}.
End PageInfo.

Module TabInfo.
Record t : Type := Make {
  page_id : Z;
  url : value;
  title : value
}.
End TabInfo.

Module BrowserStateSummary.
Record t : Type := Make {
  element_tree : option DOMElementNode;
  selector_map : SelectorMap;
  url : value;
  title : value;
  tabs : list TabInfo.t;
  page_info : PageInfo.t;
  pixels_above : value;
  pixels_below : value
}.
End BrowserStateSummary.

(* ===================================================================== *)
(** ** The mock page and the tab proxies *)
(* ===================================================================== *)

(** What [hasattr(o, 'id')], [o.id], [hasattr(o, 'url')] and [o.url]
    give on an object [o]: [None] when the attribute is missing. *)
Class PyObject (A : Type) : Type := {
  getattr_id : A -> option value;
  getattr_url : A -> option value
}.

(** [MockPage] of [_create_mock_page] (lines 216-241). *)
Module MockPage.
Record t : Type := Make {
  url : value;
  _title : value
}.

Definition __init__ : t := {| url := VStr "about:blank"; _title := VStr "" |}.

(** The property [title] and its setter, which stores [value or ""]. *)
Definition title (self : t) : value := _title self.

Definition set_title (v : value) (self : t) : t :=
  {| url := url self; _title := py_or v (VStr "") |}.

Definition set_url (v : value) (self : t) : t :=
  {| url := v; _title := _title self |}.

(** [__getattr__] answers [None] for every attribute the page does not
    have, so [hasattr] is true of all of them. *)
#[global] Instance object : PyObject t :=
  {| getattr_id := fun _ => Some VNone; getattr_url := fun p => Some (url p) |}.

(** [evaluate] (lines 250-254): the result of the bridge's [evaluate]
    if it reports success, else [None]. *)
Definition evaluate {St} (script : value) : M St value :=
  result ← bridge_evaluate script;
  ok ← eval (py_get result "success" VNone);
  if truthy ok then eval (py_get result "result" VNone) else mret VNone.
End MockPage.

(** [BridgePageProxy] (lines 573-605). *)
Module BridgePageProxy.
Record t : Type := Make {
  id : value;
  url : value;
  _title : value;
  _closed : bool
}.

Definition __init__ (tab_id url title : value) : t :=
  {| id := tab_id; url := url; _title := title; _closed := false |}.

#[global] Instance object : PyObject t :=
  {| getattr_id := fun p => Some (id p); getattr_url := fun p => Some (url p) |}.

Definition title (self : t) : value := _title self.

Definition is_closed (self : t) : bool := _closed self.

(** [close] (lines 586-592): the proxy is marked closed after
    [send_command] has returned; an exception is logged. *)
Definition close : M t unit :=
  try_except
    (self ← get_self;
     _ ← send_command "close_tab" (VDict [("tabId", id self)]);
     set_self {| id := id self; url := url self; _title := _title self; _closed := true |})
    (fun _ => mret tt).

(** [goto] (lines 594-597). *)
Definition goto (url' : value) : M t unit :=
  self ← get_self;
  _ ← send_command "navigate_tab" (VDict [("tabId", id self); ("url", url')]);
  self ← get_self;
  set_self {| id := id self; url := url'; _title := _title self; _closed := _closed self |}.

(** [__eq__] (lines 599-605). *)
Definition __eq__ {B} `{PyObject B} (self : t) (other : B) : bool :=
  match getattr_id other with
  | Some other_id => py_eq (id self) other_id
  | None =>
      match getattr_url other with
      | Some other_url => py_eq (url self) other_url
      | None => false
      end
  end.
End BridgePageProxy.

(** [CurrentPageProxy] (lines 613-636). *)
Module CurrentPageProxy.
Record t : Type := Make {
  url : value;
  _title : value;
  id : value;
  _closed : bool
}.

Definition __init__ (page : MockPage.t) : t :=
  {| url := MockPage.url page; _title := MockPage.title page;
     id := VInt 1; _closed := false |}.

#[global] Instance object : PyObject t :=
  {| getattr_id := fun p => Some (id p); getattr_url := fun p => Some (url p) |}.

Definition title (self : t) : value := _title self.

Definition is_closed (self : t) : bool := _closed self.

Definition close : M t unit :=
  self ← get_self;
  set_self {| url := url self; _title := _title self; id := id self; _closed := true |}.

Definition goto (url' : value) : M t unit :=
  _ ← bridge_navigate url';
  self ← get_self;
  set_self {| url := url'; _title := _title self; id := id self; _closed := _closed self |}.

(** [__eq__] (lines 633-636). *)
Definition __eq__ {B} `{PyObject B} (self : t) (other : B) : bool :=
  match getattr_url other with
  | Some other_url => py_eq (url self) other_url
  | None => false
  end.
End CurrentPageProxy.

(** An object with a [url] and no [id], and one with neither attribute
    (an integer, say). *)
Module UrlOnly.
Record t : Type := Make {
  url : value
}.

#[global] Instance object : PyObject t :=
  {| getattr_id := fun _ => None; getattr_url := fun o => Some (url o) |}.
End UrlOnly.

#[global] Instance plain_object : PyObject Z :=
  {| getattr_id := fun _ => None; getattr_url := fun _ => None |}.

(* ===================================================================== *)
(** ** class BridgeSession: state reconstructor and action wrappers *)
(* ===================================================================== *)

Module BridgeSession.

Section WithRepr.
Context {value_repr : Repr value} {node_repr : Repr DOMElementNode}.

(** The fields of the session the methods below read or write. *)
Record state : Type := Make {
  current_url : value;
  _tab_infos : value;
  agent_current_page : option MockPage.t
}.

(** [__init__] (lines 187-194). *)
Definition __init__ : state :=
  {| current_url := VNone; _tab_infos := VList [];
     agent_current_page := Some MockPage.__init__ |}.

Definition set_current_url (v : value) : M state unit :=
  self ← get_self;
  set_self {| current_url := v; _tab_infos := _tab_infos self;
              agent_current_page := agent_current_page self |}.

Definition set_tab_infos (v : value) : M state unit :=
  self ← get_self;
  set_self {| current_url := current_url self; _tab_infos := v;
              agent_current_page := agent_current_page self |}.

(** Lines 268-272 and 338-345: the mock page, made anew if the session
    has none, takes the url (and the title). *)
Definition update_mock_page (f : MockPage.t -> MockPage.t) : M state unit :=
  self ← get_self;
  set_self {| current_url := current_url self; _tab_infos := _tab_infos self;
              agent_current_page :=
                Some (f (default MockPage.__init__ (agent_current_page self))) |}.

(** [navigate] (lines 262-274). *)
Definition navigate (url : value) : M state bool :=
  result ← bridge_navigate url;
  ok ← eval (py_get result "success" VNone);
  if truthy ok then
    set_current_url url;;
    update_mock_page (MockPage.set_url url);;
    mret true
  else mret false.

(** *** get_browser_state_with_recovery *)

Definition landing_page : string := "https://www.google.com".

(** Lines 284-292: without a current url, go to the landing page. *)
Definition ensure_start_url : M state unit :=
  self ← get_self;
  if negb (truthy (current_url self)) || py_eq (current_url self) (VStr "about:blank") then
    nav_result ← bridge_navigate (VStr landing_page);
    ok ← eval (py_get nav_result "success" VNone);
    if truthy ok then set_current_url (VStr landing_page) else mret tt
  else mret tt.

(** Lines 309-330: the page metrics with their fallbacks. *)
Definition page_info_of (viewport page pixels : value) : outcome PageInfo.t :=
  vw ← py_get viewport "width" VNone;
  let actual_viewport_width := py_or vw (VInt 1920) in
  vh ← py_get viewport "height" VNone;
  let actual_viewport_height := py_or vh (VInt 1080) in
  pw ← py_get page "width" VNone;
  let actual_page_width := py_or pw actual_viewport_width in
  ph ← py_get page "height" VNone;
  let actual_page_height := py_or ph actual_viewport_height in
  scroll_x ← py_get viewport "scrollX" (VInt 0);
  scroll_y ← py_get viewport "scrollY" (VInt 0);
  above ← py_get pixels "above" (VInt 0);
  below ← py_get pixels "below" (VInt 0);
  left ← py_get pixels "left" (VInt 0);
  right ← py_get pixels "right" (VInt 0);
  mret {| PageInfo.viewport_width := actual_viewport_width;
          PageInfo.viewport_height := actual_viewport_height;
          PageInfo.page_width := actual_page_width;
          PageInfo.page_height := actual_page_height;
          PageInfo.scroll_x := scroll_x;
          PageInfo.scroll_y := scroll_y;
          PageInfo.pixels_above := above;
          PageInfo.pixels_below := below;
          PageInfo.pixels_left := left;
          PageInfo.pixels_right := right |}.

(** [Coordinates(x=c[corner]['x'], y=c[corner]['y'])]. *)
Definition coordinates (c : value) (corner : string) : outcome Coordinates.t :=
  p ← py_getitem c corner;
  x ← py_getitem p "x";
  q ← py_getitem c corner;
  y ← py_getitem q "y";
  mret {| Coordinates.x := x; Coordinates.y := y |}.

(** Lines 363-371 and 376-384. *)
Definition coordinate_set (c : value) : outcome CoordinateSet.t :=
  top_left ← coordinates c "top_left";
  top_right ← coordinates c "top_right";
  bottom_left ← coordinates c "bottom_left";
  bottom_right ← coordinates c "bottom_right";
  center ← coordinates c "center";
  width ← py_getitem c "width";
  height ← py_getitem c "height";
  mret {| CoordinateSet.top_left := top_left;
          CoordinateSet.top_right := top_right;
          CoordinateSet.bottom_left := bottom_left;
          CoordinateSet.bottom_right := bottom_right;
          CoordinateSet.center := center;
          CoordinateSet.width := width;
          CoordinateSet.height := height |}.

(** Lines 360-362 and 373-375: the quad is built only if the element has
    a (truthy) coordinate object under [key]. *)
Definition coordinates_if_present (element : value) (key : string) :
    outcome (option CoordinateSet.t) :=
  present ← py_get element key VNone;
  if truthy present then
    c ← py_getitem element key;
    cs ← coordinate_set c;
    mret (Some cs)
  else mret None.

(** Lines 356-409: the node of one raw element. *)
Definition dom_element (viewport element : value) : outcome DOMElementNode :=
  viewport_coords ← coordinates_if_present element "viewportCoordinates";
  page_coords ← coordinates_if_present element "pageCoordinates";
  scrollX ← py_get viewport "scrollX" (VInt 0);
  scrollY ← py_get viewport "scrollY" (VInt 0);
  width ← py_get viewport "width" (VInt 1920);
  height ← py_get viewport "height" (VInt 1080);
  tag_name ← py_get element "tagName" (VStr "div");
  xpath ← py_get element "xpath" (VStr "");
  attributes ← py_get element "attributes" (VDict []);
  is_visible ← py_get element "isVisible" (VBool true);
  is_interactive ← py_get element "isInteractive" (VBool false);
  is_top_element ← py_get element "isTopElement" (VBool false);
  is_in_viewport ← py_get element "isInViewport" (VBool false);
  shadow_root ← py_get element "shadowRoot" (VBool false);
  highlight_index ← py_get element "index" VNone;
  mret {| tag_name := tag_name; xpath := xpath; attributes := attributes;
          children := [];
          is_visible := is_visible; is_interactive := is_interactive;
          is_top_element := is_top_element; is_in_viewport := is_in_viewport;
          shadow_root := shadow_root;
          highlight_index := highlight_index;
          viewport_coordinates := viewport_coords;
          page_coordinates := page_coords;
          viewport_info :=
            {| ViewportInfo.scrollX := scrollX; ViewportInfo.scrollY := scrollY;
               ViewportInfo.width := width; ViewportInfo.height := height |};
          parent := None |}.

(** Line 411: the key under which an element goes into the map. *)
Definition selector_key (element : value) : outcome value :=
  py_get element "index" (VInt 0).

(** Lines 351-411: the loop over the raw elements. *)
Fixpoint build_selector_map (viewport : value) (elements : list value)
    (selector_map : SelectorMap) : outcome SelectorMap :=
  match elements with
  | [] => mret selector_map
  | element :: rest =>
      node ← dom_element viewport element;
      key ← selector_key element;
      selector_map' ← dict_setitem key node selector_map;
      build_selector_map viewport rest selector_map'
  end.

(** Lines 433-458: the nodes of the map become the children of the root
    and get it as parent.  The nodes are shared between the map and the
    root, so the map holds them with their parent set. *)
Definition adopt (selector_map : SelectorMap) : SelectorMap :=
  map (fun kv => (fst kv, set_parent (Some RootElement) (snd kv))) selector_map.

(** Lines 425-454. *)
Definition root_element_of (viewport : value) (page_info : PageInfo.t)
    (interactive_children : list DOMElementNode) : outcome DOMElementNode :=
  scrollX ← py_get viewport "scrollX" (VInt 0);
  scrollY ← py_get viewport "scrollY" (VInt 0);
  mret {| tag_name := VStr "root"; xpath := VStr ""; attributes := VDict [];
          children := interactive_children;
          is_visible := VBool true; is_interactive := VBool false;
          is_top_element := VBool true; is_in_viewport := VBool true;
          shadow_root := VBool false;
          highlight_index := VNone;
          viewport_coordinates := None;
          page_coordinates := None;
          viewport_info :=
            {| ViewportInfo.scrollX := scrollX; ViewportInfo.scrollY := scrollY;
               ViewportInfo.width := PageInfo.viewport_width page_info;
               ViewportInfo.height := PageInfo.viewport_height page_info |};
          parent := None |}.

(** Lines 298-469: the branch taken when [get_dom] reports success. *)
Definition reconstruct (dom_result : value) : M state BrowserStateSummary.t :=
  dom_data ← eval (py_get dom_result "result" (VDict []));
  logged ← eval (py_get dom_data "elements" (VList []));
  _ ← eval (py_len logged);
  tab_infos ← eval (py_get dom_data "tabs" (VList []));
  set_tab_infos tab_infos;;
  viewport ← eval (py_get dom_data "viewport" (VDict []));
  page ← eval (py_get dom_data "page" (VDict []));
  pixels ← eval (py_get dom_data "pixels" (VDict []));
  page_info ← eval (page_info_of viewport page pixels);
  self ← get_self;
  url ← eval (py_get dom_data "url" (py_or (current_url self) (VStr "about:blank")));
  title ← eval (py_get dom_data "title" (VStr ""));
  set_current_url url;;
  update_mock_page (fun p => MockPage.set_title title (MockPage.set_url url p));;
  elements ← eval (py_get dom_data "elements" (VList []));
  items ← eval (py_iter elements);
  built ← eval (build_selector_map viewport items []);
  let selector_map := adopt built in
  let tab_info := {| TabInfo.page_id := 1; TabInfo.url := url; TabInfo.title := title |} in
  root_element ← eval (root_element_of viewport page_info (dict_values selector_map));
  above ← eval (py_get pixels "above" (VInt 0));
  below ← eval (py_get pixels "below" (VInt 0));
  mret {| BrowserStateSummary.element_tree := Some root_element;
          BrowserStateSummary.selector_map := selector_map;
          BrowserStateSummary.url := url;
          BrowserStateSummary.title := title;
          BrowserStateSummary.tabs := [tab_info];
          BrowserStateSummary.page_info := page_info;
          BrowserStateSummary.pixels_above := above;
          BrowserStateSummary.pixels_below := below |}.

Definition newline : string := String (Ascii.ascii_of_nat 10) EmptyString.

(** The script of lines 480-491. *)
Definition dimension_script : string :=
  String.concat newline
    ["";
     "                    ({";
     "                        viewport: {";
     "                            width: window.visualViewport?.width || window.innerWidth,";
     "                            height: window.visualViewport?.height || window.innerHeight";
     "                        },";
     "                        page: {";
     "                            width: Math.max(document.documentElement.scrollWidth, document.body?.scrollWidth || 0),";
     "                            height: Math.max(document.documentElement.scrollHeight, document.body?.scrollHeight || 0)";
     "                        }";
     "                    })";
     "                "].

(** The dimensions of the degraded state: viewport width and height, page
    width and height. *)
Definition default_dimensions : value * value * value * value :=
  (VInt 1920, VInt 1080, VInt 1920, VInt 1080).

(** Lines 479-511: ask the page for its dimensions; whatever goes wrong,
    take the defaults. *)
Definition probe_dimensions : M state (value * value * value * value) :=
  try_except
    (dimension_result ← bridge_evaluate (VStr dimension_script);
     ok ← eval (py_get dimension_result "success" VNone);
     res ← eval (py_get dimension_result "result" VNone);
     if truthy (py_and ok res) then
       dim_data ← eval (py_getitem dimension_result "result");
       vp ← eval (py_get dim_data "viewport" (VDict []));
       error_viewport_width ← eval (py_get vp "width" (VInt 1920));
       vp' ← eval (py_get dim_data "viewport" (VDict []));
       error_viewport_height ← eval (py_get vp' "height" (VInt 1080));
       pg ← eval (py_get dim_data "page" (VDict []));
       error_page_width ← eval (py_get pg "width" error_viewport_width);
       pg' ← eval (py_get dim_data "page" (VDict []));
       error_page_height ← eval (py_get pg' "height" error_viewport_height);
       mret (error_viewport_width, error_viewport_height,
             error_page_width, error_page_height)
     else mret default_dimensions)
    (fun _ => mret default_dimensions).

(** Lines 471-541: the branch taken when [get_dom] does not report
    success. *)
Definition degraded (dom_result : value) : M state BrowserStateSummary.t :=
  error_msg ← eval (py_get dom_result "error" (VStr "Unknown error"));
  self ← get_self;
  let error_url := py_or (current_url self) (VStr "about:blank") in
  let error_title := VStr ("Bridge Error: " +:+ py_str error_msg) in
  dims ← probe_dimensions;
  let '(error_viewport_width, error_viewport_height,
        error_page_width, error_page_height) := dims in
  let page_info :=
    {| PageInfo.viewport_width := error_viewport_width;
       PageInfo.viewport_height := error_viewport_height;
       PageInfo.page_width := error_page_width;
       PageInfo.page_height := error_page_height;
       PageInfo.scroll_x := VInt 0;
       PageInfo.scroll_y := VInt 0;
       PageInfo.pixels_above := VInt 0;
       PageInfo.pixels_below := VInt 0;
       PageInfo.pixels_left := VInt 0;
       PageInfo.pixels_right := VInt 0 |} in
  let tab_info :=
    {| TabInfo.page_id := 1; TabInfo.url := error_url; TabInfo.title := error_title |} in
  mret {| BrowserStateSummary.element_tree := None;
          BrowserStateSummary.selector_map := [];
          BrowserStateSummary.url := error_url;
          BrowserStateSummary.title := error_title;
          BrowserStateSummary.tabs := [tab_info];
          BrowserStateSummary.page_info := page_info;
          BrowserStateSummary.pixels_above := VInt 0;
          BrowserStateSummary.pixels_below := VInt 0 |}.

(** [get_browser_state_with_recovery] (lines 276-541). *)
Definition get_browser_state_with_recovery : M state BrowserStateSummary.t :=
  up ← is_connected;
  if negb up then
    raise (Exception "Bridge extension not connected. Please install and connect the extension.")
  else
    ensure_start_url;;
    dom_result ← bridge_get_dom;
    success ← eval (py_get dom_result "success" VNone);
    if truthy success then reconstruct dom_result else degraded dom_result.

(** [get_selector_map] (lines 543-547). *)
Definition get_selector_map : M state SelectorMap :=
  summary ← get_browser_state_with_recovery;
  mret (BrowserStateSummary.selector_map summary).

(** [get_dom_element_by_index] (lines 642-646). *)
Definition get_dom_element_by_index (index : value) : M state (option DOMElementNode) :=
  selector_map ← get_selector_map;
  if hashable index then mret (dict_lookup index selector_map) else raise TypeError.

(** *** The action wrappers *)

(** [_click_element_node] (lines 648-670).  A [DOMElementNode] has the
    attribute [highlight_index], so [hasattr] holds.  The handler logs and
    raises the exception again. *)
Definition _click_element_node (element_node : DOMElementNode) : M state value :=
  match highlight_index element_node with
  | VNone =>
      raise (Exception ("Element missing highlight_index: " +:+ repr element_node))
  | index =>
      try_except
        (result ← bridge_click VNone VNone index;
         ok ← eval (py_get result "success" (VBool false));
         clicked ← eval (py_get result "clicked" (VBool false));
         if truthy (py_and ok clicked) then mret VNone
         else
           error ← eval (py_get result "error" (VStr "unknown error"));
           raise (Exception ("Click failed for element " +:+ py_str index +:+ ": "
                             +:+ py_str error)))
        (fun e => raise e)
  end.

(** [_input_text_element_node] (lines 672-691). *)
Definition _input_text_element_node (element_node : DOMElementNode) (text : value) :
    M state value :=
  match highlight_index element_node with
  | VNone => mret (VBool false)
  | index =>
      click_result ← bridge_click VNone VNone index;
      focused ← eval (py_get click_result "success" (VBool false));
      if truthy focused then
        type_result ← bridge_type_text text;
        ok ← eval (py_get type_result "success" (VBool false));
        typed ← eval (py_get type_result "typed" (VBool false));
        let success := py_and ok typed in
        mret success
      else mret (VBool false)
  end.

(** *** The property [tabs] (lines 564-640) *)

Inductive tab : Type :=
| BridgeTab (p : BridgePageProxy.t)
| CurrentTab (p : CurrentPageProxy.t).

Fixpoint bridge_tabs (tab_infos : list value) : outcome (list tab) :=
  match tab_infos with
  | [] => mret []
  | tab_info :: rest =>
      tab_id ← py_get tab_info "id" VNone;
      url ← py_get tab_info "url" (VStr "");
      title ← py_get tab_info "title" (VStr "");
      tabs_list ← bridge_tabs rest;
      mret (BridgeTab (BridgePageProxy.__init__ tab_id url title) :: tabs_list)
  end.

Definition tabs (self : state) : outcome (list tab) :=
  tab_infos ← py_iter (_tab_infos self);
  tabs_list ← bridge_tabs tab_infos;
  match tabs_list, agent_current_page self with
  | [], Some page => mret [CurrentTab (CurrentPageProxy.__init__ page)]
  | _, _ => mret tabs_list
  end.

End WithRepr.

End BridgeSession.

(* ===================================================================== *)
(** ** Notions and scenarios of the specification *)
(* ===================================================================== *)

(** The index a raw element reports, in the words of the specification:
    the element's [index], 0 when it has none.  Only a dictionary reports
    anything.  This is read off the raw element, not off the key the code
    computes ([BridgeSession.selector_key]); that the code keys by it is
    lemma [selector_key_reported]. *)
Definition reported_index (element : value) : option value :=
  match element with
  | VDict d => Some (default (VInt 0) (dict_get "index" d))
  | _ => None
  end.

(** Whether a raw element reports [k] as its index. *)
Definition reports (k : value) (element : value) : bool :=
  match reported_index element with
  | Some i => py_eq i k
  | None => false
  end.

(** The last of the raw elements that reports [k]. *)
Fixpoint last_reporting (k : value) (elements : list value) : option value :=
  match elements with
  | [] => None
  | element :: rest =>
      match last_reporting k rest with
      | Some later => Some later
      | None => if reports k element then Some element else None
      end
  end.

(** The node of a raw element, if it has one. *)
Definition node_of (viewport element : value) : option DOMElementNode :=
  match BridgeSession.dom_element viewport element with
  | Returns node => Some node
  | Raises _ => None
  end.

(** The snapshot of the concrete scenario (section 8, item 8), the
    element and the metrics the specification expects from it. *)
Definition scenario_dom_result : value :=
  VDict [("success", VBool true);
         ("result",
          VDict [("elements",
                  VList [VDict [("index", VInt 3); ("tagName", VStr "a");
                                ("xpath", VStr "/html/body/a");
                                ("isVisible", VBool true)]]);
                 ("viewport", VDict [("width", VInt 800); ("height", VInt 600)]);
                 ("page", VDict []);
                 ("pixels", VDict [])])].

Definition scenario_element : DOMElementNode :=
  {| tag_name := VStr "a"; xpath := VStr "/html/body/a"; attributes := VDict [];
     children := [];
     is_visible := VBool true; is_interactive := VBool false;
     is_top_element := VBool false; is_in_viewport := VBool false;
     shadow_root := VBool false;
     highlight_index := VInt 3;
     viewport_coordinates := None; page_coordinates := None;
     viewport_info :=
       {| ViewportInfo.scrollX := VInt 0; ViewportInfo.scrollY := VInt 0;
          ViewportInfo.width := VInt 800; ViewportInfo.height := VInt 600 |};
     parent := Some RootElement |}.

Definition scenario_page_info : PageInfo.t :=
  {| PageInfo.viewport_width := VInt 800; PageInfo.viewport_height := VInt 600;
     PageInfo.page_width := VInt 800; PageInfo.page_height := VInt 600;
     PageInfo.scroll_x := VInt 0; PageInfo.scroll_y := VInt 0;
     PageInfo.pixels_above := VInt 0; PageInfo.pixels_below := VInt 0;
     PageInfo.pixels_left := VInt 0; PageInfo.pixels_right := VInt 0 |}.

(** A bridge that answers no command: every [send_command] times out. *)
Definition silent_bridge : bridge :=
  {| connected := true; reply := fun _ _ => Raises (Exception "Command timeout") |}.

(** A bridge whose extension focuses the element and then reports
    [{success: true, typed: false, error: "target removed"}] for [type]. *)
Definition typing_rejected : bridge :=
  {| connected := true;
     reply := fun method _ =>
       if String.eqb method "click" then
         Returns (VDict [("success", VBool true); ("clicked", VBool true)])
       else if String.eqb method "type" then
         Returns (VDict [("success", VBool true); ("typed", VBool false);
                         ("error", VStr "target removed")])
       else Raises (Exception "Command timeout") |}.

(** A bridge whose extension reports
    [{success: true, clicked: false, error: "target removed"}] for [click]. *)
Definition click_rejected : bridge :=
  {| connected := true;
     reply := fun method _ =>
       if String.eqb method "click" then
         Returns (VDict [("success", VBool true); ("clicked", VBool false);
                         ("error", VStr "target removed")])
       else Raises (Exception "Command timeout") |}.

(** A bridge whose extension navigates and then fails [get_dom]. *)
Definition dom_failing : bridge :=
  {| connected := true;
     reply := fun method _ =>
       if String.eqb method "navigate" then Returns (VDict [("success", VBool true)])
       else if String.eqb method "get_dom" then
         Returns (VDict [("success", VBool false); ("error", VStr "No active tab")])
       else Raises (Exception "Command timeout") |}.

(** A bridge whose extension answers [get_dom] with the snapshot of the
    scenario. *)
Definition scenario_bridge : bridge :=
  {| connected := true;
     reply := fun method _ =>
       if String.eqb method "get_dom" then Returns scenario_dom_result
       else Raises (Exception "Command timeout") |}.

(** A session that has just been sent to the landing page, and one that
    is on a page of its own. *)
Definition landed : BridgeSession.state :=
  {| BridgeSession.current_url := VStr BridgeSession.landing_page;
     BridgeSession._tab_infos := VList [];
     BridgeSession.agent_current_page := Some MockPage.__init__ |}.

Definition browsing : BridgeSession.state :=
  {| BridgeSession.current_url := VStr "https://example.com";
     BridgeSession._tab_infos := VList [];
     BridgeSession.agent_current_page := Some MockPage.__init__ |}.

(** A snapshot whose viewport is 0 by 0 and whose page has width 0 and no
    height. *)
Definition zero_viewport_dom_result : value :=
  VDict [("success", VBool true);
         ("result",
          VDict [("elements", VList []);
                 ("viewport", VDict [("width", VInt 0); ("height", VInt 0)]);
                 ("page", VDict [("width", VInt 0)])])].

Definition zero_viewport_bridge : bridge :=
  {| connected := true;
     reply := fun method _ =>
       if String.eqb method "get_dom" then Returns zero_viewport_dom_result
       else Raises (Exception "Command timeout") |}.

(** Three raw elements: the first and the last have no index, the second
    reports 0. *)
Definition colliding_elements : list value :=
  [VDict [("tagName", VStr "a")];
   VDict [("index", VInt 0); ("tagName", VStr "b")];
   VDict [("tagName", VStr "button")]].

(** Stand-ins for [repr] in the examples. *)
Definition sample_repr : Repr value := fun _ => "[...]".
Definition sample_node_repr : Repr DOMElementNode := fun _ => "<node>".

(* ===================================================================== *)
(** ** controller/enhanced_actions.py *)
(* ===================================================================== *)

(** The state captures and the change detection of [EnhancedActions].
    The page they are given is, with a [BridgeSession], the mock page of
    [get_current_page]. *)
Module EnhancedActions.

Definition dq : string := String (Ascii.ascii_of_nat 34) EmptyString.

(** The script of lines 145-179. *)
Definition capture_script : string :=
  String.concat BridgeSession.newline
    ["() => {";
     "                const elements = [];";
     "                // Look for elements that could indicate autocomplete";
     "                const selectors = [";
     "                    '[role=" +:+ dq +:+ "listbox" +:+ dq +:+ "]',";
     "                    '[role=" +:+ dq +:+ "option" +:+ dq +:+ "]', ";
     "                    '[aria-expanded=" +:+ dq +:+ "true" +:+ dq +:+ "]',";
     "                    '.autocomplete',";
     "                    '.dropdown',";
     "                    '.suggestions',";
     "                    '[data-testid*=" +:+ dq +:+ "suggestion" +:+ dq +:+ "]',";
     "                    '[class*=" +:+ dq +:+ "suggestion" +:+ dq +:+ "]',";
     "                    '[class*=" +:+ dq +:+ "dropdown" +:+ dq +:+ "]',";
     "                    '[class*=" +:+ dq +:+ "autocomplete" +:+ dq +:+ "]'";
     "                ];";
     "                ";
     "                selectors.forEach(selector => {";
     "                    document.querySelectorAll(selector).forEach(el => {";
     "                        if (el.offsetParent !== null) { // Only visible elements";
     "                            elements.push({";
     "                                selector: selector,";
     "                                text: el.textContent?.trim() || '',";
     "                                visible: true,";
     "                                role: el.getAttribute('role'),";
     "                                ariaExpanded: el.getAttribute('aria-expanded')";
     "                            });";
     "                        }";
     "                    });";
     "                });";
     "                ";
     "                return {";
     "                    autocompleteElements: elements,";
     "                    timestamp: Date.now()";
     "                };";
     "            }"].

(** [{"autocompleteElements": [], "timestamp": 0}] (line 183). *)
Definition empty_dom_state : value :=
  VDict [("autocompleteElements", VList []); ("timestamp", VInt 0)].

(** [_capture_dom_state] (lines 141-183). *)
Definition _capture_dom_state {St} : M St value :=
  try_except (MockPage.evaluate (VStr capture_script))
             (fun _ => mret empty_dom_state).

(** [len(state.get('autocompleteElements', []))]. *)
Definition autocomplete_count (state : value) : outcome Z :=
  elements ← py_get state "autocompleteElements" (VList []);
  py_len elements.

(** [_detect_dom_changes] (lines 234-242):
    [abs(post_count - pre_count) > 0]. *)
Definition _detect_dom_changes (pre_state post_state : value) : outcome bool :=
  pre_count ← autocomplete_count pre_state;
  post_count ← autocomplete_count post_state;
  mret (0 <? Z.abs (post_count - pre_count))%Z.

End EnhancedActions.

(** [MemoryManager] (lines 245-292).  Task ids and keys are strings; the
    values kept are Python values.  The clock of the event loop gives
    floating-point seconds: its values are a type [time] taken as given,
    with [within_two_seconds now t] for [(now - t) < 2.0]. *)
Module MemoryManager.

Section WithClock.
Context {time : Type} (within_two_seconds : time -> time -> bool).

(** An item of [autocomplete_history]. *)
Record event : Type := Event {
  timestamp : time;
  element_index : value;
  text : value;
  detected : value
}.

Record state : Type := State {
  task_memory : gmap string (gmap string value);
  autocomplete_history : list event;
  action_sequence : list value
}.

(** [__init__]. *)
Definition init : state :=
  {| task_memory := ∅; autocomplete_history := []; action_sequence := [] |}.


(** What [get_task_memory] returns: a value ([None] included) or the
    dictionary of a task. *)
Inductive memory : Type :=
| Value (v : value)
| Whole (d : gmap string value).

(** Whether [key], [None] when the argument is left out, is truthy. *)
Definition key_given (key : option string) : bool :=
  match key with
  | Some k => negb (String.eqb k "")
  | None => false
  end.

(** [get_task_memory] (lines 259-266). *)
Definition get_task_memory (task_id : string) (key : option string) (self : state) : memory :=
  match task_memory self !! task_id with
  | None => if key_given key then Value VNone else Whole ∅
  | Some d =>
      match key with
      | Some k =>
          if key_given key then Value (default VNone (d !! k)) else Whole d
      | None => Whole d
      end
  end.

(** [l[-n:]] for a positive [n]. *)
Definition last_n {A} (n : nat) (l : list A) : list A := drop (length l - n) l.

(** [record_autocomplete_event] (lines 268-279); [now] is what the clock
    gives. *)
Definition record_autocomplete_event (now : time) (element_index text detected : value)
    (self : state) : state :=
  let history :=
    (autocomplete_history self
       ++ [{| timestamp := now; element_index := element_index;
              text := text; detected := detected |}])%list in
  {| task_memory := task_memory self;
     autocomplete_history :=
       if (50 <? length history)%nat then last_n 50 history else history;
     action_sequence := action_sequence self |}.

(** [should_break_sequence] (lines 281-292); [now] is what the clock
    gives. *)
Definition should_break_sequence (now : time) (self : state) : value :=
  match last (autocomplete_history self) with
  | None => VBool false
  | Some recent =>
      py_and (detected recent) (VBool (within_two_seconds now (timestamp recent)))
  end.

End WithClock.

End MemoryManager.

(* ===================================================================== *)
(** ** Notions for the further properties *)
(* ===================================================================== *)

Section ControllerNotions.
Import BridgeController.

(** The invariant of the controller's state. *)
Definition consistent (st : state) : Prop :=
  connected st = bool_decide (is_Some (ws st))
  ∧ ∀ cmd_id (w : waiter),
      pending_commands st !! cmd_id = Some w → event w = false → result w = VNone.

End ControllerNotions.

Definition is_dict (v : value) : bool :=
  match v with
  | VDict _ => true
  | _ => false
  end.

(** Whether the answer to the probe of the dimensions can be used:
    success and result truthy, the result a dictionary whose [viewport]
    and [page], if there, are dictionaries. *)
Definition probe_usable (o : outcome value) : bool :=
  match o with
  | Returns (VDict d) =>
      truthy (py_and (default VNone (dict_get "success" d))
                     (default VNone (dict_get "result" d)))
      && match dict_get "result" d with
         | Some (VDict r) =>
             is_dict (default (VDict []) (dict_get "viewport" r))
             && is_dict (default (VDict []) (dict_get "page" r))
         | _ => false
         end
  | _ => false
  end.

(** The page info of the degraded state when the probe gave nothing. *)
Definition fallback_page_info : PageInfo.t :=
  {| PageInfo.viewport_width := VInt 1920; PageInfo.viewport_height := VInt 1080;
     PageInfo.page_width := VInt 1920; PageInfo.page_height := VInt 1080;
     PageInfo.scroll_x := VInt 0; PageInfo.scroll_y := VInt 0;
     PageInfo.pixels_above := VInt 0; PageInfo.pixels_below := VInt 0;
     PageInfo.pixels_left := VInt 0; PageInfo.pixels_right := VInt 0 |}.

Section SessionNotions.
Import BridgeSession.

(** Whether the session has no url to start from (lines 284-285). *)
Definition no_start_url (s : state) : bool :=
  negb (truthy (current_url s)) || py_eq (current_url s) (VStr "about:blank").

(** The summary and the session of a successful reconstruction, from the
    parts of the snapshot. *)
Definition reconstructed (s : state) (dom_result : value)
    (summary : BrowserStateSummary.t) (s' : state) : Prop :=
  ∃ dom_data elements n tab_infos viewport page pixels info url title items
    built root above below,
    py_get dom_result "result" (VDict []) = Returns dom_data
    ∧ py_get dom_data "elements" (VList []) = Returns elements
    ∧ py_len elements = Returns n
    ∧ py_get dom_data "tabs" (VList []) = Returns tab_infos
    ∧ py_get dom_data "viewport" (VDict []) = Returns viewport
    ∧ py_get dom_data "page" (VDict []) = Returns page
    ∧ py_get dom_data "pixels" (VDict []) = Returns pixels
    ∧ page_info_of viewport page pixels = Returns info
    ∧ py_get dom_data "url" (py_or (current_url s) (VStr "about:blank")) = Returns url
    ∧ py_get dom_data "title" (VStr "") = Returns title
    ∧ py_iter elements = Returns items
    ∧ build_selector_map viewport items [] = Returns built
    ∧ root_element_of viewport info (dict_values (adopt built)) = Returns root
    ∧ py_get pixels "above" (VInt 0) = Returns above
    ∧ py_get pixels "below" (VInt 0) = Returns below
    ∧ summary
      = {| BrowserStateSummary.element_tree := Some root;
           BrowserStateSummary.selector_map := adopt built;
           BrowserStateSummary.url := url;
           BrowserStateSummary.title := title;
           BrowserStateSummary.tabs :=
             [{| TabInfo.page_id := 1; TabInfo.url := url; TabInfo.title := title |}];
           BrowserStateSummary.page_info := info;
           BrowserStateSummary.pixels_above := above;
           BrowserStateSummary.pixels_below := below |}
    ∧ s' = {| current_url := url; _tab_infos := tab_infos;
              agent_current_page :=
                Some (MockPage.set_title title
                        (MockPage.set_url url
                           (default MockPage.__init__ (agent_current_page s)))) |}.

End SessionNotions.

(** No key of a dictionary equals a later one. *)
Fixpoint keys_distinct {V} (d : pydict V) : Prop :=
  match d with
  | [] => True
  | (k, _) :: d' => dict_lookup k d' = None ∧ keys_distinct d'
  end.

Section MemoryNotions.
Import MemoryManager.
Context {time : Type}.

(** Recording events one after the other; an event is given by the time
    of the clock, the index, the text and the flag. *)
Definition record_all (events : list (time * value * value * value))
    (self : state (time := time)) : state :=
  fold_left (fun st ev =>
               record_autocomplete_event (ev.1.1.1) (ev.1.1.2) (ev.1.2) (ev.2) st)
            events self.

Definition event_of (ev : time * value * value * value) : event :=
  {| timestamp := ev.1.1.1; element_index := ev.1.1.2; text := ev.1.2; detected := ev.2 |}.

End MemoryNotions.

(** Bridges, snapshots and sessions for the examples of the further
    properties. *)

(** A bridge whose extension refuses to navigate and answers [get_dom]
    with the snapshot of the scenario. *)
Definition landing_refused : bridge :=
  {| connected := true;
     reply := fun method _ =>
       if String.eqb method "navigate" then Returns (VDict [("success", VBool false)])
       else if String.eqb method "get_dom" then Returns scenario_dom_result
       else Raises (Exception "Command timeout") |}.

(** The snapshot of a blank page, and a bridge that answers with it. *)
Definition blank_dom_result : value :=
  VDict [("success", VBool true); ("result", VDict [("url", VStr "about:blank")])].

Definition blank_bridge : bridge :=
  {| connected := true;
     reply := fun method _ =>
       if String.eqb method "get_dom" then Returns blank_dom_result
       else Raises (Exception "Command timeout") |}.

(** A snapshot whose list of elements starts with a null. *)
Definition broken_dom_result : value :=
  VDict [("success", VBool true);
         ("result",
          VDict [("elements", VList [VNone]);
                 ("url", VStr "https://example.org");
                 ("title", VStr "Example");
                 ("tabs", VList [VDict [("id", VInt 7)]])])].

(** A bridge whose extension fails [get_dom] and reports a viewport of
    width 0 and a page without height to the probe of the dimensions. *)
Definition probe_bridge : bridge :=
  {| connected := true;
     reply := fun method _ =>
       if String.eqb method "evaluate" then
         Returns (VDict [("success", VBool true);
                         ("result",
                          VDict [("viewport",
                                  VDict [("width", VInt 0); ("height", VInt 600)]);
                                 ("page", VDict [("width", VInt 0)])])])
       else if String.eqb method "get_dom" then
         Returns (VDict [("success", VBool false)])
       else Raises (Exception "Command timeout") |}.

(** A session whose extension reported two tabs, the second without url
    and title. *)
Definition two_tab_descriptors : list (list (string * value)) :=
  [[("id", VInt 7); ("url", VStr "https://a.example"); ("title", VStr "A")];
   [("id", VInt 8)]].

Definition two_tabs : BridgeSession.state :=
  {| BridgeSession.current_url := VStr "https://example.com";
     BridgeSession._tab_infos := VList (map VDict two_tab_descriptors);
     BridgeSession.agent_current_page := Some MockPage.__init__ |}.

(** Two autocomplete events, with the clock read as a number of seconds. *)
Definition two_events : list (nat * value * value * value) :=
  [(1%nat, VInt 3, VStr "a", VBool true); (2%nat, VInt 4, VStr "b", VBool false)].

(** A DOM state with one autocomplete element. *)
Definition one_dropdown : value :=
  VDict [("autocompleteElements", VList [VDict [("tagName", VStr "UL")]]);
         ("timestamp", VInt 1)].

(* ===================================================================== *)
(** * Part II.  Properties *)
(* ===================================================================== *)

(** ** Facts about the primitives *)

Lemma py_eq_VStr_r (v : value) (t : string) : py_eq v (VStr t) = true → v = VStr t.
Proof.
  destruct v; simpl; try discriminate.
  intros E. apply String.eqb_eq in E. by subst.
Qed.

(** ** The correlator *)

Section Correlator.
Import BridgeController.

Implicit Types (st : state) (cmd_id : string) (a : action).

Lemma is_response_for_inv cmd_id data :
  is_response_for cmd_id data = true →
  ∃ d, data = VDict d ∧ dict_get "type" d = Some (VStr "response")
       ∧ dict_get "id" d = Some (VStr cmd_id).
Proof.
  unfold is_response_for. destruct data as [| | | | |d]; simpl; try discriminate.
  intros E. apply andb_true_iff in E as [Et Ei].
  apply py_eq_VStr_r in Et, Ei. exists d. split; [done|].
  destruct (dict_get "type" d), (dict_get "id" d); simpl in *; by subst.
Qed.

(** A response whose id is not pending changes nothing. *)
Lemma late_response_dropped st cmd_id data :
  pending_commands st !! cmd_id = None →
  is_response_for cmd_id data = true →
  _handle_message data st = (Returns tt, st).
Proof.
  intros Hnone (d & -> & Ht & Hi)%is_response_for_inv.
  unfold _handle_message. simpl. rewrite Ht, Hi. simpl.
  rewrite Hnone. rewrite bool_decide_eq_false_2; [done|].
  by intros [? ?].
Qed.

(** A frame that is not a response for [cmd_id] leaves its entry alone. *)
Lemma on_message_other st cmd_id m :
  concerns cmd_id (Message m) = false →
  pending_commands (on_message m st) !! cmd_id = pending_commands st !! cmd_id.
Proof.
  destruct m as [data|]; [|done]. simpl. intros Hc.
  unfold on_message.
  destruct data as [| | | | |d]; simpl; try done.
  unfold _handle_message. simpl.
  destruct (py_eq (default VNone (dict_get "type" d)) (VStr "ready")) eqn:Er; [done|].
  destruct (py_eq (default VNone (dict_get "type" d)) (VStr "response")) eqn:Et.
  - unfold is_response_for in Hc. simpl in Hc. rewrite Et in Hc. simpl in Hc.
    destruct (default VNone (dict_get "id" d)) as [| | |s| |] eqn:Ei; simpl; try done.
    destruct (bool_decide (is_Some (pending_commands st !! s))); simpl; [|done].
    apply lookup_insert_ne. intros ->. simpl in Hc.
    by rewrite String.eqb_refl in Hc.
  - by destruct (py_eq (default VNone (dict_get "type" d)) (VStr "error")).
Qed.

Lemma step_other st cmd_id a :
  concerns cmd_id a = false →
  pending_commands (step st a) !! cmd_id = pending_commands st !! cmd_id.
Proof.
  destruct a as [c| |m|c method params sent|c how]; simpl; intros Hc; try done.
  - by apply on_message_other.
  - apply String.eqb_neq in Hc. unfold send_command_begin.
    destruct (negb (connected st) || negb (bool_decide (is_Some (ws st)))); [done|].
    destruct sent as [e|]; simpl.
    + destruct e; simpl; rewrite lookup_delete_ne by done; by rewrite lookup_insert_ne.
    + by rewrite lookup_insert_ne.
  - apply String.eqb_neq in Hc.
    destruct (may_wake how c st); [|done]. unfold send_command_resume.
    destruct how, (pending_commands st !! c) as [w|]; simpl; try done;
      by rewrite lookup_delete_ne.
Qed.

Lemma run_other st cmd_id (l : list action) :
  Forall (fun a => concerns cmd_id a = false) l →
  pending_commands (run st l) !! cmd_id = pending_commands st !! cmd_id.
Proof.
  intros Hl. revert st. induction Hl as [|a l Ha _ IH]; intros st; [done|].
  unfold run in *. simpl. rewrite IH. by apply step_other.
Qed.

(** An id that is not pending stays so until a command is started with
    it. *)
Lemma step_absent st cmd_id a :
  pending_commands st !! cmd_id = None →
  restarts cmd_id a = false →
  pending_commands (step st a) !! cmd_id = None.
Proof.
  intros Hnone Hr.
  destruct (concerns cmd_id a) eqn:Hc; [|by rewrite step_other].
  destruct a as [c| |[data|]|c method params sent|c how]; simpl in *; try done.
  - apply is_response_for_inv in Hc as Hd. destruct Hd as (d & -> & _ & _).
    unfold on_message. simpl.
    by rewrite (late_response_dropped st cmd_id (VDict d) Hnone Hc).
  - congruence.
  - apply String.eqb_eq in Hc as ->. destruct (may_wake how cmd_id st); [|done].
    unfold send_command_resume. rewrite Hnone. by destruct how.
Qed.

Lemma run_absent st cmd_id (l : list action) :
  pending_commands st !! cmd_id = None →
  Forall (fun a => restarts cmd_id a = false) l →
  pending_commands (run st l) !! cmd_id = None.
Proof.
  intros Hnone Hl. revert st Hnone.
  induction Hl as [|a l Ha _ IH]; intros st Hnone; [done|].
  unfold run in *. simpl. apply IH. by apply step_absent.
Qed.

Lemma begin_registers st cmd_id method params :
  is_connected st = true →
  ∃ st1, send_command_begin cmd_id method params None st
           = (Returns (command_frame cmd_id method params), st1)
         ∧ pending_commands st1 !! cmd_id = Some {| event := false; result := VNone |}.
Proof.
  unfold is_connected, send_command_begin. intros [Hc Hw]%andb_true_iff.
  rewrite Hc, Hw. simpl. eexists. split; [done|]. simpl. apply lookup_insert_eq.
Qed.

(** What a response does to a pending entry: slot written, event set,
    entry kept. *)
Lemma response_delivered st cmd_id (w : waiter) r :
  pending_commands st !! cmd_id = Some w →
  on_message (Some (response cmd_id r)) st
  = with_pending st (<[cmd_id := {| event := true; result := r |}]> (pending_commands st)).
Proof.
  intros Hw. unfold on_message, _handle_message, response. simpl.
  rewrite Hw. rewrite bool_decide_eq_true_2; [done|]. by eexists.
Qed.

(** A sender whose wait completed returns what it finds in the slot. *)
Lemma resume_signalled st cmd_id (w : waiter) :
  pending_commands st !! cmd_id = Some w →
  send_command_resume Signalled cmd_id st
  = (Returns (result w), with_pending st (delete cmd_id (pending_commands st))).
Proof. intros Hw. unfold send_command_resume. by rewrite Hw. Qed.

(** A sender whose wait timed out raises, whatever the waiter holds. *)
Lemma resume_timed_out st cmd_id (w : waiter) :
  pending_commands st !! cmd_id = Some w →
  send_command_resume TimedOut cmd_id st
  = (Raises (Exception "Command timeout"),
     with_pending st (delete cmd_id (pending_commands st))).
Proof. intros Hw. unfold send_command_resume. by rewrite Hw. Qed.

(** The wait can complete exactly when the event of the waiter is set. *)
Lemma may_wake_signalled st cmd_id (w : waiter) :
  pending_commands st !! cmd_id = Some w →
  may_wake Signalled cmd_id st = event w.
Proof. intros Hw. unfold may_wake. by rewrite Hw. Qed.

(** Once the sender has run the id is gone, and a response with it
    changes nothing. *)
Lemma resumed_then_dropped st cmd_id r :
  let st2 := with_pending st (delete cmd_id (pending_commands st)) in
  pending_commands st2 !! cmd_id = None
  ∧ on_message (Some (response cmd_id r)) st2 = st2.
Proof.
  intros st2.
  assert (Hgone : pending_commands st2 !! cmd_id = None)
    by (simpl; apply lookup_delete_eq).
  split; [exact Hgone|].
  unfold on_message. simpl.
  rewrite (late_response_dropped _ cmd_id (response cmd_id r) Hgone); [done|].
  unfold is_response_for. simpl. by rewrite String.eqb_refl.
Qed.

(** The round trip of a command that is answered: the sender gets the
    result of the response and the waiter is removed. *)
Lemma send_command_round_trip st cmd_id method params r :
  is_connected st = true →
  ∃ st1,
    send_command_begin cmd_id method params None st
      = (Returns (command_frame cmd_id method params), st1)
    ∧ may_wake Signalled cmd_id (on_message (Some (response cmd_id r)) st1) = true
    ∧ send_command_resume Signalled cmd_id (on_message (Some (response cmd_id r)) st1)
      = (Returns r,
         with_pending st1 (delete cmd_id (pending_commands st1))).
Proof.
  intros Hconn.
  destruct (begin_registers st cmd_id method params Hconn) as (st1 & Hbegin & Hreg).
  exists st1. split; [done|].
  rewrite (response_delivered _ _ _ _ Hreg).
  assert (Hw : pending_commands
                 (with_pending st1
                    (<[cmd_id := {| event := true; result := r |}]> (pending_commands st1)))
               !! cmd_id = Some {| event := true; result := r |})
    by (simpl; apply lookup_insert_eq).
  split; [by rewrite (may_wake_signalled _ _ _ Hw)|].
  rewrite (resume_signalled _ _ _ Hw).
  simpl. f_equal. unfold with_pending. simpl. f_equal. apply delete_insert_eq.
Qed.

(** C2.  A command that gets no matching response: the extension being
    connected, [send_command] registers its waiter and writes the frame;
    whatever else happens on the loop meanwhile (other frames, other
    commands, a disconnection), as long as no response carries its id the
    event is not set, so the wait cannot complete and the sender is resumed
    by the timeout: the call raises [Exception("Command timeout")] and the
    id is gone from [pending_commands].  From then on, whatever happens
    next short of a new command with the same id, a response with that id
    is handled without any change of state. *)
Theorem C2_timeout_cleanup st cmd_id method params (l : list action) :
  is_connected st = true →
  Forall (fun a => concerns cmd_id a = false) l →
  ∃ st1 st3,
    send_command_begin cmd_id method params None st
      = (Returns (command_frame cmd_id method params), st1)
    ∧ may_wake Signalled cmd_id (run st1 l) = false
    ∧ send_command_resume TimedOut cmd_id (run st1 l)
      = (Raises (Exception "Command timeout"), st3)
    ∧ pending_commands st3 !! cmd_id = None
    ∧ ∀ (l' : list action) data,
        Forall (fun a => restarts cmd_id a = false) l' →
        is_response_for cmd_id data = true →
        _handle_message data (run st3 l') = (Returns tt, run st3 l')
        ∧ on_message (Some data) (run st3 l') = run st3 l'.
Proof.
  intros Hconn Hl.
  destruct (begin_registers st cmd_id method params Hconn) as (st1 & Hbegin & Hreg).
  pose proof (run_other st1 cmd_id l Hl) as Hrun. rewrite Hreg in Hrun.
  exists st1. eexists. split; [exact Hbegin|].
  split; [by rewrite (may_wake_signalled _ _ _ Hrun)|].
  rewrite (resume_timed_out _ _ _ Hrun). split; [reflexivity|].
  assert (Hgone : pending_commands
            (with_pending (run st1 l) (delete cmd_id (pending_commands (run st1 l))))
            !! cmd_id = None) by (simpl; apply lookup_delete_eq).
  split; [exact Hgone|].
  intros l' data Hl' Hdata.
  pose proof (run_absent _ _ l' Hgone Hl') as Hlater.
  pose proof (late_response_dropped _ _ _ Hlater Hdata) as Hdrop.
  split; [exact Hdrop|].
  apply is_response_for_inv in Hdata as (d & -> & _ & _).
  unfold on_message. simpl. by rewrite Hdrop.
Qed.

(** C2 on a sample run: a connected controller, a command [evaluate]
    with id [c1]; while it waits, a [ready] frame, a response to another
    command, a frame that is not JSON and a disconnection. *)
Lemma C2_timeout_cleanup_witness :
  let st := on_connect 7 init in
  let l := [Message (Some (VDict [("type", VStr "ready")]));
            Message (Some (response "c0" (VInt 5)));
            Message None;
            Disconnect] in
  ∃ st1 st3,
    send_command_begin "c1" "evaluate" (VDict [("expression", VStr "1+1")]) None st
      = (Returns (command_frame "c1" "evaluate" (VDict [("expression", VStr "1+1")])), st1)
    ∧ may_wake Signalled "c1" (run st1 l) = false
    ∧ send_command_resume TimedOut "c1" (run st1 l)
      = (Raises (Exception "Command timeout"), st3)
    ∧ pending_commands st3 !! "c1" = None
    ∧ ∀ (l' : list action) data,
        Forall (fun a => restarts "c1" a = false) l' →
        is_response_for "c1" data = true →
        _handle_message data (run st3 l') = (Returns tt, run st3 l')
        ∧ on_message (Some data) (run st3 l') = run st3 l'.
Proof.
  intros st l.
  apply (C2_timeout_cleanup st "c1" "evaluate" (VDict [("expression", VStr "1+1")]) l).
  - reflexivity.
  - repeat constructor.
Defined.

(** C3, as the code has it.  A response to an in-flight command writes
    the result slot and sets the event, and leaves the waiter in
    [pending_commands]; the waiter is removed when the sender is resumed.
    Once the response is handled the wait of the sender can complete, and
    [send_command] ends once, by what ended its wait:
    - if the wait completes before a second response with the same id is
      handled, the sender returns the first result, the id is gone, and
      the second response changes nothing;
    - if the second response is handled before the sender runs, it
      overwrites the slot; a sender whose wait completed then returns the
      second result, and the id is gone;
    - if the 30 seconds passed before the sender could run, the sender
      raises [Exception("Command timeout")] although the event is set and
      a result sits in the slot: the result is dropped, the id is gone,
      and a further response changes nothing. *)
Theorem C3_single_resolution st cmd_id (w : waiter) (r1 r2 : value) :
  pending_commands st !! cmd_id = Some w →
  let st1 := on_message (Some (response cmd_id r1)) st in
  pending_commands st1 !! cmd_id = Some {| event := true; result := r1 |}
  ∧ may_wake Signalled cmd_id st1 = true
  ∧ (∃ st2,
       send_command_resume Signalled cmd_id st1 = (Returns r1, st2)
       ∧ pending_commands st2 !! cmd_id = None
       ∧ on_message (Some (response cmd_id r2)) st2 = st2)
  ∧ (let st1' := on_message (Some (response cmd_id r2)) st1 in
     pending_commands st1' !! cmd_id = Some {| event := true; result := r2 |}
     ∧ ∃ st2',
         send_command_resume Signalled cmd_id st1' = (Returns r2, st2')
         ∧ pending_commands st2' !! cmd_id = None)
  ∧ (∃ st2,
       send_command_resume TimedOut cmd_id st1
       = (Raises (Exception "Command timeout"), st2)
       ∧ pending_commands st2 !! cmd_id = None
       ∧ on_message (Some (response cmd_id r2)) st2 = st2).
Proof.
  intros Hw st1.
  assert (H1 : pending_commands st1 !! cmd_id = Some {| event := true; result := r1 |}).
  { subst st1. rewrite (response_delivered _ _ _ _ Hw). simpl. apply lookup_insert_eq. }
  split; [exact H1|].
  split; [by rewrite (may_wake_signalled _ _ _ H1)|].
  split; [|split].
  - eexists. split; [apply (resume_signalled _ _ _ H1)|].
    apply resumed_then_dropped.
  - simpl.
    assert (H2 : pending_commands (on_message (Some (response cmd_id r2)) st1) !! cmd_id
                 = Some {| event := true; result := r2 |}).
    { rewrite (response_delivered _ _ _ _ H1). simpl. apply lookup_insert_eq. }
    split; [exact H2|].
    eexists. split; [apply (resume_signalled _ _ _ H2)|]. simpl.
    apply lookup_delete_eq.
  - eexists. split; [apply (resume_timed_out _ _ _ H1)|].
    apply resumed_then_dropped.
Qed.

(** C3 on a sample run: a [click] with id [c1] in flight, and two
    responses to it. *)
Lemma C3_single_resolution_witness :
  let st := snd (send_command_begin "c1" "click" (VDict [("index", VInt 3)]) None
                   (on_connect 7 init)) in
  let st1 := on_message (Some (response "c1" (VStr "first"))) st in
  pending_commands st1 !! "c1" = Some {| event := true; result := VStr "first" |}
  ∧ may_wake Signalled "c1" st1 = true
  ∧ (∃ st2,
       send_command_resume Signalled "c1" st1 = (Returns (VStr "first"), st2)
       ∧ pending_commands st2 !! "c1" = None
       ∧ on_message (Some (response "c1" (VStr "second"))) st2 = st2)
  ∧ (let st1' := on_message (Some (response "c1" (VStr "second"))) st1 in
     pending_commands st1' !! "c1" = Some {| event := true; result := VStr "second" |}
     ∧ ∃ st2',
         send_command_resume Signalled "c1" st1' = (Returns (VStr "second"), st2')
         ∧ pending_commands st2' !! "c1" = None)
  ∧ (∃ st2,
       send_command_resume TimedOut "c1" st1
       = (Raises (Exception "Command timeout"), st2)
       ∧ pending_commands st2 !! "c1" = None
       ∧ on_message (Some (response "c1" (VStr "second"))) st2 = st2).
Proof.
  intros st.
  apply (C3_single_resolution st "c1" {| event := false; result := VNone |}
           (VStr "first") (VStr "second")).
  reflexivity.
Defined.

(** C3 as stated fails: two responses with the id of an in-flight command
    handled one after the other, before the sender is resumed.  When the
    second is handled the waiter is still in [pending_commands], the
    second overwrites the result of the first, and the sender, whose wait
    completed, returns the second result. *)
Lemma C3_counterexample :
  let st := snd (send_command_begin "c1" "click" (VDict [("index", VInt 3)]) None
                   (on_connect 7 init)) in
  let st1 := on_message (Some (response "c1" (VStr "first"))) st in
  let st2 := on_message (Some (response "c1" (VStr "second"))) st1 in
  pending_commands st1 !! "c1" ≠ None
  ∧ st2 ≠ st1
  ∧ may_wake Signalled "c1" st2 = true
  ∧ fst (send_command_resume Signalled "c1" st2) = Returns (VStr "second").
Proof.
  intros st st1 st2.
  assert (H1 : pending_commands st1 !! "c1" = Some {| event := true; result := VStr "first" |})
    by reflexivity.
  assert (H2 : pending_commands st2 !! "c1" = Some {| event := true; result := VStr "second" |})
    by reflexivity.
  split; [by rewrite H1|]. split; [|split].
  - intros E. rewrite E, H1 in H2. discriminate.
  - by rewrite (may_wake_signalled _ _ _ H2).
  - by rewrite (resume_signalled _ _ _ H2).
Qed.

End Correlator.

(** ** Running programs *)

Section Session.
Import BridgeSession.
Context {value_repr : Repr value} {node_repr : Repr DOMElementNode}.

Implicit Types (b : bridge) (s : state).

Lemma exec_prog_bind {A B} b (p : prog A) (f : A → prog B) :
  exec b (prog_bind p f) = exec b (f (exec b p)).
Proof. induction p; simpl; auto. Qed.

Lemma exec_bind {St A B} b (m : M St A) (f : A → M St B) (s : St) :
  exec b ((m ≫= f) s)
  = match exec b (m s) with
    | (Returns a, s') => exec b (f a s')
    | (Raises e, s') => (Raises e, s')
    end.
Proof.
  unfold mbind, M_mbind, bind. rewrite exec_prog_bind.
  by destruct (exec b (m s)) as [[a|e] s'].
Qed.

Lemma exec_try_except {St A} b (m : M St A) (h : exn → M St A) (s : St) :
  exec b (try_except m h s)
  = match exec b (m s) with
    | (Returns a, s') => (Returns a, s')
    | (Raises e, s') => exec b (h e s')
    end.
Proof.
  unfold try_except. rewrite exec_prog_bind.
  by destruct (exec b (m s)) as [[a|e] s'].
Qed.

Lemma exec_mret {St A} b (a : A) (s : St) : exec b ((mret a : M St A) s) = (Returns a, s).
Proof. reflexivity. Qed.

Lemma exec_raise {St A} b (e : exn) (s : St) : exec b (@raise St A e s) = (Raises e, s).
Proof. reflexivity. Qed.

Lemma exec_eval {St A} b (o : outcome A) (s : St) : exec b (eval o s) = (o, s).
Proof. reflexivity. Qed.

Lemma exec_get_self {St} b (s : St) : exec b (get_self s) = (Returns s, s).
Proof. reflexivity. Qed.

Lemma exec_set_self {St} b (s s' : St) : exec b (set_self s' s) = (Returns tt, s').
Proof. reflexivity. Qed.

Lemma exec_is_connected {St} b (s : St) : exec b (is_connected s) = (Returns (connected b), s).
Proof. reflexivity. Qed.

Lemma exec_send_command {St} b method params (s : St) :
  exec b (send_command method params s) = (reply b method params, s).
Proof. reflexivity. Qed.

Lemma exec_bridge_navigate {St} b url (s : St) :
  exec b (bridge_navigate url s) = (reply b "navigate" (VDict [("url", url)]), s).
Proof. reflexivity. Qed.

Lemma exec_bridge_click {St} b x y index (s : St) :
  index ≠ VNone →
  exec b (bridge_click x y index s) = (reply b "click" (VDict [("index", index)]), s).
Proof. by destruct index. Qed.

Lemma exec_bridge_type_text {St} b text (s : St) :
  exec b (bridge_type_text text s) = (reply b "type" (VDict [("text", text)]), s).
Proof. reflexivity. Qed.

Lemma exec_bridge_evaluate {St} b expression (s : St) :
  exec b (bridge_evaluate expression s)
  = (reply b "evaluate" (VDict [("expression", expression)]), s).
Proof. reflexivity. Qed.

Lemma exec_bridge_get_dom {St} b (s : St) :
  exec b (bridge_get_dom s) = (reply b "get_dom" (VDict []), s).
Proof. reflexivity. Qed.

Create Rewrite HintDb exec.
#[local] Hint Rewrite @exec_bind @exec_try_except @exec_mret @exec_raise @exec_eval
  @exec_get_self @exec_set_self @exec_is_connected @exec_send_command
  @exec_bridge_navigate @exec_bridge_type_text @exec_bridge_evaluate
  @exec_bridge_get_dom : exec.

(** One step of a method: run the primitive at the head, reduce the
    lookups in dictionaries that are known. *)
Ltac exec_simpl :=
  with_strategy opaque [ensure_start_url probe_dimensions degraded reconstruct]
    (repeat progress
       (autorewrite with exec;
        cbn beta iota zeta delta [py_get py_getitem outcome_bind fst snd default])).

Ltac exec_cases :=
  repeat first
    [ progress exec_simpl
    | match goal with
      | |- ∃ _, (Returns ?x, ?s) = (Returns _, _) => by eexists
      | |- context [py_get ?v ?k ?d] => destruct (py_get v k d)
      | |- context [py_getitem ?v ?k] => destruct (py_getitem v k)
      | |- context [if truthy ?x then _ else _] => destruct (truthy x)
      end ].

(** The probe of lines 479-511 never raises. *)
Lemma probe_dimensions_returns b s :
  ∃ dims, exec b (probe_dimensions s) = (Returns dims, s).
Proof.
  unfold probe_dimensions. exec_simpl.
  destruct (reply b "evaluate" _) as [dr|e]; [|by eexists].
  exec_cases.
Qed.

(** ** The state reconstructor *)

(** When the navigation of lines 284-292 is skipped. *)
Lemma ensure_start_url_known b s :
  truthy (current_url s) = true →
  py_eq (current_url s) (VStr "about:blank") = false →
  exec b (ensure_start_url s) = (Returns tt, s) ∧ sent b (ensure_start_url s) = [].
Proof.
  intros Ht He. unfold ensure_start_url.
  unfold mbind, M_mbind, bind. simpl. by rewrite Ht, He.
Qed.

(** Without a connection the call raises at once and sends nothing. *)
Lemma not_connected_raises b s :
  connected b = false →
  exec b (get_browser_state_with_recovery s)
  = (Raises (Exception "Bridge extension not connected. Please install and connect the extension."), s)
  ∧ sent b (get_browser_state_with_recovery s) = [].
Proof.
  intros Hc. unfold get_browser_state_with_recovery. split.
  - exec_simpl. rewrite Hc. cbn [negb]. by exec_simpl.
  - unfold mbind, M_mbind, bind, is_connected. cbn. by rewrite Hc.
Qed.

(** With a truthy [success] the call is the success branch on the session
    the navigation left. *)
Lemma success_branch b s s1 dom_result ok :
  connected b = true →
  exec b (ensure_start_url s) = (Returns tt, s1) →
  reply b "get_dom" (VDict []) = Returns dom_result →
  py_get dom_result "success" VNone = Returns ok →
  truthy ok = true →
  exec b (get_browser_state_with_recovery s) = exec b (reconstruct dom_result s1).
Proof.
  intros Hconn Hnav Hdom Hok Ht.
  unfold get_browser_state_with_recovery.
  exec_simpl. rewrite Hconn. cbn [negb]. exec_simpl. rewrite Hnav.
  exec_simpl. rewrite Hdom. exec_simpl. rewrite Hok. cbn beta iota. by rewrite Ht.
Qed.

(** The degraded branch returns, whatever the bridge answers to the
    probe of the dimensions, and leaves the session as it is. *)
Lemma degraded_returns b s (d : list (string * value)) :
  ∃ summary,
    exec b (degraded (VDict d) s) = (Returns summary, s)
    ∧ BrowserStateSummary.selector_map summary = []
    ∧ BrowserStateSummary.element_tree summary = None
    ∧ BrowserStateSummary.title summary
      = VStr ("Bridge Error: " +:+ py_str (default (VStr "Unknown error") (dict_get "error" d)))
    ∧ BrowserStateSummary.url summary = py_or (current_url s) (VStr "about:blank").
Proof.
  unfold degraded. exec_simpl.
  destruct (probe_dimensions_returns b s) as [[[[vw vh] pw] ph] Hd].
  rewrite Hd.
  exec_simpl. eexists. split; [reflexivity|]. simpl. auto.
Qed.

(** C1.  A call of [get_browser_state_with_recovery] on a connected
    bridge that gets as far as [get_dom] (the navigation to the landing
    page, if there was one, returned) and whose [get_dom] result has
    [success] false returns a summary, it does not raise: the selector
    map is empty, the root element is [None], the title is
    ["Bridge Error: "] followed by the text of the reported error (or of
    ["Unknown error"] if none was reported), and the url is the session's
    current url, or ["about:blank"] if it has none. *)
Theorem C1_degraded_state_returned b s s1 (d : list (string * value)) :
  connected b = true →
  exec b (ensure_start_url s) = (Returns tt, s1) →
  reply b "get_dom" (VDict []) = Returns (VDict d) →
  dict_get "success" d = Some (VBool false) →
  ∃ summary,
    exec b (get_browser_state_with_recovery s) = (Returns summary, s1)
    ∧ BrowserStateSummary.selector_map summary = []
    ∧ BrowserStateSummary.element_tree summary = None
    ∧ BrowserStateSummary.title summary
      = VStr ("Bridge Error: " +:+ py_str (default (VStr "Unknown error") (dict_get "error" d)))
    ∧ BrowserStateSummary.url summary = py_or (current_url s1) (VStr "about:blank").
Proof.
  intros Hconn Hnav Hdom Hsucc.
  unfold get_browser_state_with_recovery.
  exec_simpl. rewrite Hconn. cbn [negb]. exec_simpl. rewrite Hnav.
  exec_simpl. rewrite Hdom. exec_simpl. rewrite Hsucc. cbn [default truthy].
  apply degraded_returns.
Qed.

(** C6.  When [get_dom] answers with the snapshot of the scenario, the
    call returns a summary whose selector map has the single key 3, with
    the element of tag ["a"], xpath ["/html/body/a"], visible, and whose
    page info has viewport 800 by 600, page 800 by 600 (taken from the
    viewport), and 0 for the scroll and the four pixel fields. *)
Theorem C6_concrete_scenario b s s1 :
  connected b = true →
  exec b (ensure_start_url s) = (Returns tt, s1) →
  reply b "get_dom" (VDict []) = Returns scenario_dom_result →
  ∃ summary s2,
    exec b (get_browser_state_with_recovery s) = (Returns summary, s2)
    ∧ BrowserStateSummary.selector_map summary = [(VInt 3, scenario_element)]
    ∧ BrowserStateSummary.page_info summary = scenario_page_info.
Proof.
  intros Hconn Hnav Hdom.
  unfold get_browser_state_with_recovery.
  exec_simpl. rewrite Hconn. cbn [negb]. exec_simpl. rewrite Hnav.
  exec_simpl. rewrite Hdom. unfold scenario_dom_result at 1. exec_simpl.
  cbn [dict_get String.eqb Ascii.eqb Bool.eqb default truthy].
  eexists _, _. split; [reflexivity|]. split; reflexivity.
Qed.

(** ** The page metrics *)

Lemma truthy_not_zero (v : value) : truthy v = true → py_eq v (VInt 0) = false.
Proof.
  destruct v as [|[]|n| | |]; simpl; try done.
  intros E. by apply negb_true_iff in E.
Qed.

Lemma py_or_truthy (v w : value) : truthy w = true → truthy (py_or v w) = true.
Proof. unfold py_or. by destruct (truthy v) eqn:E. Qed.

(** What [page_info_of] returns, field by field. *)
Lemma page_info_of_inv (viewport page pixels : value) (info : PageInfo.t) :
  page_info_of viewport page pixels = Returns info →
  ∃ vw vh pw ph,
    py_get viewport "width" VNone = Returns vw
    ∧ py_get viewport "height" VNone = Returns vh
    ∧ py_get page "width" VNone = Returns pw
    ∧ py_get page "height" VNone = Returns ph
    ∧ PageInfo.viewport_width info = py_or vw (VInt 1920)
    ∧ PageInfo.viewport_height info = py_or vh (VInt 1080)
    ∧ PageInfo.page_width info = py_or pw (PageInfo.viewport_width info)
    ∧ PageInfo.page_height info = py_or ph (PageInfo.viewport_height info).
Proof.
  unfold page_info_of.
  destruct viewport as [| | | | |vp]; try discriminate.
  destruct page as [| | | | |pg]; try discriminate.
  destruct pixels as [| | | | |px]; try discriminate.
  simpl. intros [= <-]. simpl. eauto 12.
Qed.

Ltac exec_invert :=
  repeat (exec_simpl;
          match goal with
          | |- context [match ?o with Returns _ => _ | Raises _ => _ end] =>
              destruct o eqn:?; [|intros; discriminate]
          end).

(** The pieces of a successful reconstruction. *)
Lemma reconstruct_inv b s dom_result summary s' :
  exec b (reconstruct dom_result s) = (Returns summary, s') →
  ∃ dom_data viewport page pixels elements items built,
    py_get dom_result "result" (VDict []) = Returns dom_data
    ∧ py_get dom_data "viewport" (VDict []) = Returns viewport
    ∧ py_get dom_data "page" (VDict []) = Returns page
    ∧ py_get dom_data "pixels" (VDict []) = Returns pixels
    ∧ page_info_of viewport page pixels
      = Returns (BrowserStateSummary.page_info summary)
    ∧ py_get dom_data "elements" (VList []) = Returns elements
    ∧ py_iter elements = Returns items
    ∧ build_selector_map viewport items [] = Returns built
    ∧ BrowserStateSummary.selector_map summary = adopt built.
Proof.
  unfold reconstruct, set_tab_infos, set_current_url, update_mock_page.
  exec_invert. exec_simpl. intros [= <- _]. simpl.
  do 7 eexists. repeat split; eassumption.
Qed.

(** The selector map of the summary of a call whose [get_dom] reports
    success is what the loop built from the raw elements, parents set. *)
Lemma selector_map_of_call b s s1 dom_result ok summary s' :
  connected b = true →
  exec b (ensure_start_url s) = (Returns tt, s1) →
  reply b "get_dom" (VDict []) = Returns dom_result →
  py_get dom_result "success" VNone = Returns ok →
  truthy ok = true →
  exec b (get_browser_state_with_recovery s) = (Returns summary, s') →
  ∃ dom_data viewport elements items built,
    py_get dom_result "result" (VDict []) = Returns dom_data
    ∧ py_get dom_data "viewport" (VDict []) = Returns viewport
    ∧ py_get dom_data "elements" (VList []) = Returns elements
    ∧ py_iter elements = Returns items
    ∧ build_selector_map viewport items [] = Returns built
    ∧ BrowserStateSummary.selector_map summary = adopt built.
Proof.
  intros Hconn Hnav Hdom Hok Ht Hcall.
  rewrite (success_branch b s s1 dom_result ok Hconn Hnav Hdom Hok Ht) in Hcall.
  apply reconstruct_inv in Hcall
    as (dom_data & viewport & page & pixels & elements & items & built
        & Hdata & Hvp & _ & _ & _ & Hel & Hit & Hb & Hm).
  by exists dom_data, viewport, elements, items, built.
Qed.

(** The dimensions a successful reconstruction puts in the page info. *)
Lemma reconstruct_dimensions b s dom_result summary s' :
  exec b (reconstruct dom_result s) = (Returns summary, s') →
  ∃ dom_data viewport page vw vh pw ph,
    py_get dom_result "result" (VDict []) = Returns dom_data
    ∧ py_get dom_data "viewport" (VDict []) = Returns viewport
    ∧ py_get dom_data "page" (VDict []) = Returns page
    ∧ py_get viewport "width" VNone = Returns vw
    ∧ py_get viewport "height" VNone = Returns vh
    ∧ py_get page "width" VNone = Returns pw
    ∧ py_get page "height" VNone = Returns ph
    ∧ let info := BrowserStateSummary.page_info summary in
      PageInfo.viewport_width info = (if truthy vw then vw else VInt 1920)
      ∧ PageInfo.viewport_height info = (if truthy vh then vh else VInt 1080)
      ∧ PageInfo.page_width info
        = (if truthy pw then pw else PageInfo.viewport_width info)
      ∧ PageInfo.page_height info
        = (if truthy ph then ph else PageInfo.viewport_height info)
      ∧ py_eq (PageInfo.viewport_width info) (VInt 0) = false
      ∧ py_eq (PageInfo.viewport_height info) (VInt 0) = false
      ∧ py_eq (PageInfo.page_width info) (VInt 0) = false
      ∧ py_eq (PageInfo.page_height info) (VInt 0) = false.
Proof.
  intros (dom_data & viewport & page & pixels & elements & items & built
          & Hdata & Hvp & Hpg & _ & Hinfo & _)%reconstruct_inv.
  apply page_info_of_inv in Hinfo
    as (vw & vh & pw & ph & Hvw & Hvh & Hpw & Hph & Evw & Evh & Epw & Eph).
  exists dom_data, viewport, page, vw, vh, pw, ph.
  repeat (split; [assumption|]). cbv zeta.
  assert (Tvw : truthy (PageInfo.viewport_width (BrowserStateSummary.page_info summary)) = true)
    by (rewrite Evw; by apply py_or_truthy).
  assert (Tvh : truthy (PageInfo.viewport_height (BrowserStateSummary.page_info summary)) = true)
    by (rewrite Evh; by apply py_or_truthy).
  repeat split; try assumption.
  - apply truthy_not_zero, Tvw.
  - apply truthy_not_zero, Tvh.
  - apply truthy_not_zero. rewrite Epw. by apply py_or_truthy.
  - apply truthy_not_zero. rewrite Eph. by apply py_or_truthy.
Qed.

(** C9.  Whenever a call whose [get_dom] reports success returns a
    summary, the four dimensions of its page info are: the viewport width
    and height of the snapshot if truthy, else 1920 and 1080; the page
    width and height of the snapshot if truthy, else the viewport width
    and height just computed.  So a width or height of 0 (or [None], or
    missing) is replaced, and none of the four dimensions equals 0. *)
Theorem C9_zero_dimension_replaced b s s1 dom_result ok summary s' :
  connected b = true →
  exec b (ensure_start_url s) = (Returns tt, s1) →
  reply b "get_dom" (VDict []) = Returns dom_result →
  py_get dom_result "success" VNone = Returns ok →
  truthy ok = true →
  exec b (get_browser_state_with_recovery s) = (Returns summary, s') →
  ∃ dom_data viewport page vw vh pw ph,
    py_get dom_result "result" (VDict []) = Returns dom_data
    ∧ py_get dom_data "viewport" (VDict []) = Returns viewport
    ∧ py_get dom_data "page" (VDict []) = Returns page
    ∧ py_get viewport "width" VNone = Returns vw
    ∧ py_get viewport "height" VNone = Returns vh
    ∧ py_get page "width" VNone = Returns pw
    ∧ py_get page "height" VNone = Returns ph
    ∧ let info := BrowserStateSummary.page_info summary in
      PageInfo.viewport_width info = (if truthy vw then vw else VInt 1920)
      ∧ PageInfo.viewport_height info = (if truthy vh then vh else VInt 1080)
      ∧ PageInfo.page_width info
        = (if truthy pw then pw else PageInfo.viewport_width info)
      ∧ PageInfo.page_height info
        = (if truthy ph then ph else PageInfo.viewport_height info)
      ∧ py_eq (PageInfo.viewport_width info) (VInt 0) = false
      ∧ py_eq (PageInfo.viewport_height info) (VInt 0) = false
      ∧ py_eq (PageInfo.page_width info) (VInt 0) = false
      ∧ py_eq (PageInfo.page_height info) (VInt 0) = false.
Proof.
  intros Hconn Hnav Hdom Hok Ht Hcall.
  rewrite (success_branch b s s1 dom_result ok Hconn Hnav Hdom Hok Ht) in Hcall.
  by apply (reconstruct_dimensions b s1 dom_result summary s').
Qed.

(** ** Dictionaries keyed by values *)

Ltac eqb_subst :=
  repeat match goal with
         | H : (_ =? _)%Z = true |- _ => apply Z.eqb_eq in H; subst
         | H : String.eqb _ _ = true |- _ => apply String.eqb_eq in H; subst
         | H : Bool.eqb _ _ = true |- _ => apply Bool.eqb_prop in H; subst
         end.

(** On hashable values [==] is an equivalence: keys that are equal find
    the same entries. *)
Lemma py_eq_key_congr (a a' k : value) :
  hashable a = true → hashable a' = true →
  py_eq a a' = true → py_eq a k = py_eq a' k.
Proof.
  destruct a, a'; cbn [py_eq hashable]; try done;
    intros _ _ E; eqb_subst; try done;
    destruct k; cbn [py_eq]; try done;
    repeat match goal with b : bool |- _ => destruct b end; done.
Qed.

Lemma py_eq_key_join (a a' k : value) :
  hashable a = true → hashable a' = true →
  py_eq a k = true → py_eq a' k = true → py_eq a a' = true.
Proof.
  destruct a, a'; cbn [py_eq hashable]; try done;
    intros _ _; destruct k; cbn [py_eq]; try done;
    intros E E'; eqb_subst;
    rewrite ?Z.eqb_refl, ?String.eqb_refl; try done;
    repeat match goal with b : bool |- _ => destruct b end; done.
Qed.

Lemma dict_store_hashable {V} (k : value) (v : V) (d : pydict V) :
  hashable k = true → keys_hashable d → keys_hashable (dict_store k v d).
Proof.
  intros Hk. induction 1 as [|[k' v'] d Hk' Hd IH]; simpl.
  - by repeat constructor.
  - destruct (py_eq k' k); constructor; done.
Qed.

(** Reading after [d[k1] = v]: the new value under every key equal to
    [k1], the old entry elsewhere. *)
Lemma dict_lookup_store {V} (k1 k : value) (v : V) (d : pydict V) :
  hashable k1 = true → keys_hashable d →
  dict_lookup k (dict_store k1 v d)
  = if py_eq k1 k then Some v else dict_lookup k d.
Proof.
  intros Hk1. induction 1 as [|[k' v'] d Hk' Hd IH]; simpl; [done|].
  simpl in Hk'. destruct (py_eq k' k1) eqn:E; simpl.
  - rewrite (py_eq_key_congr k' k1 k Hk' Hk1 E). by destruct (py_eq k1 k).
  - rewrite IH. destruct (py_eq k' k) eqn:E1, (py_eq k1 k) eqn:E2; try done.
    by rewrite (py_eq_key_join k' k1 k Hk' Hk1 E1 E2) in E.
Qed.

Lemma dict_lookup_adopt (k : value) (m : SelectorMap) :
  dict_lookup k (adopt m) = set_parent (Some RootElement) <$> dict_lookup k m.
Proof.
  induction m as [|[k' n] m IH]; simpl; [done|].
  by destruct (py_eq k' k).
Qed.

(** ** The loop over the raw elements *)

(** The key the code computes is the index the element reports. *)
Lemma selector_key_reported (element : value) :
  selector_key element
  = match reported_index element with
    | Some i => Returns i
    | None => Raises AttributeError
    end.
Proof. by destruct element. Qed.

Lemma build_selector_map_lookup viewport (elements : list value) (m0 m : SelectorMap) k :
  keys_hashable m0 →
  build_selector_map viewport elements m0 = Returns m →
  dict_lookup k m
  = match last_reporting k elements with
    | Some element => node_of viewport element
    | None => dict_lookup k m0
    end.
Proof.
  revert m0. induction elements as [|e rest IH]; intros m0 Hm0; simpl.
  - by intros [= ->].
  - unfold node_of, reports.
    destruct (dom_element viewport e) as [n|] eqn:En; simpl; [|done].
    rewrite selector_key_reported.
    destruct (reported_index e) as [key|] eqn:Ek; simpl; [|done].
    unfold dict_setitem. destruct (hashable key) eqn:Hk; simpl; [|done].
    intros Hb. rewrite (IH _ (dict_store_hashable key n m0 Hk Hm0) Hb).
    destruct (last_reporting k rest); [done|].
    rewrite dict_lookup_store by done.
    destruct (py_eq key k); [by rewrite En|done].
Qed.

Lemma build_selector_map_returns viewport (elements : list value) (m0 : SelectorMap) :
  (∀ e, e ∈ elements →
     ∃ node key, dom_element viewport e = Returns node
                 ∧ selector_key e = Returns key ∧ hashable key = true) →
  ∃ m, build_selector_map viewport elements m0 = Returns m.
Proof.
  revert m0. induction elements as [|e rest IH]; intros m0 Hall; simpl; [by eexists|].
  destruct (Hall e) as (n & key & -> & -> & Hk); [by left|]. simpl.
  unfold dict_setitem. rewrite Hk. simpl.
  apply IH. intros e' He'. apply Hall. by right.
Qed.

Lemma missing_index_key (d : list (string * value)) :
  dict_get "index" d = None → selector_key (VDict d) = Returns (VInt 0).
Proof. unfold selector_key. simpl. by intros ->. Qed.

Lemma missing_index_highlight viewport (d : list (string * value)) node :
  dict_get "index" d = None →
  dom_element viewport (VDict d) = Returns node →
  highlight_index node = VNone.
Proof.
  intros Hi. unfold dom_element.
  repeat match goal with
         | |- context [mbind _ ?o] =>
             lazymatch o with
             | mbind _ _ => fail
             | _ => destruct o; simpl; [|done]
             end
         end.
  intros [= <-]. simpl. by rewrite Hi.
Qed.

Lemma last_reporting_none k (elements : list value) :
  (∀ e, e ∈ elements → reports k e = false) → last_reporting k elements = None.
Proof.
  induction elements as [|e rest IH]; intros Hall; simpl; [done|].
  rewrite IH by (intros e' He'; apply Hall; by right).
  by rewrite (Hall e) by by left.
Qed.

(** The last element that reports [k], given as a place in the list. *)
Lemma last_reporting_split k (pre post : list value) e :
  reports k e = true →
  (∀ e', e' ∈ post → reports k e' = false) →
  last_reporting k (pre ++ e :: post)%list = Some e.
Proof.
  intros He Hpost. induction pre as [|e0 pre IH]; simpl.
  - by rewrite (last_reporting_none k post Hpost), He.
  - by rewrite IH.
Qed.

(** C7.  If every raw element on its own gives a node and a hashable
    key, the loop returns a map, whatever keys coincide.  The key of an
    element is its ["index"], 0 when it has none.  Under each key the map
    holds the node of the last element that reports the key: an element
    that reports [k] and is followed by none that does has its node under
    [k], whatever the elements before it reported.  The map of the
    summary holds the same node with its parent set. *)
Theorem C7_last_write_wins viewport (elements : list value) :
  (∀ e, e ∈ elements →
     ∃ node key, dom_element viewport e = Returns node
                 ∧ selector_key e = Returns key ∧ hashable key = true) →
  ∃ m,
    build_selector_map viewport elements [] = Returns m
    ∧ (∀ k, dict_lookup k m = last_reporting k elements ≫= node_of viewport)
    ∧ (∀ k, dict_lookup k (adopt m)
            = set_parent (Some RootElement)
                <$> (last_reporting k elements ≫= node_of viewport))
    ∧ (∀ d, dict_get "index" d = None →
            selector_key (VDict d) = Returns (VInt 0)
            ∧ reports (VInt 0) (VDict d) = true)
    ∧ (∀ d, selector_key (VDict d) = Returns (default (VInt 0) (dict_get "index" d)))
    ∧ (∀ (pre : list value) e (post : list value) k node,
         elements = (pre ++ e :: post)%list →
         reports k e = true →
         (∀ e', e' ∈ post → reports k e' = false) →
         dom_element viewport e = Returns node →
         dict_lookup k m = Some node
         ∧ dict_lookup k (adopt m) = Some (set_parent (Some RootElement) node)).
Proof.
  intros Hall.
  destruct (build_selector_map_returns viewport elements [] Hall) as [m Hm].
  assert (Hlook : ∀ k, dict_lookup k m = last_reporting k elements ≫= node_of viewport).
  { intros k. rewrite (build_selector_map_lookup viewport elements [] m k); [|constructor|done].
    by destruct (last_reporting k elements). }
  exists m. split; [done|]. split; [done|]. split; [|split; [|split]].
  - intros k. by rewrite dict_lookup_adopt, Hlook.
  - intros d Hd. split; [by apply missing_index_key|].
    unfold reports. simpl. by rewrite Hd.
  - done.
  - intros pre e post k node -> He Hpost Hnode.
    assert (Hk : dict_lookup k m = Some node).
    { rewrite Hlook, (last_reporting_split k pre post e He Hpost). simpl.
      unfold node_of. by rewrite Hnode. }
    split; [exact Hk|]. by rewrite dict_lookup_adopt, Hk.
Qed.

(** ** From the map to the click *)

Lemma last_reporting_elem k (elements : list value) e :
  last_reporting k elements = Some e → e ∈ elements ∧ reports k e = true.
Proof.
  induction elements as [|e' rest IH]; simpl; [done|].
  destruct (last_reporting k rest) as [later|].
  - intros [= ->]. destruct IH as [? ?]; [done|]. split; [by right|done].
  - destruct (reports k e') eqn:E; [|done]. intros [= ->]. split; [by left|done].
Qed.

Lemma build_selector_map_elem viewport (elements : list value) (m0 m : SelectorMap) e :
  build_selector_map viewport elements m0 = Returns m →
  e ∈ elements → ∃ node, dom_element viewport e = Returns node.
Proof.
  revert m0. induction elements as [|e' rest IH]; intros m0; simpl.
  - intros _ He. by apply elem_of_nil in He.
  - destruct (dom_element viewport e') as [n|] eqn:En; simpl; [|done].
    destruct (selector_key e'); simpl; [|done].
    destruct (dict_setitem _ n m0) as [m1|]; simpl; [|done].
    intros Hb [->|He]%elem_of_cons; [by eexists|]. by apply (IH m1).
Qed.

(** Without a highlight index no command is sent. *)
Lemma click_without_index b s (node : DOMElementNode) :
  highlight_index node = VNone →
  exec b (_click_element_node node s)
  = (Raises (Exception ("Element missing highlight_index: " +:+ repr node)), s)
  ∧ sent b (_click_element_node node s) = [].
Proof. intros Hn. unfold _click_element_node. by rewrite Hn. Qed.

Lemma build_selector_map_app viewport (l1 l2 : list value) (m0 : SelectorMap) :
  build_selector_map viewport (l1 ++ l2)%list m0
  = build_selector_map viewport l1 m0 ≫= build_selector_map viewport l2.
Proof.
  revert m0. induction l1 as [|e l1 IH]; intros m0; simpl; [done|].
  destruct (dom_element viewport e); simpl; [|done].
  destruct (selector_key e); simpl; [|done].
  destruct (dict_setitem _ _ m0); simpl; [|done].
  apply IH.
Qed.

(** C10.  Every raw element without ["index"] gets a node whose
    [highlight_index] is [None], and the loop stores that node under the
    key 0.  [_click_element_node] on the node, with or without the parent
    the summary gives it, raises
    ["Element missing highlight_index: ..."] without sending any command.
    The node is the one the summary's selector map holds under 0 when no
    later element reports 0. *)
Theorem C10_missing_index_not_clickable viewport (elements : list value)
    (m : SelectorMap) (d : list (string * value)) :
  build_selector_map viewport elements [] = Returns m →
  VDict d ∈ elements →
  dict_get "index" d = None →
  ∃ node,
    dom_element viewport (VDict d) = Returns node
    ∧ selector_key (VDict d) = Returns (VInt 0)
    ∧ highlight_index node = VNone
    ∧ highlight_index (set_parent (Some RootElement) node) = VNone
    ∧ (∃ (pre post : list value) m1,
         elements = (pre ++ VDict d :: post)%list
         ∧ build_selector_map viewport (pre ++ [VDict d])%list [] = Returns m1
         ∧ dict_lookup (VInt 0) m1 = Some node)
    ∧ (last_reporting (VInt 0) elements = Some (VDict d) →
       dict_lookup (VInt 0) (adopt m) = Some (set_parent (Some RootElement) node))
    ∧ ∀ stored b s,
        stored = node ∨ stored = set_parent (Some RootElement) node →
        exec b (_click_element_node stored s)
        = (Raises (Exception ("Element missing highlight_index: " +:+ repr stored)), s)
        ∧ sent b (_click_element_node stored s) = [].
Proof.
  intros Hm He Hd.
  destruct (build_selector_map_elem viewport elements [] m _ Hm He) as [node Hnode].
  assert (Hhi : highlight_index node = VNone)
    by by apply (missing_index_highlight viewport d).
  assert (Hrep : reports (VInt 0) (VDict d) = true)
    by (unfold reports; simpl; by rewrite Hd).
  exists node. split; [exact Hnode|]. split; [by apply missing_index_key|].
  split; [exact Hhi|]. split; [exact Hhi|]. split; [|split].
  - apply list_elem_of_split in He as (pre & post & Hsplit).
    assert (Hpre : ∃ m1,
               build_selector_map viewport (pre ++ [VDict d])%list [] = Returns m1).
    { revert Hm. rewrite Hsplit.
      replace (pre ++ VDict d :: post)%list with ((pre ++ [VDict d]) ++ post)%list
        by by rewrite <- app_assoc.
      rewrite build_selector_map_app.
      destruct (build_selector_map viewport (pre ++ [VDict d])%list []) as [m1|]; [|done].
      by exists m1. }
    destruct Hpre as [m1 Hm1]. exists pre, post, m1.
    split; [exact Hsplit|]. split; [exact Hm1|].
    rewrite (build_selector_map_lookup viewport (pre ++ [VDict d])%list [] m1 (VInt 0));
      [|constructor|exact Hm1].
    rewrite (last_reporting_split (VInt 0) pre [] (VDict d) Hrep).
    + unfold node_of. by rewrite Hnode.
    + intros e' He'. by apply elem_of_nil in He'.
  - intros Hlast.
    rewrite dict_lookup_adopt.
    rewrite (build_selector_map_lookup viewport elements [] m (VInt 0)); [|constructor|done].
    rewrite Hlast. unfold node_of. by rewrite Hnode.
  - intros stored b s [->| ->]; by apply click_without_index.
Qed.

(** ** The action wrappers *)

(** A click whose response has a falsy [success] or [clicked]: the
    wrapper raises, naming the element and the reported reason. *)
Lemma click_reported_failure b s (node : DOMElementNode) (d : list (string * value)) :
  highlight_index node ≠ VNone →
  reply b "click" (VDict [("index", highlight_index node)]) = Returns (VDict d) →
  truthy (py_and (default (VBool false) (dict_get "success" d))
                 (default (VBool false) (dict_get "clicked" d))) = false →
  exec b (_click_element_node node s)
  = (Raises (Exception ("Click failed for element " +:+ py_str (highlight_index node)
                        +:+ ": "
                        +:+ py_str (default (VStr "unknown error") (dict_get "error" d)))),
     s).
Proof.
  intros Hn Hr Hf. unfold _click_element_node.
  assert (E : exec b
    (try_except
       (result ← bridge_click VNone VNone (highlight_index node);
        ok ← eval (py_get result "success" (VBool false));
        clicked ← eval (py_get result "clicked" (VBool false));
        if truthy (py_and ok clicked) then mret VNone
        else
          error ← eval (py_get result "error" (VStr "unknown error"));
          raise (Exception ("Click failed for element "
                            +:+ py_str (highlight_index node) +:+ ": "
                            +:+ py_str error)))
       (fun e => raise e) s)
    = (Raises (Exception ("Click failed for element " +:+ py_str (highlight_index node)
                        +:+ ": "
                        +:+ py_str (default (VStr "unknown error") (dict_get "error" d)))),
     s)).
  { exec_simpl. rewrite exec_bridge_click by done. rewrite Hr. exec_simpl.
    rewrite Hf. by exec_simpl. }
  by destruct (highlight_index node).
Qed.

(** What [_input_text_element_node] does once the element has focus: it
    returns [success and typed] of the response, falsy or not. *)
Lemma type_reported_failure b s (node : DOMElementNode) text (c t : list (string * value)) :
  highlight_index node ≠ VNone →
  reply b "click" (VDict [("index", highlight_index node)]) = Returns (VDict c) →
  truthy (default (VBool false) (dict_get "success" c)) = true →
  reply b "type" (VDict [("text", text)]) = Returns (VDict t) →
  exec b (_input_text_element_node node text s)
  = (Returns (py_and (default (VBool false) (dict_get "success" t))
                     (default (VBool false) (dict_get "typed" t))), s).
Proof.
  intros Hn Hc Hf Ht. unfold _input_text_element_node.
  assert (E : exec b
    ((click_result ← bridge_click VNone VNone (highlight_index node);
      focused ← eval (py_get click_result "success" (VBool false));
      if truthy focused then
        type_result ← bridge_type_text text;
        ok ← eval (py_get type_result "success" (VBool false));
        typed ← eval (py_get type_result "typed" (VBool false));
        let success := py_and ok typed in
        mret success
      else mret (VBool false)) s)
    = (Returns (py_and (default (VBool false) (dict_get "success" t))
                     (default (VBool false) (dict_get "typed" t))), s)).
  { exec_simpl. rewrite exec_bridge_click by done. rewrite Hc. exec_simpl.
    rewrite Hf. exec_simpl. rewrite Ht. by exec_simpl. }
  by destruct (highlight_index node).
Qed.

End Session.

(** ** The properties on sample inputs *)

(** C1 on a session fresh from [__init__]: the navigation to the landing
    page succeeds, [get_dom] reports ["No active tab"]. *)
Lemma C1_degraded_state_returned_witness :
  ∃ summary,
    exec dom_failing
      (BridgeSession.get_browser_state_with_recovery (value_repr := sample_repr)
         BridgeSession.__init__)
    = (Returns summary, landed)
    ∧ BrowserStateSummary.selector_map summary = []
    ∧ BrowserStateSummary.element_tree summary = None
    ∧ BrowserStateSummary.title summary = VStr "Bridge Error: No active tab"
    ∧ BrowserStateSummary.url summary = VStr "https://www.google.com".
Proof.
  apply (C1_degraded_state_returned (value_repr := sample_repr) dom_failing
           BridgeSession.__init__ landed
           [("success", VBool false); ("error", VStr "No active tab")]);
    reflexivity.
Defined.

(** C6 on a session that is on a page of its own. *)
Lemma C6_concrete_scenario_witness :
  ∃ summary s2,
    exec scenario_bridge
      (BridgeSession.get_browser_state_with_recovery (value_repr := sample_repr) browsing)
    = (Returns summary, s2)
    ∧ BrowserStateSummary.selector_map summary = [(VInt 3, scenario_element)]
    ∧ BrowserStateSummary.page_info summary = scenario_page_info.
Proof.
  apply (C6_concrete_scenario (value_repr := sample_repr) scenario_bridge browsing browsing);
    reflexivity.
Defined.

(** C9 on a snapshot with a viewport of 0 by 0 and a page of width 0. *)
Lemma C9_zero_dimension_replaced_witness :
  ∃ summary s',
    exec zero_viewport_bridge
      (BridgeSession.get_browser_state_with_recovery (value_repr := sample_repr) browsing)
    = (Returns summary, s')
    ∧ PageInfo.viewport_width (BrowserStateSummary.page_info summary) = VInt 1920
    ∧ PageInfo.viewport_height (BrowserStateSummary.page_info summary) = VInt 1080
    ∧ PageInfo.page_width (BrowserStateSummary.page_info summary) = VInt 1920
    ∧ PageInfo.page_height (BrowserStateSummary.page_info summary) = VInt 1080.
Proof.
  eexists _, _. split; [reflexivity|].
  destruct (C9_zero_dimension_replaced (value_repr := sample_repr) zero_viewport_bridge
              browsing browsing zero_viewport_dom_result (VBool true) _ _
              eq_refl eq_refl eq_refl eq_refl eq_refl eq_refl)
    as (dom_data & viewport & page & vw & vh & pw & ph & Hdata & Hvp & Hpg
        & Hvw & Hvh & Hpw & Hph & Evw & Evh & Epw & Eph & _).
  injection Hdata as <-. injection Hvp as <-. injection Hpg as <-.
  injection Hvw as <-. injection Hvh as <-. injection Hpw as <-. injection Hph as <-.
  repeat split; assumption.
Defined.

(** C7 on three elements that all land on key 0. *)
Lemma C7_last_write_wins_witness :
  ∃ m,
    BridgeSession.build_selector_map (VDict []) colliding_elements [] = Returns m
    ∧ (∀ k, dict_lookup k m = last_reporting k colliding_elements ≫= node_of (VDict []))
    ∧ (∀ k, dict_lookup k (BridgeSession.adopt m)
            = set_parent (Some RootElement)
                <$> (last_reporting k colliding_elements ≫= node_of (VDict [])))
    ∧ (∀ d, dict_get "index" d = None →
            BridgeSession.selector_key (VDict d) = Returns (VInt 0)
            ∧ reports (VInt 0) (VDict d) = true)
    ∧ (∀ d, BridgeSession.selector_key (VDict d)
            = Returns (default (VInt 0) (dict_get "index" d)))
    ∧ (∀ (pre : list value) e (post : list value) k node,
         colliding_elements = (pre ++ e :: post)%list →
         reports k e = true →
         (∀ e', e' ∈ post → reports k e' = false) →
         BridgeSession.dom_element (VDict []) e = Returns node →
         dict_lookup k m = Some node
         ∧ dict_lookup k (BridgeSession.adopt m)
           = Some (set_parent (Some RootElement) node)).
Proof.
  apply (C7_last_write_wins (VDict []) colliding_elements).
  intros e He. unfold colliding_elements in He.
  repeat (apply elem_of_cons in He as [->|He];
          [eexists _, _; repeat split; reflexivity|]).
  by apply elem_of_nil in He.
Defined.

(** C10 on the same three elements, for the link, which has no index and
    comes first: its node cannot be clicked, although the entry the map
    ends up with under 0 is the button's. *)
Lemma C10_missing_index_not_clickable_witness :
  ∃ m node,
    BridgeSession.build_selector_map (VDict []) colliding_elements [] = Returns m
    ∧ BridgeSession.dom_element (VDict []) (VDict [("tagName", VStr "a")]) = Returns node
    ∧ highlight_index node = VNone
    ∧ ∀ b s,
        exec b (BridgeSession._click_element_node (value_repr := sample_repr)
                  (node_repr := sample_node_repr) node s)
        = (Raises (Exception ("Element missing highlight_index: "
                              +:+ sample_node_repr node)), s)
        ∧ sent b (BridgeSession._click_element_node (value_repr := sample_repr)
                    (node_repr := sample_node_repr) node s) = [].
Proof.
  eexists _, _. split; [reflexivity|].
  destruct (C10_missing_index_not_clickable (value_repr := sample_repr)
              (node_repr := sample_node_repr) (VDict []) colliding_elements
              _ [("tagName", VStr "a")] eq_refl)
    as (node & Hnode & _ & Hhi & _ & _ & _ & Hclick).
  - unfold colliding_elements. by left.
  - reflexivity.
  - injection Hnode as <-. split; [reflexivity|]. split; [exact Hhi|].
    intros b s. apply Hclick. by left.
Defined.

(** C5, the [type] half on the code.  The extension answers [type] with
    [{success: true, typed: false, error: "target removed"}]:
    [_input_text_element_node] returns [False], it does not raise. *)
Theorem C5_type_failure_not_raised (s : BridgeSession.state) :
  exec typing_rejected
    (BridgeSession._input_text_element_node scenario_element (VStr "hello") s)
  = (Returns (VBool false), s).
Proof. reflexivity. Qed.

(** The [click] half of C5 on the scenario of the specification. *)
Example click_dual_flag_raises (s : BridgeSession.state) :
  exec click_rejected
    (BridgeSession._click_element_node (value_repr := sample_repr) (node_repr := sample_node_repr)
       scenario_element s)
  = (Raises (Exception "Click failed for element 3: target removed"), s).
Proof. reflexivity. Qed.

(** ** The tab proxies *)

Section Proxies.

(** C8, as the code has it.  [close] of a [BridgePageProxy] always
    returns; afterwards the proxy is closed if [send_command('close_tab')]
    returned a result, whatever the result says, and is as it was if
    [send_command] raised (not connected, timeout, failed send): the
    exception is logged and the mark is not set.  [close] of a
    [CurrentPageProxy] sends nothing and always marks the proxy closed. *)
Theorem C8_close_marks_closed (b : bridge) :
  (∀ p : BridgePageProxy.t,
     ∃ p',
       exec b (BridgePageProxy.close p) = (Returns tt, p')
       ∧ BridgePageProxy.is_closed p'
         = match reply b "close_tab" (VDict [("tabId", BridgePageProxy.id p)]) with
           | Returns _ => true
           | Raises _ => BridgePageProxy.is_closed p
           end)
  ∧ (∀ q : CurrentPageProxy.t,
       ∃ q',
         exec b (CurrentPageProxy.close q) = (Returns tt, q')
         ∧ CurrentPageProxy.is_closed q' = true
         ∧ sent b (CurrentPageProxy.close q) = []).
Proof.
  split.
  - intros p.
    unfold BridgePageProxy.close. rewrite exec_try_except, exec_bind, exec_get_self.
    cbn beta iota. rewrite exec_bind, exec_send_command.
    destruct (reply b "close_tab" _); cbn; eauto.
  - intros q. eexists. repeat split; reflexivity.
Qed.

(** C8 as stated fails: the extension never confirms [close_tab], the
    command times out, [close] returns and [is_closed] is still false. *)
Lemma C8_counterexample :
  let p := BridgePageProxy.__init__ (VInt 7) (VStr "http://x") (VStr "X") in
  let r := exec silent_bridge (BridgePageProxy.close p) in
  fst r = Returns tt ∧ BridgePageProxy.is_closed (snd r) = false.
Proof. split; reflexivity. Qed.

(** C4, as the code has it.  A [BridgePageProxy] compares ids with any
    object that has an [id], be it a [BridgePageProxy] or a
    [CurrentPageProxy]; the urls are then not looked at.  It compares urls
    only with an object that has a [url] and no [id], and equals no object
    that has neither.  A [CurrentPageProxy] compares urls and never looks
    at ids. *)
Theorem C4_tab_equality :
  (∀ self other : BridgePageProxy.t,
     BridgePageProxy.__eq__ self other
     = py_eq (BridgePageProxy.id self) (BridgePageProxy.id other))
  ∧ (∀ (self : BridgePageProxy.t) (other : CurrentPageProxy.t),
       BridgePageProxy.__eq__ self other
       = py_eq (BridgePageProxy.id self) (CurrentPageProxy.id other))
  ∧ (∀ (self : BridgePageProxy.t) (other : UrlOnly.t),
       BridgePageProxy.__eq__ self other
       = py_eq (BridgePageProxy.url self) (UrlOnly.url other))
  ∧ (∀ (self : BridgePageProxy.t) (other : Z), BridgePageProxy.__eq__ self other = false)
  ∧ (∀ (self : CurrentPageProxy.t) (other : BridgePageProxy.t),
       CurrentPageProxy.__eq__ self other
       = py_eq (CurrentPageProxy.url self) (BridgePageProxy.url other))
  ∧ (∀ self other : CurrentPageProxy.t,
       CurrentPageProxy.__eq__ self other
       = py_eq (CurrentPageProxy.url self) (CurrentPageProxy.url other)).
Proof.
  repeat split; reflexivity.
Qed.

(** C4 as stated fails: two [BridgePageProxy] handles with ids ["A"] and
    ["B"] and the same url are not equal. *)
Lemma C4_counterexample :
  BridgePageProxy.__eq__
    (BridgePageProxy.__init__ (VStr "A") (VStr "http://x") (VStr ""))
    (BridgePageProxy.__init__ (VStr "B") (VStr "http://x") (VStr "")) = false.
Proof. reflexivity. Qed.

End Proxies.

(** * Further properties *)

(** ** The correlator, further *)

Section MoreCorrelator.
Import BridgeController.

Implicit Types (st : state) (cmd_id : string) (a : action).

(** X1 (send_command, lines 99-101): on a controller that is not connected
    (flag unset or no socket held) [send_command] raises
    [Exception "Bridge extension not connected"] before it registers a
    waiter or sends anything: the state is left as it was. *)
Theorem X1_send_command_not_connected st cmd_id method params sent :
  is_connected st = false →
  send_command_begin cmd_id method params sent st
  = (Raises (Exception "Bridge extension not connected"), st).
Proof.
  unfold is_connected, send_command_begin. intros H.
  destruct (connected st), (bool_decide (is_Some (ws st))); simpl in *; done.
Qed.

Lemma with_pending_same st : with_pending st (pending_commands st) = st.
Proof. by destruct st. Qed.

(** X2 (send_command, lines 114-138): when sending the frame fails on a
    connected controller, the waiter [send_command] had registered is
    removed again, so that for an id that was not pending before the
    state after the call is the state before it; the call raises
    [Exception("Command timeout")] when the send raised
    [asyncio.TimeoutError] (the send is inside the [try], line 130
    catches it), and re-raises the exception of the send otherwise. *)
Theorem X2_failed_send_leaves_no_waiter st cmd_id method params e :
  is_connected st = true →
  pending_commands st !! cmd_id = None →
  send_command_begin cmd_id method params (Some e) st
  = (Raises (match e with
             | TimeoutError => Exception "Command timeout"
             | _ => e
             end), st).
Proof.
  unfold is_connected, send_command_begin. intros [Hc Hw]%andb_true_iff Hfresh.
  rewrite Hc, Hw. simpl.
  assert (Hst : with_pending
                  (with_pending st
                     (<[cmd_id := {| event := false; result := VNone |}]>
                        (pending_commands st)))
                  (delete cmd_id
                     (<[cmd_id := {| event := false; result := VNone |}]>
                        (pending_commands st))) = st).
  { unfold with_pending. simpl. rewrite delete_insert_eq, delete_id by done.
    by destruct st. }
  destruct e; simpl; by rewrite Hst.
Qed.

Lemma on_message_cases st (m : option value) :
  on_message m st = st
  ∨ ∃ d s w,
      m = Some (VDict d)
      ∧ dict_get "type" d = Some (VStr "response")
      ∧ dict_get "id" d = Some (VStr s)
      ∧ pending_commands st !! s = Some w
      ∧ on_message m st
        = with_pending st
            (<[s := {| event := true; result := default VNone (dict_get "result" d) |}]>
               (pending_commands st)).
Proof.
  destruct m as [data|]; [|by left].
  destruct data as [| | | | |d]; try by left.
  unfold on_message, _handle_message. simpl.
  destruct (py_eq (default VNone (dict_get "type" d)) (VStr "ready")) eqn:Er; [by left|].
  destruct (py_eq (default VNone (dict_get "type" d)) (VStr "response")) eqn:Et.
  - apply py_eq_VStr_r in Et.
    destruct (default VNone (dict_get "id" d)) as [| | |s| |] eqn:Ei; simpl; try by left.
    destruct (pending_commands st !! s) as [w|] eqn:Hw.
    + rewrite bool_decide_eq_true_2 by by eexists. simpl.
      right. exists d, s, w. repeat split; try done.
      * destruct (dict_get "type" d); simpl in *; by subst.
      * destruct (dict_get "id" d); simpl in *; by subst.
    + rewrite bool_decide_eq_false_2 by (by intros [? ?]). by left.
  - left. by destruct (py_eq (default VNone (dict_get "type" d)) (VStr "error")).
Qed.


(** A response with a pending id is delivered. *)
Lemma on_message_delivers st (d : list (string * value)) s (w : waiter) :
  dict_get "type" d = Some (VStr "response") →
  dict_get "id" d = Some (VStr s) →
  pending_commands st !! s = Some w →
  on_message (Some (VDict d)) st
  = with_pending st
      (<[s := {| event := true; result := default VNone (dict_get "result" d) |}]>
         (pending_commands st)).
Proof.
  intros Ht Hi Hw. unfold on_message, _handle_message. simpl.
  rewrite Ht, Hi. simpl. rewrite Hw.
  rewrite bool_decide_eq_true_2; [done|]. by eexists.
Qed.

(** X3 (_handle_message, lines 82-95, under the receive loop of lines
    47-55): a frame that is a dictionary of type [response] whose id is a
    string with a pending waiter is delivered: exactly that waiter is
    replaced by one with its event set and the frame's [result] (None if
    absent) in its slot, and the waiter stays in the map.  Every other
    frame (invalid JSON, a non-dictionary, [ready], [error], an unknown
    type, an unknown or missing id) leaves the state unchanged. *)
Theorem X3_only_pending_responses_change_state st (m : option value) :
  (∀ d s w,
     m = Some (VDict d) →
     dict_get "type" d = Some (VStr "response") →
     dict_get "id" d = Some (VStr s) →
     pending_commands st !! s = Some w →
     on_message m st
     = with_pending st
         (<[s := {| event := true; result := default VNone (dict_get "result" d) |}]>
            (pending_commands st))
     ∧ pending_commands (on_message m st) !! s
       = Some {| event := true; result := default VNone (dict_get "result" d) |}
     ∧ ∀ s', s' ≠ s →
         pending_commands (on_message m st) !! s' = pending_commands st !! s')
  ∧ ((¬ ∃ d s w,
        m = Some (VDict d)
        ∧ dict_get "type" d = Some (VStr "response")
        ∧ dict_get "id" d = Some (VStr s)
        ∧ pending_commands st !! s = Some w) →
     on_message m st = st).
Proof.
  split.
  - intros d s w -> Ht Hi Hw.
    rewrite (on_message_delivers st d s w Ht Hi Hw). simpl.
    split; [done|]. split; [apply lookup_insert_eq|].
    intros s' Hne. by apply lookup_insert_ne.
  - intros Hnot.
    destruct (on_message_cases st m) as [H|(d & s & w & Hm & Ht & Hi & Hw & _)]; [done|].
    exfalso. apply Hnot. by exists d, s, w.
Qed.

Lemma step_consistent st a : consistent st → consistent (step st a).
Proof.
  intros [Hc Hp]. destruct a as [c| |m|c method params sent|c how]; simpl.
  - split; [done|]. simpl. apply Hp.
  - split; [done|]. simpl. apply Hp.
  - destruct (on_message_cases st m)
      as [->|(d & s & w & _ & _ & _ & _ & ->)]; [done|].
    split; [done|]. simpl. intros i w' Hi Hev.
    destruct (decide (s = i)) as [->|Hne].
    + rewrite lookup_insert_eq in Hi. injection Hi as <-. done.
    + rewrite lookup_insert_ne in Hi by done. by apply (Hp i).
  - unfold send_command_begin.
    destruct (negb (connected st) || negb (bool_decide (is_Some (ws st)))); [done|].
    destruct sent as [e|]; simpl.
    + assert (He : consistent
                (with_pending
                   (with_pending st
                      (<[c := {| event := false; result := VNone |}]>
                         (pending_commands st)))
                   (delete c
                      (<[c := {| event := false; result := VNone |}]>
                         (pending_commands st))))).
      { split; [done|]. simpl. intros i w' Hi Hev.
        destruct (decide (c = i)) as [->|Hne].
        - by rewrite lookup_delete_eq in Hi.
        - rewrite lookup_delete_ne, lookup_insert_ne in Hi by done. by apply (Hp i). }
      by destruct e.
    + split; [done|]. simpl. intros i w' Hi Hev.
      destruct (decide (c = i)) as [->|Hne].
      * rewrite lookup_insert_eq in Hi. by injection Hi as <-.
      * rewrite lookup_insert_ne in Hi by done. by apply (Hp i).
  - destruct (may_wake how c st); [|done]. unfold send_command_resume.
    destruct how, (pending_commands st !! c) as [w|]; simpl; try done;
      (split; [done|]); simpl; intros i w' Hi Hev;
      (destruct (decide (c = i)) as [->|Hne];
       [by rewrite lookup_delete_eq in Hi
       |rewrite lookup_delete_ne in Hi by done; by apply (Hp i)]).
Qed.

(** X4 (BridgeController, lines 25-138, 167-169): whatever the loop does
    from the initial state, the connected flag is set exactly when a socket
    is held, so that [is_connected ()] is the flag, and a pending waiter
    whose event is not set still has None in its result slot. *)
Theorem X4_controller_state_consistent (l : list action) :
  let st := run init l in
  is_connected st = connected st
  ∧ connected st = bool_decide (is_Some (ws st))
  ∧ ∀ cmd_id (w : waiter),
      pending_commands st !! cmd_id = Some w → event w = false → result w = VNone.
Proof.
  assert (H : ∀ st, consistent st → consistent (run st l)).
  { induction l as [|a l IH]; intros st Hst; [done|].
    unfold run in *. simpl. apply IH. by apply step_consistent. }
  destruct (H init) as [Hc Hp]; [by split|].
  simpl. split; [|by split].
  unfold is_connected. rewrite <- Hc. by destruct (connected (run init l)).
Qed.

Lemma run_app st (l1 l2 : list action) : run st (l1 ++ l2) = run (run st l1) l2.
Proof. unfold run. apply fold_left_app. Qed.

(** X5 (send_command and _handle_message): until a response carries the
    command's id the wait of its sender cannot complete.  A response that
    carries the id, handled among any actions that do not concern this id
    (other responses, other senders, connects and disconnects), sets the
    event and fills the slot, so the wait can complete; a sender whose
    wait completed returns the response's result.  A sender whose 30
    seconds had passed before it could run raises
    [Exception("Command timeout")] all the same, and the result is
    dropped.  Either way the id is no longer pending. *)
Theorem X5_response_correlated_by_id st cmd_id method params (r : value)
    (l1 l2 : list action) :
  is_connected st = true →
  Forall (fun a => concerns cmd_id a = false) l1 →
  Forall (fun a => concerns cmd_id a = false) l2 →
  ∃ st1,
    send_command_begin cmd_id method params None st
      = (Returns (command_frame cmd_id method params), st1)
    ∧ may_wake Signalled cmd_id (run st1 l1) = false
    ∧ let st' := run (on_message (Some (response cmd_id r)) (run st1 l1)) l2 in
      may_wake Signalled cmd_id st' = true
      ∧ (∃ st2,
           send_command_resume Signalled cmd_id st' = (Returns r, st2)
           ∧ pending_commands st2 !! cmd_id = None)
      ∧ (∃ st2,
           send_command_resume TimedOut cmd_id st'
           = (Raises (Exception "Command timeout"), st2)
           ∧ pending_commands st2 !! cmd_id = None).
Proof.
  intros Hconn Hl1 Hl2.
  destruct (begin_registers st cmd_id method params Hconn) as (st1 & Hbegin & Hreg).
  exists st1. split; [exact Hbegin|].
  pose proof (run_other st1 cmd_id l1 Hl1) as H1. rewrite Hreg in H1.
  split; [by rewrite (may_wake_signalled _ _ _ H1)|].
  pose proof (response_delivered _ cmd_id _ r H1) as Hd.
  set (st0 := on_message (Some (response cmd_id r)) (run st1 l1)) in *.
  assert (H0 : pending_commands st0 !! cmd_id = Some {| event := true; result := r |}).
  { rewrite Hd. simpl. apply lookup_insert_eq. }
  pose proof (run_other st0 cmd_id l2 Hl2) as H2. rewrite H0 in H2.
  cbv zeta. split; [by rewrite (may_wake_signalled _ _ _ H2)|]. split.
  - eexists. split; [apply (resume_signalled _ _ _ H2)|]. simpl. apply lookup_delete_eq.
  - eexists. split; [apply (resume_timed_out _ _ _ H2)|]. simpl. apply lookup_delete_eq.
Qed.

End MoreCorrelator.

(** ** The session, further *)

Section MoreSession.
Import BridgeSession.
Context {value_repr : Repr value} {node_repr : Repr DOMElementNode}.

Implicit Types (b : bridge) (s : state).

Create Rewrite HintDb run.
#[local] Hint Rewrite @exec_bind @exec_try_except @exec_mret @exec_raise @exec_eval
  @exec_get_self @exec_set_self @exec_is_connected @exec_send_command
  @exec_bridge_navigate @exec_bridge_type_text @exec_bridge_evaluate
  @exec_bridge_get_dom : run.

Ltac run_step :=
  with_strategy opaque [ensure_start_url probe_dimensions degraded reconstruct
                        get_browser_state_with_recovery get_selector_map]
    (repeat progress
       (autorewrite with run;
        cbn beta iota zeta delta [py_get py_getitem outcome_bind fst snd default])).

Lemma sent_prog_bind {A B} b (p : prog A) (f : A → prog B) :
  sent b (prog_bind p f) = (sent b p ++ sent b (f (exec b p)))%list.
Proof. induction p; simpl; [done|auto|by f_equal]. Qed.

Lemma sent_bind {St A B} b (m : M St A) (f : A → M St B) (s : St) :
  sent b ((m ≫= f) s)
  = (sent b (m s)
     ++ match exec b (m s) with
        | (Returns a, s') => sent b (f a s')
        | (Raises _, _) => []
        end)%list.
Proof.
  unfold mbind, M_mbind, bind. rewrite sent_prog_bind.
  by destruct (exec b (m s)) as [[a|e] s'].
Qed.

Lemma sent_send_command {St} b method params (s : St) :
  sent b (send_command method params s) = [(method, params)].
Proof. reflexivity. Qed.

(** ** navigate *)

(** X6 (BridgeSession.navigate, lines 262-274): [navigate url] returns
    the truthiness of the reply's [success]; when it is truthy the
    session's current url and the url of the mock page become [url] and the
    tab infos are untouched, when it is falsy the session is unchanged. *)
Theorem X6_navigate_tracks_url b s url (d : list (string * value)) :
  reply b "navigate" (VDict [("url", url)]) = Returns (VDict d) →
  let ok := truthy (default VNone (dict_get "success" d)) in
  ∃ s',
    exec b (navigate url s) = (Returns ok, s')
    ∧ (ok = false → s' = s)
    ∧ (ok = true →
       current_url s' = url
       ∧ _tab_infos s' = _tab_infos s
       ∧ agent_current_page s'
         = Some (MockPage.set_url url (default MockPage.__init__ (agent_current_page s)))).
Proof.
  intros Hr ok. unfold navigate. run_step. rewrite Hr. run_step. fold ok.
  destruct ok.
  - unfold set_current_url, update_mock_page. run_step.
    eexists. split; [reflexivity|]. split; [done|]. intros _. by simpl.
  - run_step. eexists. split; [reflexivity|]. by split.
Qed.


(** ** The landing page *)

Lemma sent_call_with_navigation b s :
  connected b = true →
  no_start_url s = true →
  sent b (get_browser_state_with_recovery s)
  = ("navigate", VDict [("url", VStr landing_page)])
    :: match reply b "navigate" (VDict [("url", VStr landing_page)]) with
       | Returns (VDict d) =>
           ("get_dom", VDict [])
           :: match exec b (ensure_start_url s) with
              | (_, s1) =>
                  match reply b "get_dom" (VDict []) with
                  | Returns dom_result =>
                      match py_get dom_result "success" VNone with
                      | Returns ok =>
                          if truthy ok then sent b (reconstruct dom_result s1)
                          else sent b (degraded dom_result s1)
                      | Raises _ => []
                      end
                  | Raises _ => []
                  end
              end
       | _ => []
       end.
Proof.
  intros Hconn Hno. unfold no_start_url in Hno.
  unfold get_browser_state_with_recovery.
  rewrite sent_bind. cbn [is_connected sent app]. rewrite exec_is_connected, Hconn.
  cbn [negb]. rewrite sent_bind.
  assert (Hs : sent b (ensure_start_url s)
               = [("navigate", VDict [("url", VStr landing_page)])]).
  { unfold ensure_start_url. rewrite sent_bind. cbn [get_self sent app].
    rewrite exec_get_self, Hno. rewrite sent_bind.
    unfold bridge_navigate at 1. rewrite sent_send_command.
    rewrite exec_bridge_navigate.
    destruct (reply b "navigate" _) as [nav|e]; [|done].
    rewrite sent_bind. cbn [eval sent app]. rewrite exec_eval.
    destruct (py_get nav "success" VNone) as [ok|]; [|done].
    unfold set_current_url. by destruct (truthy ok). }
  rewrite Hs. cbn [app]. f_equal.
  assert (He : exec b (ensure_start_url s)
               = match reply b "navigate" (VDict [("url", VStr landing_page)]) with
                 | Returns nav =>
                     match py_get nav "success" VNone with
                     | Returns ok =>
                         if truthy ok then exec b (set_current_url (VStr landing_page) s)
                         else (Returns tt, s)
                     | Raises e => (Raises e, s)
                     end
                 | Raises e => (Raises e, s)
                 end).
  { unfold ensure_start_url. run_step. rewrite Hno. run_step.
    destruct (reply b "navigate" _) as [nav|e]; [|done]. run_step.
    destruct (py_get nav "success" VNone) as [ok|]; [|done]. run_step.
    by destruct (truthy ok). }
  destruct (reply b "navigate" _) as [nav|e] eqn:Hnav; [|by rewrite He].
  destruct nav as [| | | | |d]; try (by rewrite He).
  assert (Hx : ∃ s1, exec b (ensure_start_url s) = (Returns tt, s1)).
  { rewrite He. cbn beta iota delta [py_get].
    destruct (truthy (default VNone (dict_get "success" d))); [|by eexists].
    eexists. unfold set_current_url. run_step. reflexivity. }
  destruct Hx as [s1 Hx]. rewrite Hx.
  rewrite sent_bind. unfold bridge_get_dom at 1. rewrite sent_send_command.
  cbn [app]. f_equal. rewrite exec_bridge_get_dom.
  destruct (reply b "get_dom" _) as [dom_result|]; [|done].
  rewrite sent_bind. cbn [eval sent app]. rewrite exec_eval.
  destruct (py_get dom_result "success" VNone) as [ok|]; [|done].
  by destruct (truthy ok).
Qed.

(** X7 (get_browser_state_with_recovery, lines 284-295): when the session
    has no url to start from and the navigation to the landing page is
    answered without success, the failure is only logged: the session is
    left as it was and the call goes on to send [get_dom]. *)
Theorem X7_landing_failure_tolerated b s (d : list (string * value)) :
  connected b = true →
  no_start_url s = true →
  reply b "navigate" (VDict [("url", VStr landing_page)]) = Returns (VDict d) →
  truthy (default VNone (dict_get "success" d)) = false →
  exec b (ensure_start_url s) = (Returns tt, s)
  ∧ ∃ rest,
      sent b (get_browser_state_with_recovery s)
      = ("navigate", VDict [("url", VStr landing_page)]) :: ("get_dom", VDict []) :: rest.
Proof.
  intros Hconn Hno Hnav Hfail. split.
  - unfold no_start_url in Hno. unfold ensure_start_url. run_step. rewrite Hno.
    run_step. rewrite Hnav. run_step. by rewrite Hfail.
  - rewrite (sent_call_with_navigation b s Hconn Hno), Hnav. by eexists.
Qed.

(** X8 (get_browser_state_with_recovery, lines 284-292): when the
    navigation to the landing page raises (a timeout, say), the call raises
    the same exception, leaves the session unchanged and sends nothing
    after [navigate]: there is no degraded state for this failure. *)
Theorem X8_landing_exception_propagates b s e :
  connected b = true →
  no_start_url s = true →
  reply b "navigate" (VDict [("url", VStr landing_page)]) = Raises e →
  exec b (get_browser_state_with_recovery s) = (Raises e, s)
  ∧ sent b (get_browser_state_with_recovery s)
    = [("navigate", VDict [("url", VStr landing_page)])].
Proof.
  intros Hconn Hno Hnav. split.
  - unfold no_start_url in Hno. unfold get_browser_state_with_recovery.
    run_step. rewrite Hconn. cbn [negb]. run_step.
    assert (He : exec b (ensure_start_url s) = (Raises e, s)).
    { unfold ensure_start_url. run_step. rewrite Hno. run_step. by rewrite Hnav. }
    by rewrite He.
  - by rewrite (sent_call_with_navigation b s Hconn Hno), Hnav.
Qed.


(** ** What a successful reconstruction leaves behind *)

Ltac run_invert :=
  repeat (run_step;
          match goal with
          | |- context [match ?o with Returns _ => _ | Raises _ => _ end] =>
              destruct o eqn:?; [|intros; discriminate]
          end).

Lemma reconstruct_full b s dom_result summary s' :
  exec b (reconstruct dom_result s) = (Returns summary, s') ↔
  reconstructed s dom_result summary s'.
Proof.
  split.
  - unfold reconstruct, set_tab_infos, set_current_url, update_mock_page.
    run_invert. run_step. intros [= <- <-]. simpl.
    unfold reconstructed. do 15 eexists. repeat split; eassumption.
  - intros (dom_data & elements & n & tab_infos & viewport & page & pixels & info & url
            & title & items & built & root & above & below
            & H1 & H2 & H3 & H4 & H5 & H6 & H7 & H8 & H9 & H10 & H12 & H13
            & H14 & H15 & H16 & -> & ->).
    unfold reconstruct, set_tab_infos, set_current_url, update_mock_page.
    run_step. rewrite H1. run_step. rewrite H2. run_step. rewrite H3. run_step.
    rewrite H4. run_step. rewrite H5. run_step. rewrite H6. run_step.
    rewrite H7. run_step. rewrite H8. run_step. simpl. rewrite H9. run_step.
    rewrite H10. run_step. rewrite H12. run_step.
    rewrite H13. run_step. rewrite H14. run_step. rewrite H15. run_step.
    rewrite H16. run_step. reflexivity.
Qed.


(** A call that returns a summary with a root element went through the
    success branch. *)
Lemma call_reconstructed b s summary s' :
  exec b (get_browser_state_with_recovery s) = (Returns summary, s') →
  BrowserStateSummary.element_tree summary ≠ None →
  ∃ s1 dom_result,
    connected b = true
    ∧ exec b (ensure_start_url s) = (Returns tt, s1)
    ∧ reply b "get_dom" (VDict []) = Returns dom_result
    ∧ exec b (reconstruct dom_result s1) = (Returns summary, s').
Proof.
  unfold get_browser_state_with_recovery. run_step.
  destruct (connected b) eqn:Hconn; cbn [negb]; run_step; [|done].
  destruct (exec b (ensure_start_url s)) as [[[]|e] s1] eqn:Hnav; [|done].
  run_step. destruct (reply b "get_dom" (VDict [])) as [dom_result|e] eqn:Hdom; [|done].
  run_step. destruct dom_result as [| | | | |d]; try done.
  cbn beta iota delta [py_get]. cbn beta iota.
  destruct (truthy (default VNone (dict_get "success" d))) eqn:Ht.
  - intros Hcall _. by exists s1, (VDict d).
  - destruct (degraded_returns b s1 d) as (summary0 & -> & _ & Hnone & _).
    intros [= <- _] Hroot. done.
Qed.

(** X9 (get_browser_state_with_recovery, lines 297-345, 414-468): after a
    call that returned a summary with a root element, the session's current
    url is the summary's url, the mock page has that url and the title
    [title or ''], the summary lists the single tab
    [TabInfo(page_id=1, url, title)], and the session's tab infos are the
    snapshot's [tabs]. *)
Theorem X9_session_follows_snapshot b s summary s' :
  exec b (get_browser_state_with_recovery s) = (Returns summary, s') →
  BrowserStateSummary.element_tree summary ≠ None →
  current_url s' = BrowserStateSummary.url summary
  ∧ agent_current_page s'
    = Some {| MockPage.url := BrowserStateSummary.url summary;
              MockPage._title := py_or (BrowserStateSummary.title summary) (VStr "") |}
  ∧ BrowserStateSummary.tabs summary
    = [{| TabInfo.page_id := 1;
          TabInfo.url := BrowserStateSummary.url summary;
          TabInfo.title := BrowserStateSummary.title summary |}]
  ∧ ∃ dom_result dom_data,
      reply b "get_dom" (VDict []) = Returns dom_result
      ∧ py_get dom_result "result" (VDict []) = Returns dom_data
      ∧ py_get dom_data "tabs" (VList []) = Returns (_tab_infos s')
      ∧ py_get dom_data "title" (VStr "") = Returns (BrowserStateSummary.title summary).
Proof.
  intros Hcall Hroot.
  destruct (call_reconstructed b s summary s' Hcall Hroot)
    as (s1 & dom_result & _ & _ & Hdom & Hrec).
  apply reconstruct_full in Hrec
    as (dom_data & elements & n & tab_infos & viewport & page & pixels & info & url
        & title & items & built & root & above & below
        & H1 & _ & _ & H4 & _ & _ & _ & _ & _ & H10 & _ & _ & _ & _ & _ & -> & ->).
  simpl. repeat split.
  exists dom_result, dom_data. by repeat split.
Qed.

Lemma py_get_or_fixed (v : value) k c u :
  py_get v k (py_or c (VStr "about:blank")) = Returns u →
  py_get v k (py_or u (VStr "about:blank")) = Returns u.
Proof.
  destruct v as [| | | | |d]; simpl; try done.
  destruct (dict_get k d); simpl; [done|].
  intros [= <-]. f_equal. unfold py_or at 1.
  assert (Ht : truthy (py_or c (VStr "about:blank")) = true)
    by (unfold py_or; by destruct (truthy c) eqn:E).
  by rewrite Ht.
Qed.

Lemma reconstruct_again b s dom_result summary s' :
  exec b (reconstruct dom_result s) = (Returns summary, s') →
  exec b (reconstruct dom_result s') = (Returns summary, s').
Proof.
  intros Hrec. apply reconstruct_full. apply reconstruct_full in Hrec.
  destruct Hrec
    as (dom_data & elements & n & tab_infos & viewport & page & pixels & info & url
        & title & items & built & root & above & below
        & H1 & H2 & H3 & H4 & H5 & H6 & H7 & H8 & H9 & H10 & H12 & H13
        & H14 & H15 & H16 & -> & ->).
  exists dom_data, elements, n, tab_infos, viewport, page, pixels, info, url, title,
    items, built, root, above, below.
  repeat (split; [first [assumption | by apply (py_get_or_fixed _ _ (current_url s))]|]).
  split; reflexivity.
Qed.

(** X10 (get_browser_state_with_recovery): the call is idempotent on a
    successful snapshot: called again from the session it left (whose url
    is not blank) against the same bridge, it returns the same summary and
    leaves the same session. *)
Theorem X10_same_snapshot_same_state b s summary s' :
  exec b (get_browser_state_with_recovery s) = (Returns summary, s') →
  BrowserStateSummary.element_tree summary ≠ None →
  no_start_url s' = false →
  exec b (get_browser_state_with_recovery s') = (Returns summary, s').
Proof.
  intros Hcall Hroot Hurl.
  destruct (call_reconstructed b s summary s' Hcall Hroot)
    as (s1 & dom_result & Hconn & _ & Hdom & Hrec).
  unfold no_start_url in Hurl. apply orb_false_iff in Hurl as [Ht He].
  apply negb_false_iff in Ht.
  destruct (ensure_start_url_known b s' Ht He) as [Hnav _].
  assert (Hok : ∃ ok, py_get dom_result "success" VNone = Returns ok ∧ truthy ok = true).
  { revert Hcall. unfold get_browser_state_with_recovery. run_step.
    rewrite Hconn. cbn [negb]. run_step.
    destruct (exec b (ensure_start_url s)) as [[[]|e] s2]; [|done].
    run_step. rewrite Hdom. run_step.
    destruct (py_get dom_result "success" VNone) as [ok|]; [|done].
    cbn beta iota. destruct (truthy ok) eqn:Hok; [by eexists|].
    destruct dom_result as [| | | | |d]; try done.
    destruct (degraded_returns b s2 d) as (summary0 & -> & _ & Hnone & _).
    by intros [= <- _]. }
  destruct Hok as (ok & Hok & Htruthy).
  rewrite (success_branch b s' s' dom_result ok Hconn Hnav Hdom Hok Htruthy).
  by apply (reconstruct_again b s1).
Qed.

(** X11 (get_browser_state_with_recovery, lines 284-287, 332-334): when
    the summary's url is empty or [about:blank], the session has taken it
    over, so the next call starts by navigating to the landing page. *)
Theorem X11_blank_page_sends_to_landing b s summary s' :
  exec b (get_browser_state_with_recovery s) = (Returns summary, s') →
  BrowserStateSummary.element_tree summary ≠ None →
  negb (truthy (BrowserStateSummary.url summary))
  || py_eq (BrowserStateSummary.url summary) (VStr "about:blank") = true →
  ∃ rest,
    sent b (get_browser_state_with_recovery s')
    = ("navigate", VDict [("url", VStr landing_page)]) :: rest.
Proof.
  intros Hcall Hroot Hblank.
  destruct (call_reconstructed b s summary s' Hcall Hroot)
    as (s1 & dom_result & Hconn & _ & _ & Hrec).
  apply reconstruct_full in Hrec
    as (dom_data & elements & n & tab_infos & viewport & page & pixels & info & url
        & title & items & built & root & above & below
        & _ & _ & _ & _ & _ & _ & _ & _ & _ & _ & _ & _ & _ & _ & _ & -> & ->).
  rewrite (sent_call_with_navigation b _ Hconn); [by eexists|].
  exact Hblank.
Qed.


(** ** The root element and the selector map *)

Lemma dict_store_values {V} (P : V → Prop) (k : value) (v : V) (d : pydict V) :
  P v → Forall (fun kv => P (snd kv)) d → Forall (fun kv => P (snd kv)) (dict_store k v d).
Proof.
  intros Hv. induction 1 as [|[k' v'] d Hk' Hd IH]; simpl.
  - by repeat constructor.
  - destruct (py_eq k' k); constructor; done.
Qed.

Lemma dom_element_leaf viewport element node :
  dom_element viewport element = Returns node →
  children node = [] ∧ parent node = None.
Proof.
  unfold dom_element.
  repeat match goal with
         | |- context [mbind _ ?o] =>
             lazymatch o with
             | mbind _ _ => fail
             | _ => destruct o; simpl; [|done]
             end
         end.
  by intros [= <-].
Qed.

Lemma build_selector_map_leaves viewport (elements : list value) (m0 m : SelectorMap) :
  Forall (fun kv => children (snd kv) = []) m0 →
  build_selector_map viewport elements m0 = Returns m →
  Forall (fun kv => children (snd kv) = []) m.
Proof.
  revert m0. induction elements as [|e rest IH]; intros m0 Hm0; simpl.
  - by intros [= <-].
  - destruct (dom_element viewport e) as [n|] eqn:En; simpl; [|done].
    destruct (selector_key e) as [key|]; simpl; [|done].
    unfold dict_setitem. destruct (hashable key); simpl; [|done].
    apply IH. apply (dict_store_values (fun node => children node = [])); [|done].
    by apply (dom_element_leaf viewport e).
Qed.

(** X12 (get_browser_state_with_recovery, lines 420-457): the root of a
    successful summary has tag [root], no parent and no index; its
    children are the values of the summary's selector map, in the map's
    order, each with the root as parent and no children of its own; its
    viewport has the width and height of the summary's page info. *)
Theorem X12_root_owns_the_elements b s summary s' :
  exec b (get_browser_state_with_recovery s) = (Returns summary, s') →
  BrowserStateSummary.element_tree summary ≠ None →
  ∃ root,
    BrowserStateSummary.element_tree summary = Some root
    ∧ tag_name root = VStr "root"
    ∧ parent root = None
    ∧ highlight_index root = VNone
    ∧ children root = dict_values (BrowserStateSummary.selector_map summary)
    ∧ Forall (fun child => parent child = Some RootElement ∧ children child = [])
        (children root)
    ∧ ViewportInfo.width (viewport_info root)
      = PageInfo.viewport_width (BrowserStateSummary.page_info summary)
    ∧ ViewportInfo.height (viewport_info root)
      = PageInfo.viewport_height (BrowserStateSummary.page_info summary).
Proof.
  intros Hcall Hroot.
  destruct (call_reconstructed b s summary s' Hcall Hroot)
    as (s1 & dom_result & _ & _ & _ & Hrec).
  apply reconstruct_full in Hrec
    as (dom_data & elements & n & tab_infos & viewport & page & pixels & info & url
        & title & items & built & root & above & below
        & _ & _ & _ & _ & _ & _ & _ & _ & _ & _ & _ & Hbuilt & Hr & _ & _ & -> & _).
  exists root. simpl.
  pose proof (build_selector_map_leaves viewport items [] built ltac:(constructor) Hbuilt)
    as Hleaves.
  revert Hr. unfold root_element_of.
  destruct (py_get viewport "scrollX" (VInt 0)); simpl; [|done].
  destruct (py_get viewport "scrollY" (VInt 0)); simpl; [|done].
  intros [= <-]. simpl. repeat split.
  unfold dict_values, adopt. rewrite map_map. simpl.
  apply Forall_map. eapply Forall_impl; [exact Hleaves|].
  intros [k node] Hk. simpl in *. by split.
Qed.

Lemma py_eq_key_sym (a a' : value) :
  hashable a = true → hashable a' = true → py_eq a a' = py_eq a' a.
Proof.
  destruct a, a'; cbn [py_eq hashable]; try done; intros _ _.
  - by destruct b, b0.
  - apply Z.eqb_sym.
  - apply Z.eqb_sym.
  - apply Z.eqb_sym.
  - apply String.eqb_sym.
Qed.

Lemma dict_store_distinct {V} (k : value) (v : V) (d : pydict V) :
  hashable k = true → keys_hashable d → keys_distinct d →
  keys_distinct (dict_store k v d) ∧ (length (dict_store k v d) ≤ S (length d))%nat.
Proof.
  intros Hk. induction 1 as [|[k' v'] d Hk' Hd IH]; simpl.
  - intros _. split; [done|lia].
  - intros [Hnone Hdist]. simpl in Hk'. destruct (py_eq k' k) eqn:E; simpl.
    + split; [done|lia].
    + destruct (IH Hdist) as [IH1 IH2]. split; [|lia]. split; [|done].
      rewrite dict_lookup_store by done.
      by rewrite (py_eq_key_sym k k' Hk Hk'), E.
Qed.

Lemma build_selector_map_distinct viewport (elements : list value) (m0 m : SelectorMap) :
  keys_hashable m0 → keys_distinct m0 →
  build_selector_map viewport elements m0 = Returns m →
  keys_hashable m ∧ keys_distinct m ∧ (length m ≤ length m0 + length elements)%nat.
Proof.
  revert m0. induction elements as [|e rest IH]; intros m0 Hh Hd; simpl.
  - intros [= <-]. repeat split; [done..|lia].
  - destruct (dom_element viewport e) as [n|]; simpl; [|done].
    destruct (selector_key e) as [key|]; simpl; [|done].
    unfold dict_setitem. destruct (hashable key) eqn:Hk; simpl; [|done].
    intros Hb.
    destruct (dict_store_distinct key n m0 Hk Hh Hd) as [Hd' Hl].
    destruct (IH _ (dict_store_hashable key n m0 Hk Hh) Hd' Hb) as (? & ? & ?).
    repeat split; [done..|lia].
Qed.

Lemma adopt_keys (m : SelectorMap) :
  (keys_hashable m → keys_hashable (adopt m))
  ∧ (keys_distinct m → keys_distinct (adopt m))
  ∧ length (adopt m) = length m.
Proof.
  repeat split.
  - unfold keys_hashable, adopt. intros H. apply Forall_map.
    eapply Forall_impl; [exact H|]. by intros [].
  - induction m as [|[k n] m IH]; simpl; [done|]. intros [Hn Hd]. split; [|by apply IH].
    rewrite dict_lookup_adopt. by rewrite Hn.
  - unfold adopt. apply length_map.
Qed.

(** X13 (get_browser_state_with_recovery, lines 347-411): the keys of
    the selector map of a successful summary are hashable and pairwise
    distinct under Python's equality, and the map has no more entries than
    the snapshot has elements. *)
Theorem X13_selector_map_keys_distinct b s summary s' :
  exec b (get_browser_state_with_recovery s) = (Returns summary, s') →
  BrowserStateSummary.element_tree summary ≠ None →
  keys_hashable (BrowserStateSummary.selector_map summary)
  ∧ keys_distinct (BrowserStateSummary.selector_map summary)
  ∧ ∃ dom_result dom_data elements items,
      reply b "get_dom" (VDict []) = Returns dom_result
      ∧ py_get dom_result "result" (VDict []) = Returns dom_data
      ∧ py_get dom_data "elements" (VList []) = Returns elements
      ∧ py_iter elements = Returns items
      ∧ (length (BrowserStateSummary.selector_map summary) ≤ length items)%nat.
Proof.
  intros Hcall Hroot.
  destruct (call_reconstructed b s summary s' Hcall Hroot)
    as (s1 & dom_result & _ & _ & Hdom & Hrec).
  apply reconstruct_full in Hrec
    as (dom_data & elements & n & tab_infos & viewport & page & pixels & info & url
        & title & items & built & root & above & below
        & H1 & H2 & _ & _ & _ & _ & _ & _ & _ & _ & Hit & Hbuilt & _ & _ & _ & -> & _).
  simpl.
  destruct (build_selector_map_distinct viewport items [] built
              ltac:(constructor) I Hbuilt) as (Hh & Hd & Hl).
  destruct (adopt_keys built) as (Ah & Ad & Al).
  split; [by apply Ah|]. split; [by apply Ad|].
  exists dom_result, dom_data, elements, items. repeat split; try done.
  rewrite Al. simpl in Hl. lia.
Qed.


(** ** A reconstruction that fails half-way *)

(** X14 (get_browser_state_with_recovery, lines 297-352): when the
    first element of the snapshot is not a dictionary, the reconstruction
    raises AttributeError from the loop, after the session has been
    updated: the current url, the tab infos and the mock page's url and
    title are those of the snapshot, and are not rolled back. *)
Theorem X14_failed_reconstruction_not_rolled_back b s dom_result
    (dd : list (string * value)) (bad : value) (rest : list value) (info : PageInfo.t) :
  py_get dom_result "result" (VDict []) = Returns (VDict dd) →
  dict_get "elements" dd = Some (VList (bad :: rest)) →
  is_dict bad = false →
  page_info_of (default (VDict []) (dict_get "viewport" dd))
               (default (VDict []) (dict_get "page" dd))
               (default (VDict []) (dict_get "pixels" dd)) = Returns info →
  ∃ s',
    exec b (reconstruct dom_result s) = (Raises AttributeError, s')
    ∧ current_url s'
      = default (py_or (current_url s) (VStr "about:blank")) (dict_get "url" dd)
    ∧ _tab_infos s' = default (VList []) (dict_get "tabs" dd)
    ∧ agent_current_page s'
      = Some (MockPage.set_title (default (VStr "") (dict_get "title" dd))
                (MockPage.set_url
                   (default (py_or (current_url s) (VStr "about:blank")) (dict_get "url" dd))
                   (default MockPage.__init__ (agent_current_page s)))).
Proof.
  intros Hres Hel Hbad Hinfo.
  unfold reconstruct, set_tab_infos, set_current_url, update_mock_page.
  run_step. rewrite Hres. run_step. rewrite Hel.
  change (default (VList []) (Some (VList (bad :: rest)))) with (VList (bad :: rest)).
  cbn [py_len]. run_step. rewrite Hinfo. run_step. cbn [py_iter]. run_step.
  assert (Hb : build_selector_map (default (VDict []) (dict_get "viewport" dd))
                 (bad :: rest) [] = Raises AttributeError).
  { cbn [build_selector_map]. unfold dom_element, coordinates_if_present.
    destruct bad; try done. }
  rewrite Hb. run_step. eexists. split; [reflexivity|]. by simpl.
Qed.

(** ** The dimensions of the degraded state *)

Lemma probe_unusable b s :
  probe_usable (reply b "evaluate" (VDict [("expression", VStr dimension_script)])) = false →
  exec b (probe_dimensions s) = (Returns default_dimensions, s).
Proof.
  unfold probe_dimensions, probe_usable. run_step.
  destruct (reply b "evaluate" _) as [[| | | | |d]|e]; try done.
  run_step. unfold py_and.
  destruct (truthy (default VNone (dict_get "success" d))) eqn:Hs; [|by rewrite Hs].
  destruct (truthy (default VNone (dict_get "result" d))) eqn:Hr; [|done].
  cbn [andb]. destruct (dict_get "result" d) as [r|] eqn:Er; [|done]. run_step.
  destruct r as [| | | | |r]; try done. run_step.
  destruct (default (VDict []) (dict_get "viewport" r)) as [| | | | |vp]; try done.
  run_step.
  destruct (default (VDict []) (dict_get "page" r)) as [| | | | |pg]; try done.
Qed.

(** X15 (get_browser_state_with_recovery, lines 479-526): in the
    degraded branch, when the probe of the dimensions raises, reports no
    success, has a falsy result, or has a result, viewport or page that is
    not a dictionary, the page info is 1920 by 1080 for viewport and page,
    with every scroll and pixel field 0, and the session is unchanged. *)
Theorem X15_probe_failure_gives_defaults b s (d : list (string * value)) :
  probe_usable (reply b "evaluate" (VDict [("expression", VStr dimension_script)])) = false →
  ∃ summary,
    exec b (degraded (VDict d) s) = (Returns summary, s)
    ∧ BrowserStateSummary.page_info summary = fallback_page_info
    ∧ BrowserStateSummary.pixels_above summary = VInt 0
    ∧ BrowserStateSummary.pixels_below summary = VInt 0.
Proof.
  intros Hp. unfold degraded. run_step. rewrite (probe_unusable b s Hp).
  run_step. eexists. split; [reflexivity|]. by simpl.
Qed.

(** X16 (get_browser_state_with_recovery, lines 493-498): in the degraded
    branch a usable probe is taken as reported: the viewport's width and
    height default to 1920 and 1080 only when the key is absent, the page's
    to the viewport's only when absent; a reported 0 (or None) is kept,
    unlike in the success branch. *)
Theorem X16_probe_dimensions_taken_as_reported b s (d e r vp pg : list (string * value)) :
  reply b "evaluate" (VDict [("expression", VStr dimension_script)]) = Returns (VDict e) →
  truthy (default VNone (dict_get "success" e)) = true →
  dict_get "result" e = Some (VDict r) →
  dict_get "viewport" r = Some (VDict vp) →
  dict_get "page" r = Some (VDict pg) →
  ∃ summary,
    exec b (degraded (VDict d) s) = (Returns summary, s)
    ∧ let info := BrowserStateSummary.page_info summary in
      PageInfo.viewport_width info = default (VInt 1920) (dict_get "width" vp)
      ∧ PageInfo.viewport_height info = default (VInt 1080) (dict_get "height" vp)
      ∧ PageInfo.page_width info
        = default (PageInfo.viewport_width info) (dict_get "width" pg)
      ∧ PageInfo.page_height info
        = default (PageInfo.viewport_height info) (dict_get "height" pg).
Proof.
  intros Hr Hs Hres Hvp Hpg.
  assert (Hprobe : exec b (probe_dimensions s)
    = (Returns (default (VInt 1920) (dict_get "width" vp),
                default (VInt 1080) (dict_get "height" vp),
                default (default (VInt 1920) (dict_get "width" vp)) (dict_get "width" pg),
                default (default (VInt 1080) (dict_get "height" vp)) (dict_get "height" pg)),
       s)).
  { unfold probe_dimensions. run_step. rewrite Hr. run_step. rewrite Hres.
    change (default VNone (Some (VDict r))) with (VDict r).
    unfold py_and. rewrite Hs.
    assert (Ht : truthy (VDict r) = true) by by destruct r.
    rewrite Ht. run_step. rewrite Hvp.
    change (default (VDict []) (Some (VDict vp))) with (VDict vp). run_step.
    rewrite Hpg.
    change (default (VDict []) (Some (VDict pg))) with (VDict pg). by run_step. }
  unfold degraded. run_step. rewrite Hprobe. run_step.
  eexists. split; [reflexivity|]. by simpl.
Qed.

(** ** get_dom_element_by_index *)

(** X17 (get_dom_element_by_index, lines 642-646): when [get_dom] is
    answered without success, [get_dom_element_by_index] returns None for
    every hashable index, and does not raise. *)
Theorem X17_no_element_in_degraded_state b s s1 (d : list (string * value)) index :
  connected b = true →
  exec b (ensure_start_url s) = (Returns tt, s1) →
  reply b "get_dom" (VDict []) = Returns (VDict d) →
  truthy (default VNone (dict_get "success" d)) = false →
  hashable index = true →
  exec b (get_dom_element_by_index index s) = (Returns None, s1).
Proof.
  intros Hconn Hnav Hdom Hs Hh.
  assert (Hcall : ∃ summary,
    exec b (get_browser_state_with_recovery s) = (Returns summary, s1)
    ∧ BrowserStateSummary.selector_map summary = []).
  { unfold get_browser_state_with_recovery.
    run_step. rewrite Hconn. cbn [negb]. run_step. rewrite Hnav.
    run_step. rewrite Hdom. run_step. rewrite Hs.
    destruct (degraded_returns b s1 d) as (summary & -> & Hm & _). by exists summary. }
  destruct Hcall as (summary & Hcall & Hm).
  unfold get_dom_element_by_index, get_selector_map. run_step. rewrite Hcall.
  run_step. rewrite Hh, Hm. by run_step.
Qed.

(** X18 (get_dom_element_by_index, lines 642-646, with the loop of lines
    351-411): on a successful snapshot, [get_dom_element_by_index index]
    returns the node of the last element of the snapshot that reports
    [index] (a missing index counting as 0), with the root as parent, and
    None when no element reports it. *)
Theorem X18_element_by_index_is_last_reported b s summary s' index :
  exec b (get_browser_state_with_recovery s) = (Returns summary, s') →
  BrowserStateSummary.element_tree summary ≠ None →
  hashable index = true →
  ∃ dom_result dom_data viewport elements items,
    reply b "get_dom" (VDict []) = Returns dom_result
    ∧ py_get dom_result "result" (VDict []) = Returns dom_data
    ∧ py_get dom_data "viewport" (VDict []) = Returns viewport
    ∧ py_get dom_data "elements" (VList []) = Returns elements
    ∧ py_iter elements = Returns items
    ∧ exec b (get_dom_element_by_index index s)
      = (Returns (set_parent (Some RootElement)
                    <$> (last_reporting index items ≫= node_of viewport)), s').
Proof.
  intros Hcall Hroot Hh.
  destruct (call_reconstructed b s summary s' Hcall Hroot)
    as (s1 & dom_result & _ & _ & Hdom & Hrec).
  apply reconstruct_full in Hrec
    as (dom_data & elements & n & tab_infos & viewport & page & pixels & info & url
        & title & items & built & root & above & below
        & H1 & H2 & _ & _ & H5 & _ & _ & _ & _ & _ & Hit & Hbuilt & _ & _ & _ & Hsum & _).
  exists dom_result, dom_data, viewport, elements, items.
  repeat (split; [done|]).
  unfold get_dom_element_by_index, get_selector_map. run_step. rewrite Hcall.
  run_step. rewrite Hh. run_step. rewrite Hsum. simpl.
  rewrite dict_lookup_adopt.
  rewrite (build_selector_map_lookup viewport items [] built index); [|constructor|done].
  by destruct (last_reporting index items).
Qed.


(** ** The property tabs *)

(** X19 (tabs, lines 564-640): after a successful call whose snapshot
    listed no tabs, [tabs] is the single proxy of the current page, with id
    1, the summary's url, the title [title or ''] and not closed. *)
Theorem X19_tabs_fall_back_to_current_page b s summary s' :
  exec b (get_browser_state_with_recovery s) = (Returns summary, s') →
  BrowserStateSummary.element_tree summary ≠ None →
  _tab_infos s' = VList [] →
  tabs s'
  = Returns [CurrentTab {| CurrentPageProxy.url := BrowserStateSummary.url summary;
                           CurrentPageProxy._title :=
                             py_or (BrowserStateSummary.title summary) (VStr "");
                           CurrentPageProxy.id := VInt 1;
                           CurrentPageProxy._closed := false |}].
Proof.
  intros Hcall Hroot Hempty.
  destruct (call_reconstructed b s summary s' Hcall Hroot)
    as (s1 & dom_result & _ & _ & _ & Hrec).
  apply reconstruct_full in Hrec
    as (dom_data & elements & n & tab_infos & viewport & page & pixels & info & url
        & title & items & built & root & above & below
        & _ & _ & _ & _ & _ & _ & _ & _ & _ & _ & _ & _ & _ & _ & _ & -> & ->).
  simpl in Hempty. subst tab_infos. reflexivity.
Qed.

Lemma bridge_tabs_of_descriptors (ds : list (list (string * value))) :
  bridge_tabs (map VDict ds)
  = Returns (map (fun d =>
                    BridgeTab {| BridgePageProxy.id := default VNone (dict_get "id" d);
                                 BridgePageProxy.url := default (VStr "") (dict_get "url" d);
                                 BridgePageProxy._title := default (VStr "") (dict_get "title" d);
                                 BridgePageProxy._closed := false |}) ds).
Proof. induction ds as [|d ds IH]; simpl; [done|]. by rewrite IH. Qed.

Lemma bridge_tabs_bad (ds : list (list (string * value))) (bad : value) (rest : list value) :
  is_dict bad = false →
  bridge_tabs (map VDict ds ++ bad :: rest) = Raises AttributeError.
Proof.
  intros Hbad. induction ds as [|d ds IH]; simpl.
  - by destruct bad.
  - by rewrite IH.
Qed.

(** X20 (tabs, lines 564-611): when the extension's tab list is not
    empty and holds dictionaries, [tabs] is one BridgePageProxy for each, in
    order, with [id] (None if absent), [url] and [title] ('' if absent), not
    closed, and no proxy of the current page; a descriptor that is not a
    dictionary makes [tabs] raise AttributeError. *)
Theorem X20_one_proxy_per_descriptor s (ds : list (list (string * value)))
    (bad : value) (rest : list value) :
  ds ≠ [] →
  (_tab_infos s = VList (map VDict ds) →
   tabs s
   = Returns (map (fun d =>
                     BridgeTab {| BridgePageProxy.id := default VNone (dict_get "id" d);
                                  BridgePageProxy.url := default (VStr "") (dict_get "url" d);
                                  BridgePageProxy._title :=
                                    default (VStr "") (dict_get "title" d);
                                  BridgePageProxy._closed := false |}) ds))
  ∧ (is_dict bad = false →
     _tab_infos s = VList (map VDict ds ++ bad :: rest) →
     tabs s = Raises AttributeError).
Proof.
  intros Hne. split.
  - intros Hinfos. unfold tabs. rewrite Hinfos. simpl.
    rewrite bridge_tabs_of_descriptors. simpl. by destruct ds.
  - intros Hbad Hinfos. unfold tabs. rewrite Hinfos. simpl.
    by rewrite bridge_tabs_bad.
Qed.


(** ** The action wrappers *)

Lemma truthy_py_and (v w : value) : truthy (py_and v w) = truthy v && truthy w.
Proof. unfold py_and. by destruct (truthy v) eqn:E; simpl. Qed.

Lemma sent_bridge_click {St} b x y index (s : St) :
  index ≠ VNone →
  sent b (bridge_click x y index s) = [("click", VDict [("index", index)])].
Proof. by destruct index. Qed.

(** X22 (_click_element_node, lines 648-670): for a node with an index,
    the call returns None exactly when the reply is a dictionary with both
    [success] and [clicked] truthy; it never returns anything else, never
    changes the session, and sends exactly one command, the click on the
    node's index. *)
Theorem X22_click_returns_only_when_confirmed b s (node : DOMElementNode) :
  highlight_index node ≠ VNone →
  (exec b (_click_element_node node s) = (Returns VNone, s)
   ↔ ∃ d, reply b "click" (VDict [("index", highlight_index node)]) = Returns (VDict d)
          ∧ truthy (default (VBool false) (dict_get "success" d)) = true
          ∧ truthy (default (VBool false) (dict_get "clicked" d)) = true)
  ∧ (∀ v s', exec b (_click_element_node node s) = (Returns v, s') → v = VNone)
  ∧ snd (exec b (_click_element_node node s)) = s
  ∧ sent b (_click_element_node node s)
    = [("click", VDict [("index", highlight_index node)])].
Proof.
  intros Hn.
  set (body := try_except
       (result ← bridge_click VNone VNone (highlight_index node);
        ok ← eval (py_get result "success" (VBool false));
        clicked ← eval (py_get result "clicked" (VBool false));
        if truthy (py_and ok clicked) then mret VNone
        else
          error ← eval (py_get result "error" (VStr "unknown error"));
          raise (Exception ("Click failed for element "
                            +:+ py_str (highlight_index node) +:+ ": "
                            +:+ py_str error)))
       (fun e => raise e) : M state value).
  assert (Hbody : _click_element_node node = body).
  { unfold _click_element_node, body. by destruct (highlight_index node). }
  rewrite Hbody. clear Hbody.
  assert (Hexec : exec b (body s)
    = match reply b "click" (VDict [("index", highlight_index node)]) with
      | Returns (VDict d) =>
          if truthy (default (VBool false) (dict_get "success" d))
             && truthy (default (VBool false) (dict_get "clicked" d))
          then (Returns VNone, s)
          else (Raises (Exception
                  ("Click failed for element " +:+ py_str (highlight_index node)
                   +:+ ": "
                   +:+ py_str (default (VStr "unknown error") (dict_get "error" d)))), s)
      | Returns _ => (Raises AttributeError, s)
      | Raises e => (Raises e, s)
      end).
  { unfold body. run_step. rewrite exec_bridge_click by done.
    destruct (reply b "click" _) as [[| | | | |d]|e]; try done.
    run_step. rewrite truthy_py_and. by destruct (_ && _). }
  assert (Hsent : sent b (body s) = [("click", VDict [("index", highlight_index node)])]).
  { unfold body, try_except, mbind, M_mbind, bind, bridge_click, send_command, eval,
      mret, M_ret, ret, raise.
    destruct (highlight_index node) eqn:Hi; try done; simpl;
      (destruct (reply b "click" _) as [[| | | | |?]|?]; simpl; try done;
       by destruct (truthy (py_and _ _))). }
  rewrite Hexec, Hsent. repeat split.
  - destruct (reply b "click" _) as [[| | | | |d]|e]; try done.
    destruct (truthy (default (VBool false) (dict_get "success" d))) eqn:Hs;
      destruct (truthy (default (VBool false) (dict_get "clicked" d))) eqn:Hc;
      simpl; try done.
    intros _. by exists d.
  - intros (d & -> & -> & ->). done.
  - intros v s'. destruct (reply b "click" _) as [[| | | | |d]|e]; try done.
    destruct (_ && _); [|done]. by intros [= <- _].
  - destruct (reply b "click" _) as [[| | | | |d]|e]; try done. by destruct (_ && _).
Qed.

(** X23 (_input_text_element_node, lines 672-691): for a node with an
    index, the click is sent first; the text is typed exactly when the
    click's [success] is truthy, whatever its [clicked] says; without focus
    the call returns False and sends no [type]; with focus it returns
    [success and typed] of the reply to [type]. *)
Theorem X23_typing_needs_focus_only b s (node : DOMElementNode) text
    (c : list (string * value)) :
  highlight_index node ≠ VNone →
  reply b "click" (VDict [("index", highlight_index node)]) = Returns (VDict c) →
  let focused := truthy (default (VBool false) (dict_get "success" c)) in
  sent b (_input_text_element_node node text s)
  = ("click", VDict [("index", highlight_index node)])
    :: (if focused then [("type", VDict [("text", text)])] else [])
  ∧ (focused = false →
     exec b (_input_text_element_node node text s) = (Returns (VBool false), s))
  ∧ (focused = true →
     ∀ t, reply b "type" (VDict [("text", text)]) = Returns (VDict t) →
          exec b (_input_text_element_node node text s)
          = (Returns (py_and (default (VBool false) (dict_get "success" t))
                             (default (VBool false) (dict_get "typed" t))), s)).
Proof.
  intros Hn Hc focused.
  set (body :=
       (click_result ← bridge_click VNone VNone (highlight_index node);
        focused ← eval (py_get click_result "success" (VBool false));
        if truthy focused then
          type_result ← bridge_type_text text;
          ok ← eval (py_get type_result "success" (VBool false));
          typed ← eval (py_get type_result "typed" (VBool false));
          let success := py_and ok typed in
          mret success
        else mret (VBool false)) : M state value).
  assert (Hbody : _input_text_element_node node text = body).
  { unfold _input_text_element_node, body. by destruct (highlight_index node). }
  rewrite Hbody. clear Hbody. repeat split.
  - unfold body, mbind, M_mbind, bind, bridge_click, bridge_type_text, send_command,
      eval, mret, M_ret, ret.
    destruct (highlight_index node) eqn:Hi; try done; simpl; rewrite Hc; simpl;
      fold focused; (destruct focused; simpl; [|done]);
      f_equal; (destruct (reply b "type" _) as [[| | | | |?]|?]; by simpl).
  - intros Hf. unfold body. run_step. rewrite exec_bridge_click by done.
    rewrite Hc. run_step. fold focused. by rewrite Hf.
  - intros Hf t Ht. unfold body. run_step. rewrite exec_bridge_click by done.
    rewrite Hc. run_step. fold focused. rewrite Hf. run_step. rewrite Ht. by run_step.
Qed.

End MoreSession.

(** ** Proxies, memory and change detection *)

Section MoreProxies.

Lemma py_eq_key_refl (a : value) : hashable a = true → py_eq a a = true.
Proof.
  destruct a; cbn [py_eq hashable]; try done; intros _.
  - by destruct b.
  - apply Z.eqb_refl.
  - apply String.eqb_refl.
Qed.

(** X21 (BridgePageProxy.__eq__, lines 599-605): among BridgePageProxy
    objects with hashable ids, equality is reflexive, symmetric and
    transitive (it is the equality of the ids). *)
Theorem X21_proxy_equality_is_an_equivalence (p q r : BridgePageProxy.t) :
  hashable (BridgePageProxy.id p) = true →
  hashable (BridgePageProxy.id q) = true →
  hashable (BridgePageProxy.id r) = true →
  BridgePageProxy.__eq__ p p = true
  ∧ BridgePageProxy.__eq__ p q = BridgePageProxy.__eq__ q p
  ∧ (BridgePageProxy.__eq__ p q = true → BridgePageProxy.__eq__ q r = true →
     BridgePageProxy.__eq__ p r = true).
Proof.
  intros Hp Hq Hr. unfold BridgePageProxy.__eq__. simpl. repeat split.
  - by apply py_eq_key_refl.
  - by apply py_eq_key_sym.
  - intros Hpq Hqr. by rewrite (py_eq_key_congr _ _ _ Hp Hq Hpq).
Qed.

(** X24 (BridgePageProxy.goto, lines 594-597; CurrentPageProxy.goto,
    lines 629-631): [goto url] sets the proxy's url to [url] whenever the
    command returned, whatever the reply says about success, and changes
    nothing else; when the command raised, the exception propagates and the
    proxy keeps its url. *)
Theorem X24_goto_moves_only_after_the_command (b : bridge) :
  (∀ (p : BridgePageProxy.t) u,
     exec b (BridgePageProxy.goto u p)
     = match reply b "navigate_tab"
               (VDict [("tabId", BridgePageProxy.id p); ("url", u)]) with
       | Returns _ =>
           (Returns tt,
            {| BridgePageProxy.id := BridgePageProxy.id p;
               BridgePageProxy.url := u;
               BridgePageProxy._title := BridgePageProxy._title p;
               BridgePageProxy._closed := BridgePageProxy._closed p |})
       | Raises e => (Raises e, p)
       end)
  ∧ (∀ (q : CurrentPageProxy.t) u,
       exec b (CurrentPageProxy.goto u q)
       = match reply b "navigate" (VDict [("url", u)]) with
         | Returns _ =>
             (Returns tt,
              {| CurrentPageProxy.url := u;
                 CurrentPageProxy._title := CurrentPageProxy._title q;
                 CurrentPageProxy.id := CurrentPageProxy.id q;
                 CurrentPageProxy._closed := CurrentPageProxy._closed q |})
         | Raises e => (Raises e, q)
         end).
Proof.
  split.
  - intros p u. unfold BridgePageProxy.goto.
    rewrite exec_bind, exec_get_self. cbn beta iota.
    rewrite exec_bind, exec_send_command.
    by destruct (reply b "navigate_tab" _).
  - intros q u. unfold CurrentPageProxy.goto.
    rewrite exec_bind, exec_bridge_navigate.
    by destruct (reply b "navigate" _).
Qed.

End MoreProxies.

Section Memory.
Import MemoryManager.
Context {time : Type} (within_two_seconds : time → time → bool).

Implicit Types (self : state (time := time)).


(** X26 (MemoryManager.get_task_memory, lines 259-266): the empty key
    reads as no key: both give the task's whole dictionary, the empty one
    for an unknown task; a non-empty key of an unknown task gives None. *)
Theorem X26_get_task_memory_without_key self (task_id : string) :
  get_task_memory task_id (Some "") self = get_task_memory task_id None self
  ∧ get_task_memory task_id None self
    = Whole (default ∅ (task_memory self !! task_id))
  ∧ (task_memory self !! task_id = None →
     ∀ key, key ≠ "" → get_task_memory task_id (Some key) self = Value VNone).
Proof.
  unfold get_task_memory, key_given. split; [|split].
  - by destruct (task_memory self !! task_id).
  - by destruct (task_memory self !! task_id).
  - intros -> key Hk. apply String.eqb_neq in Hk. by rewrite Hk.
Qed.


Lemma last_n_short {A} (n : nat) (l : list A) : (length l ≤ n)%nat → last_n n l = l.
Proof. intros H. unfold last_n. by replace (length l - n)%nat with 0%nat by lia. Qed.

Lemma last_n_length {A} (n : nat) (l : list A) : (length (last_n n l) ≤ n)%nat.
Proof. unfold last_n. rewrite length_drop. lia. Qed.

Lemma last_n_snoc {A} (n : nat) (l : list A) (x : A) :
  (0 < n)%nat → last_n n (last_n n l ++ [x]) = last_n n (l ++ [x]).
Proof.
  intros Hn. unfold last_n. rewrite !length_app, length_drop. simpl.
  destruct (decide (length l ≤ n)%nat) as [Hle|Hgt].
  - replace (length l - n)%nat with 0%nat by lia. simpl.
    by replace (length l - 0 + 1 - n)%nat with (length l + 1 - n)%nat by lia.
  - replace (length l - (length l - n) + 1 - n)%nat with 1%nat by lia.
    rewrite !drop_app_le by (rewrite ?length_drop; lia).
    rewrite drop_drop. f_equal. f_equal. lia.
Qed.

Lemma record_history self now i x d :
  autocomplete_history (record_autocomplete_event now i x d self)
  = last_n 50 (autocomplete_history self
               ++ [{| timestamp := now; element_index := i; text := x; detected := d |}]).
Proof.
  unfold record_autocomplete_event. simpl.
  destruct (50 <? _)%nat eqn:E; [done|].
  apply Nat.ltb_ge in E. by rewrite last_n_short.
Qed.

Lemma record_all_history events self (l : list event) :
  autocomplete_history self = last_n 50 l →
  autocomplete_history (record_all events self)
  = last_n 50 (l ++ map event_of events).
Proof.
  revert self l. induction events as [|[[[t i] x] d] events IH]; intros self l Hl; simpl.
  - by rewrite app_nil_r.
  - rewrite (IH _ (l ++ [event_of (t, i, x, d)])%list).
    + by rewrite <- app_assoc.
    + rewrite record_history, Hl. simpl. apply last_n_snoc. lia.
Qed.

Lemma record_all_task_memory events self :
  task_memory (record_all events self) = task_memory self.
Proof.
  revert self. induction events as [|ev events IH]; intros self; [done|].
  simpl. by rewrite IH.
Qed.

(** X27 (MemoryManager.record_autocomplete_event, lines 268-279): after
    recording any number of events into a history of at most 50, the
    history is the last 50 of the old history followed by the new events,
    in order; it never exceeds 50, and the task memory is untouched. *)
Theorem X27_history_keeps_the_last_fifty (events : list (time * value * value * value))
    self :
  (length (autocomplete_history self) ≤ 50)%nat →
  let self' := record_all events self in
  autocomplete_history self'
  = last_n 50 (autocomplete_history self ++ map event_of events)
  ∧ (length (autocomplete_history self') ≤ 50)%nat
  ∧ task_memory self' = task_memory self.
Proof.
  intros Hlen. simpl.
  rewrite (record_all_history events self (autocomplete_history self))
    by (by rewrite last_n_short).
  split; [done|]. split; [apply last_n_length|apply record_all_task_memory].
Qed.

(** X28 (MemoryManager.should_break_sequence, lines 281-292): with an
    empty history the answer is False; after an event is recorded the
    answer is [detected and (now - timestamp < 2)] of that event alone,
    whatever the history held before: a last event without detection never
    breaks the sequence. *)
Theorem X28_only_the_last_event_counts self (now t : time) (i x d : value) :
  should_break_sequence within_two_seconds now (init (time := time)) = VBool false
  ∧ should_break_sequence within_two_seconds now (record_autocomplete_event t i x d self)
    = py_and d (VBool (within_two_seconds now t))
  ∧ (truthy d = false →
     truthy (should_break_sequence within_two_seconds now
               (record_autocomplete_event t i x d self)) = false).
Proof.
  assert (Hlast : last (autocomplete_history (record_autocomplete_event t i x d self))
                  = Some {| timestamp := t; element_index := i; text := x; detected := d |}).
  { rewrite record_history. unfold last_n. rewrite length_app. simpl.
    rewrite drop_app_le by lia. apply last_snoc. }
  split; [done|].
  assert (H : should_break_sequence within_two_seconds now
                (record_autocomplete_event t i x d self)
              = py_and d (VBool (within_two_seconds now t))).
  { unfold should_break_sequence. by rewrite Hlast. }
  split; [done|]. intros Hd. rewrite H. unfold py_and. by rewrite Hd.
Qed.

End Memory.

Section Changes.
Import EnhancedActions.

(** X29 (_detect_dom_changes, lines 234-242): two DOM states differ
    exactly when their numbers of autocomplete elements differ; the test
    is symmetric, and a state does not differ from itself. *)
Theorem X29_dom_changed_iff_counts_differ (pre post : value) (m n : Z) :
  autocomplete_count pre = Returns m →
  autocomplete_count post = Returns n →
  _detect_dom_changes pre post = Returns (negb (m =? n)%Z)
  ∧ _detect_dom_changes post pre = _detect_dom_changes pre post
  ∧ _detect_dom_changes pre pre = Returns false.
Proof.
  intros Hm Hn. unfold _detect_dom_changes. rewrite Hm, Hn. simpl.
  assert (E : ∀ a c : Z, (0 <? Z.abs (a - c))%Z = negb (c =? a)%Z).
  { intros a c. destruct (Z.eqb_spec c a) as [->|Hne]; simpl.
    - rewrite Z.sub_diag. reflexivity.
    - apply Z.ltb_lt. lia. }
  rewrite !E, Z.eqb_refl. repeat split. by rewrite Z.eqb_sym.
Qed.

(** X30 (_capture_dom_state, lines 141-183, with MockPage.evaluate, lines
    250-254): capturing the DOM state never raises and leaves the caller's
    state unchanged: it gives the script's result when the bridge reports
    success, None when it reports no success, and the empty state
    [{autocompleteElements: [], timestamp: 0}] when the command raised or
    the reply is not a dictionary.  A captured None makes the comparison
    of lines 234-242 raise AttributeError. *)
Theorem X30_capture_never_raises (b : bridge) {St} (s : St) :
  let answer := reply b "evaluate" (VDict [("expression", VStr capture_script)]) in
  ∃ captured,
    exec b (_capture_dom_state s) = (Returns captured, s)
    ∧ captured
      = match answer with
        | Returns (VDict d) =>
            if truthy (default VNone (dict_get "success" d))
            then default VNone (dict_get "result" d)
            else VNone
        | _ => empty_dom_state
        end
    ∧ (captured = VNone →
       ∀ other, _detect_dom_changes captured other = Raises AttributeError).
Proof.
  intros answer. unfold _capture_dom_state, MockPage.evaluate.
  rewrite exec_try_except, exec_bind, exec_bridge_evaluate. fold answer.
  destruct answer as [[| | | | |d]|e];
    try (eexists; split; [reflexivity|]; split; [reflexivity|]; intros E other;
         first [discriminate E | by rewrite E | done]).
  rewrite exec_bind, exec_eval. cbn beta iota delta [py_get].
  destruct (truthy (default VNone (dict_get "success" d)));
    (eexists; split; [reflexivity|]; split; [reflexivity|]; intros E other;
     first [discriminate E | by rewrite E | done]).
Qed.

End Changes.

(** ** Examples of the further properties *)

Section FurtherExamples.

(** X1 on the controller before the extension has connected. *)
Lemma X1_send_command_not_connected_witness :
  BridgeController.send_command_begin "c1" "get_dom" (VDict []) None BridgeController.init
  = (Raises (Exception "Bridge extension not connected"), BridgeController.init).
Proof. apply X1_send_command_not_connected. reflexivity. Defined.

(** X2 when the send times out under the sender. *)
Lemma X2_failed_send_leaves_no_waiter_witness :
  let st := BridgeController.on_connect 7 BridgeController.init in
  BridgeController.send_command_begin "c1" "get_dom" (VDict []) (Some TimeoutError) st
  = (Raises (Exception "Command timeout"), st).
Proof.
  intros st. apply (X2_failed_send_leaves_no_waiter st "c1" "get_dom" (VDict []) TimeoutError);
    reflexivity.
Defined.

(** X3 on a response to the command in flight. *)
Lemma X3_only_pending_responses_change_state_witness :
  let st := snd (BridgeController.send_command_begin "c1" "get_dom" (VDict []) None
                   (BridgeController.on_connect 7 BridgeController.init)) in
  BridgeController.pending_commands
    (BridgeController.on_message (Some (BridgeController.response "c1" (VInt 2))) st)
  !! "c1"
  = Some {| BridgeController.event := true; BridgeController.result := VInt 2 |}.
Proof.
  intros st.
  destruct (X3_only_pending_responses_change_state st
              (Some (BridgeController.response "c1" (VInt 2)))) as [Hdeliver _].
  destruct (Hdeliver [("type", VStr "response"); ("id", VStr "c1"); ("result", VInt 2)]
              "c1" {| BridgeController.event := false; BridgeController.result := VNone |}
              eq_refl eq_refl eq_refl eq_refl) as (_ & Hslot & _).
  exact Hslot.
Defined.

(** X5 with a response to another command and a disconnection before the
    response, and an unreadable frame after it. *)
Lemma X5_response_correlated_by_id_witness :
  let st := BridgeController.on_connect 7 BridgeController.init in
  let l1 := [BridgeController.Message (Some (BridgeController.response "c0" (VInt 5)));
             BridgeController.Disconnect] in
  let l2 := [BridgeController.Message None] in
  ∃ st1,
    BridgeController.send_command_begin "c1" "get_dom" (VDict []) None st
      = (Returns (BridgeController.command_frame "c1" "get_dom" (VDict [])), st1)
    ∧ BridgeController.may_wake BridgeController.Signalled "c1"
        (BridgeController.run st1 l1) = false
    ∧ let st' :=
        BridgeController.run
          (BridgeController.on_message
             (Some (BridgeController.response "c1" (VInt 2)))
             (BridgeController.run st1 l1)) l2 in
      BridgeController.may_wake BridgeController.Signalled "c1" st' = true
      ∧ (∃ st2,
           BridgeController.send_command_resume BridgeController.Signalled "c1" st'
           = (Returns (VInt 2), st2)
           ∧ BridgeController.pending_commands st2 !! "c1" = None)
      ∧ (∃ st2,
           BridgeController.send_command_resume BridgeController.TimedOut "c1" st'
           = (Raises (Exception "Command timeout"), st2)
           ∧ BridgeController.pending_commands st2 !! "c1" = None).
Proof.
  intros st l1 l2.
  apply (X5_response_correlated_by_id st "c1" "get_dom" (VDict []) (VInt 2) l1 l2).
  - reflexivity.
  - repeat constructor.
  - repeat constructor.
Defined.

(** X6 on a fresh session and an extension that navigates. *)
Lemma X6_navigate_tracks_url_witness :
  ∃ s',
    exec dom_failing
      (BridgeSession.navigate (VStr "https://example.org") BridgeSession.__init__)
    = (Returns true, s')
    ∧ BridgeSession.current_url s' = VStr "https://example.org".
Proof.
  destruct (X6_navigate_tracks_url dom_failing BridgeSession.__init__
              (VStr "https://example.org") [("success", VBool true)] eq_refl)
    as (s' & He & _ & Hok).
  exists s'. split; [exact He|]. apply Hok. reflexivity.
Defined.

(** X7 on a fresh session and an extension that refuses to navigate. *)
Lemma X7_landing_failure_tolerated_witness :
  exec landing_refused (BridgeSession.ensure_start_url BridgeSession.__init__)
  = (Returns tt, BridgeSession.__init__)
  ∧ ∃ rest,
      sent landing_refused
        (BridgeSession.get_browser_state_with_recovery (value_repr := sample_repr)
           BridgeSession.__init__)
      = ("navigate", VDict [("url", VStr BridgeSession.landing_page)])
        :: ("get_dom", VDict []) :: rest.
Proof.
  apply (X7_landing_failure_tolerated (value_repr := sample_repr) landing_refused
           BridgeSession.__init__ [("success", VBool false)]); reflexivity.
Defined.

(** X8 on a fresh session and an extension that answers nothing. *)
Lemma X8_landing_exception_propagates_witness :
  exec silent_bridge
    (BridgeSession.get_browser_state_with_recovery (value_repr := sample_repr)
       BridgeSession.__init__)
  = (Raises (Exception "Command timeout"), BridgeSession.__init__)
  ∧ sent silent_bridge
      (BridgeSession.get_browser_state_with_recovery (value_repr := sample_repr)
         BridgeSession.__init__)
    = [("navigate", VDict [("url", VStr BridgeSession.landing_page)])].
Proof.
  apply (X8_landing_exception_propagates (value_repr := sample_repr) silent_bridge
           BridgeSession.__init__ (Exception "Command timeout")); reflexivity.
Defined.

(** X9 on the snapshot of the scenario. *)
Lemma X9_session_follows_snapshot_witness :
  ∃ summary s',
    exec scenario_bridge
      (BridgeSession.get_browser_state_with_recovery (value_repr := sample_repr) browsing)
    = (Returns summary, s')
    ∧ BridgeSession.current_url s' = BrowserStateSummary.url summary
    ∧ BrowserStateSummary.tabs summary
      = [{| TabInfo.page_id := 1;
            TabInfo.url := BrowserStateSummary.url summary;
            TabInfo.title := BrowserStateSummary.title summary |}].
Proof.
  eexists _, _. split; [reflexivity|].
  destruct (X9_session_follows_snapshot (value_repr := sample_repr) scenario_bridge
              browsing _ _ eq_refl) as (Hurl & _ & Htabs & _); [discriminate|].
  split; [exact Hurl|exact Htabs].
Defined.

(** X10 on the snapshot of the scenario. *)
Lemma X10_same_snapshot_same_state_witness :
  ∃ summary s',
    exec scenario_bridge
      (BridgeSession.get_browser_state_with_recovery (value_repr := sample_repr) browsing)
    = (Returns summary, s')
    ∧ exec scenario_bridge
        (BridgeSession.get_browser_state_with_recovery (value_repr := sample_repr) s')
      = (Returns summary, s').
Proof.
  eexists _, _. split; [reflexivity|].
  apply (X10_same_snapshot_same_state (value_repr := sample_repr) scenario_bridge browsing);
    [reflexivity|discriminate|reflexivity].
Defined.

(** X11 on the snapshot of a blank page. *)
Lemma X11_blank_page_sends_to_landing_witness :
  ∃ summary s',
    exec blank_bridge
      (BridgeSession.get_browser_state_with_recovery (value_repr := sample_repr) browsing)
    = (Returns summary, s')
    ∧ ∃ rest,
        sent blank_bridge
          (BridgeSession.get_browser_state_with_recovery (value_repr := sample_repr) s')
        = ("navigate", VDict [("url", VStr BridgeSession.landing_page)]) :: rest.
Proof.
  eexists _, _. split; [reflexivity|].
  apply (X11_blank_page_sends_to_landing (value_repr := sample_repr) blank_bridge browsing
           _ _ eq_refl); [discriminate|reflexivity].
Defined.

(** X12 on the snapshot of the scenario. *)
Lemma X12_root_owns_the_elements_witness :
  ∃ summary s',
    exec scenario_bridge
      (BridgeSession.get_browser_state_with_recovery (value_repr := sample_repr) browsing)
    = (Returns summary, s')
    ∧ ∃ root,
        BrowserStateSummary.element_tree summary = Some root
        ∧ tag_name root = VStr "root"
        ∧ parent root = None
        ∧ highlight_index root = VNone
        ∧ children root = dict_values (BrowserStateSummary.selector_map summary)
        ∧ Forall (fun child => parent child = Some RootElement ∧ children child = [])
            (children root)
        ∧ ViewportInfo.width (viewport_info root)
          = PageInfo.viewport_width (BrowserStateSummary.page_info summary)
        ∧ ViewportInfo.height (viewport_info root)
          = PageInfo.viewport_height (BrowserStateSummary.page_info summary).
Proof.
  eexists _, _. split; [reflexivity|].
  apply (X12_root_owns_the_elements (value_repr := sample_repr) scenario_bridge browsing
           _ _ eq_refl).
  discriminate.
Defined.

(** X13 on the snapshot of the scenario. *)
Lemma X13_selector_map_keys_distinct_witness :
  ∃ summary s',
    exec scenario_bridge
      (BridgeSession.get_browser_state_with_recovery (value_repr := sample_repr) browsing)
    = (Returns summary, s')
    ∧ keys_hashable (BrowserStateSummary.selector_map summary)
    ∧ keys_distinct (BrowserStateSummary.selector_map summary).
Proof.
  eexists _, _. split; [reflexivity|].
  destruct (X13_selector_map_keys_distinct (value_repr := sample_repr) scenario_bridge
              browsing _ _ eq_refl) as (Hh & Hd & _); [discriminate|].
  split; [exact Hh|exact Hd].
Defined.

(** X14 on a snapshot whose first element is null. *)
Lemma X14_failed_reconstruction_not_rolled_back_witness :
  ∃ s',
    exec silent_bridge
      (BridgeSession.reconstruct broken_dom_result browsing)
    = (Raises AttributeError, s')
    ∧ BridgeSession.current_url s' = VStr "https://example.org"
    ∧ BridgeSession._tab_infos s' = VList [VDict [("id", VInt 7)]].
Proof.
  destruct (X14_failed_reconstruction_not_rolled_back
              silent_bridge browsing broken_dom_result
              [("elements", VList [VNone]); ("url", VStr "https://example.org");
               ("title", VStr "Example"); ("tabs", VList [VDict [("id", VInt 7)]])]
              VNone [] fallback_page_info eq_refl eq_refl eq_refl eq_refl)
    as (s' & He & Hu & Ht & _).
  exists s'. split; [exact He|]. split; [exact Hu|exact Ht].
Defined.

(** X15 when the probe of the dimensions times out. *)
Lemma X15_probe_failure_gives_defaults_witness :
  ∃ summary,
    exec silent_bridge
      (BridgeSession.degraded (value_repr := sample_repr)
         (VDict [("success", VBool false)]) browsing)
    = (Returns summary, browsing)
    ∧ BrowserStateSummary.page_info summary = fallback_page_info
    ∧ BrowserStateSummary.pixels_above summary = VInt 0
    ∧ BrowserStateSummary.pixels_below summary = VInt 0.
Proof.
  apply (X15_probe_failure_gives_defaults (value_repr := sample_repr) silent_bridge).
  reflexivity.
Defined.

(** X16 when the probe reports a viewport of width 0 and a page of width 0
    and no height: the zeros are kept, the height of the page is the
    viewport's. *)
Lemma X16_probe_dimensions_taken_as_reported_witness :
  ∃ summary,
    exec probe_bridge
      (BridgeSession.degraded (value_repr := sample_repr)
         (VDict [("success", VBool false)]) browsing)
    = (Returns summary, browsing)
    ∧ PageInfo.viewport_width (BrowserStateSummary.page_info summary) = VInt 0
    ∧ PageInfo.viewport_height (BrowserStateSummary.page_info summary) = VInt 600
    ∧ PageInfo.page_width (BrowserStateSummary.page_info summary) = VInt 0
    ∧ PageInfo.page_height (BrowserStateSummary.page_info summary) = VInt 600.
Proof.
  destruct (X16_probe_dimensions_taken_as_reported (value_repr := sample_repr)
              probe_bridge browsing [("success", VBool false)]
              _ _ _ _ eq_refl eq_refl eq_refl eq_refl eq_refl)
    as (summary & He & Hvw & Hvh & Hpw & Hph).
  exists summary. split; [exact He|].
  split; [exact Hvw|]. split; [exact Hvh|].
  split; [by rewrite Hpw|by rewrite Hph, Hvh].
Defined.

(** X17 on a fresh session and an extension that fails [get_dom]. *)
Lemma X17_no_element_in_degraded_state_witness :
  exec dom_failing
    (BridgeSession.get_dom_element_by_index (value_repr := sample_repr) (VInt 3)
       BridgeSession.__init__)
  = (Returns None, landed).
Proof.
  apply (X17_no_element_in_degraded_state (value_repr := sample_repr) dom_failing
           BridgeSession.__init__ landed
           [("success", VBool false); ("error", VStr "No active tab")] (VInt 3));
    reflexivity.
Defined.

(** X18 on the snapshot of the scenario: the index 3 finds the link, the
    index 4 finds nothing. *)
Lemma X18_element_by_index_is_last_reported_witness :
  ∃ summary s',
    exec scenario_bridge
      (BridgeSession.get_browser_state_with_recovery (value_repr := sample_repr) browsing)
    = (Returns summary, s')
    ∧ exec scenario_bridge
        (BridgeSession.get_dom_element_by_index (value_repr := sample_repr) (VInt 3)
           browsing)
      = (Returns (Some scenario_element), s')
    ∧ exec scenario_bridge
        (BridgeSession.get_dom_element_by_index (value_repr := sample_repr) (VInt 4)
           browsing)
      = (Returns None, s').
Proof.
  eexists _, _. split; [reflexivity|]. split.
  - destruct (X18_element_by_index_is_last_reported (value_repr := sample_repr)
                scenario_bridge browsing _ _ (VInt 3) eq_refl)
      as (dom_result & dom_data & viewport & elements & items
          & H1 & H2 & H3 & H4 & H5 & H6);
      [discriminate|reflexivity|].
    injection H1 as <-. injection H2 as <-. injection H3 as <-.
    injection H4 as <-. injection H5 as <-. exact H6.
  - destruct (X18_element_by_index_is_last_reported (value_repr := sample_repr)
                scenario_bridge browsing _ _ (VInt 4) eq_refl)
      as (dom_result & dom_data & viewport & elements & items
          & H1 & H2 & H3 & H4 & H5 & H6);
      [discriminate|reflexivity|].
    injection H1 as <-. injection H2 as <-. injection H3 as <-.
    injection H4 as <-. injection H5 as <-. exact H6.
Defined.

(** X19 on the snapshot of the scenario, which lists no tabs. *)
Lemma X19_tabs_fall_back_to_current_page_witness :
  ∃ summary s',
    exec scenario_bridge
      (BridgeSession.get_browser_state_with_recovery (value_repr := sample_repr) browsing)
    = (Returns summary, s')
    ∧ BridgeSession.tabs s'
      = Returns [BridgeSession.CurrentTab
                   {| CurrentPageProxy.url := VStr "https://example.com";
                      CurrentPageProxy._title := VStr "";
                      CurrentPageProxy.id := VInt 1;
                      CurrentPageProxy._closed := false |}].
Proof.
  eexists _, _. split; [reflexivity|].
  apply (X19_tabs_fall_back_to_current_page (value_repr := sample_repr) scenario_bridge
           browsing _ _ eq_refl); [discriminate|reflexivity].
Defined.

(** X20 on a session with two tabs. *)
Lemma X20_one_proxy_per_descriptor_witness :
  BridgeSession.tabs two_tabs
  = Returns [BridgeSession.BridgeTab (BridgePageProxy.__init__ (VInt 7) (VStr "https://a.example")
                          (VStr "A"));
             BridgeSession.BridgeTab (BridgePageProxy.__init__ (VInt 8) (VStr "") (VStr ""))].
Proof.
  destruct (X20_one_proxy_per_descriptor two_tabs two_tab_descriptors VNone [])
    as [H _]; [discriminate|].
  apply H. reflexivity.
Defined.

(** X21 on three proxies of the same tab with different urls. *)
Lemma X21_proxy_equality_is_an_equivalence_witness :
  let p := BridgePageProxy.__init__ (VInt 7) (VStr "https://a.example") (VStr "A") in
  let q := BridgePageProxy.__init__ (VInt 7) (VStr "https://b.example") (VStr "B") in
  let r := BridgePageProxy.__init__ (VInt 7) (VStr "https://c.example") (VStr "C") in
  BridgePageProxy.__eq__ p p = true
  ∧ BridgePageProxy.__eq__ p q = BridgePageProxy.__eq__ q p
  ∧ (BridgePageProxy.__eq__ p q = true → BridgePageProxy.__eq__ q r = true →
     BridgePageProxy.__eq__ p r = true).
Proof.
  intros p q r. apply (X21_proxy_equality_is_an_equivalence p q r); reflexivity.
Defined.

(** X22 on the element of the scenario and an extension that reports the
    click as not done. *)
Lemma X22_click_returns_only_when_confirmed_witness :
  (∀ v s',
     exec click_rejected
       (BridgeSession._click_element_node (value_repr := sample_repr)
          (node_repr := sample_node_repr)
          scenario_element browsing)
     = (Returns v, s') → v = VNone)
  ∧ sent click_rejected
      (BridgeSession._click_element_node (value_repr := sample_repr)
          (node_repr := sample_node_repr)
         scenario_element browsing)
    = [("click", VDict [("index", VInt 3)])].
Proof.
  destruct (X22_click_returns_only_when_confirmed (value_repr := sample_repr)
              (node_repr := sample_node_repr)
              click_rejected browsing scenario_element) as (_ & Hv & _ & Hs);
    [discriminate|].
  split; [exact Hv|exact Hs].
Defined.

(** X23 on the element of the scenario and an extension that focuses it
    and then reports the text as not typed. *)
Lemma X23_typing_needs_focus_only_witness :
  sent typing_rejected
    (BridgeSession._input_text_element_node
       scenario_element (VStr "hello") browsing)
  = [("click", VDict [("index", VInt 3)]); ("type", VDict [("text", VStr "hello")])].
Proof.
  destruct (X23_typing_needs_focus_only
              typing_rejected browsing scenario_element (VStr "hello")
              [("success", VBool true); ("clicked", VBool true)])
    as (Hs & _); [discriminate|reflexivity|].
  exact Hs.
Defined.


(** X27 on two events recorded into an empty memory. *)
Lemma X27_history_keeps_the_last_fifty_witness :
  MemoryManager.autocomplete_history (record_all two_events MemoryManager.init)
  = MemoryManager.last_n 50 (map event_of two_events).
Proof.
  destruct (X27_history_keeps_the_last_fifty two_events MemoryManager.init)
    as (H & _); [simpl; lia|].
  exact H.
Defined.

(** X29 on the empty DOM state and a state with one dropdown. *)
Lemma X29_dom_changed_iff_counts_differ_witness :
  EnhancedActions._detect_dom_changes EnhancedActions.empty_dom_state one_dropdown
  = Returns true
  ∧ EnhancedActions._detect_dom_changes one_dropdown EnhancedActions.empty_dom_state
    = Returns true
  ∧ EnhancedActions._detect_dom_changes EnhancedActions.empty_dom_state
      EnhancedActions.empty_dom_state
    = Returns false.
Proof.
  destruct (X29_dom_changed_iff_counts_differ EnhancedActions.empty_dom_state
              one_dropdown 0 1 eq_refl eq_refl) as (H1 & H2 & H3).
  split; [exact H1|]. split; [by rewrite H2|exact H3].
Defined.

End FurtherExamples.
